(** * gitbranchfiles: the branch-file resolution of [extension.ts]

    A shallow embedding of the command [gitbranchfiles.selectBranchFiles]
    (from the choice of the repository path to the formatted file list) and
    the properties of its changed-file resolver, working-tree scanner and
    result merger.

    Conventions of the model.
    - A JavaScript string is a [string]: a sequence of 8-bit code units (the
      Latin-1 part of UTF-16).  The String.prototype methods the program
      calls are defined in [Module JS].
    - [cp.execSync] spawns a process; its answer is taken from an oracle that
      is asked with the number of the call, the working directory and the
      command line, and that either gives the standard output or throws.
    - [try]/[catch] and the assignments to [committedFiles] and
      [modifiedFiles] are threaded through a state-and-exception monad.
    - [String.prototype.localeCompare] is the platform's: its result depends
      on the default locale and on the collation data of the runtime.  It
      is a component of the host, and what a property needs of it is a
      hypothesis of that property. *)

From Stdlib Require Import Bool Arith Lia List ZArith Ascii String.
From Stdlib Require Import Permutation Sorted FinFun DecimalString.
Import ListNotations.

Open Scope list_scope.
Open Scope string_scope.

(* ================================================================== *)
(** ** String.prototype, as far as the program uses it *)
(* ================================================================== *)

Module JS.

(** The double quote, for command lines that quote a path. *)
Definition dquote : string := String "034"%char EmptyString.

(** The line feed, ['\n']. *)
Definition LF : ascii := "010"%char.

(** White space of [trim] among the 8-bit code units: TAB, LF, VT, FF, CR,
    SPACE and NBSP. *)
Definition isWhiteSpace (c : ascii) : bool :=
  let n := nat_of_ascii c in
  (((9 <=? n) && (n <=? 13)) || (n =? 32) || (n =? 160))%nat.

(** [s.startsWith(p)] *)
Fixpoint startsWith (s p : string) {struct p} : bool :=
  match p with
  | EmptyString => true
  | String c p' =>
      match s with
      | EmptyString => false
      | String d s' => Ascii.eqb c d && startsWith s' p'
      end
  end.

(** [s.includes(sub)] *)
Fixpoint includes (s sub : string) : bool :=
  startsWith s sub ||
  match s with
  | EmptyString => false
  | String _ s' => includes s' sub
  end.

(** [s.endsWith(suf)] *)
Fixpoint endsWith (s suf : string) : bool :=
  String.eqb s suf ||
  match s with
  | EmptyString => false
  | String _ s' => endsWith s' suf
  end.

(** [s.substring(n)]: the string without its first [n] code units. *)
Fixpoint substringFrom (n : nat) (s : string) : string :=
  match n, s with
  | O, _ => s
  | S _, EmptyString => EmptyString
  | S n', String _ s' => substringFrom n' s'
  end.

(** [s.replace(pat, '')] for a string pattern: the first occurrence of
    [pat] is removed, the rest is kept. *)
Fixpoint removeFirst (s pat : string) : string :=
  if startsWith s pat then substringFrom (String.length pat) s
  else match s with
       | EmptyString => EmptyString
       | String c s' => String c (removeFirst s' pat)
       end.

Fixpoint trimStart (s : string) : string :=
  match s with
  | EmptyString => EmptyString
  | String c s' => if isWhiteSpace c then trimStart s' else s
  end.

Fixpoint trimEnd (s : string) : string :=
  match s with
  | EmptyString => EmptyString
  | String c s' =>
      match trimEnd s' with
      | EmptyString => if isWhiteSpace c then EmptyString
                       else String c EmptyString
      | r => String c r
      end
  end.

(** [s.trim()] *)
Definition trim (s : string) : string := trimEnd (trimStart s).

(** [s.split('\n')]: never empty, [''.split('\n')] is [['']]. *)
Fixpoint splitLines (s : string) : list string :=
  match s with
  | EmptyString => [EmptyString]
  | String c s' =>
      if Ascii.eqb c LF then EmptyString :: splitLines s'
      else match splitLines s' with
           | [] => [String c EmptyString]
           | h :: t => String c h :: t
           end
  end.

(** [arr.includes(x)] on an array of strings. *)
Definition arrayIncludes (arr : list string) (x : string) : bool :=
  existsb (String.eqb x) arr.

(** [[...new Set(arr)]]: the first occurrence of every element, in the
    order of insertion. *)
Fixpoint uniqueFrom (seen arr : list string) : list string :=
  match arr with
  | [] => []
  | x :: r => if arrayIncludes seen x then uniqueFrom seen r
              else x :: uniqueFrom (x :: seen) r
  end.

Definition newSet (arr : list string) : list string := uniqueFrom [] arr.

(** The class [\w] of a regular expression. *)
Definition isWordChar (c : ascii) : bool :=
  let n := nat_of_ascii c in
  (((48 <=? n) && (n <=? 57)) || ((65 <=? n) && (n <=? 90)) ||
   ((97 <=? n) && (n <=? 122)) || (n =? 95))%nat.

Fixpoint dropWordChars (s : string) : string :=
  match s with
  | EmptyString => EmptyString
  | String c s' => if isWordChar c then dropWordChars s' else s
  end.

(** Lower case of an ASCII letter; every other code unit is kept. *)
Definition foldCase (c : ascii) : ascii :=
  let n := nat_of_ascii c in
  if ((65 <=? n) && (n <=? 90))%nat then ascii_of_nat (n + 32) else c.

(** [a.localeCompare(b, undefined, { sensitivity: 'base' })]: a negative
    number, zero or a positive number.  Which one is decided by the
    collation of the default locale, which is no part of the program: the
    comparison is a parameter of everything that sorts, and the host of a
    run provides it. *)
Definition Collation : Type := string -> string -> Z.

(** [[...arr].sort(cmp)].  Array.prototype.sort is stable; with a comparator
    that is a total preorder its result is the one stable sorted
    arrangement, which insertion from the right computes: an element is
    put before the first element that does not compare smaller.  With any
    other comparator the language leaves the order open, and only that the
    result is a rearrangement of the array is to be relied on. *)
Section Sort.
Variable cmp : string -> string -> Z.

Fixpoint insertSorted (x : string) (l : list string) : list string :=
  match l with
  | [] => [x]
  | y :: r => if (cmp x y <=? 0)%Z then x :: l else y :: insertSorted x r
  end.

Fixpoint sortBy (l : list string) : list string :=
  match l with
  | [] => []
  | x :: r => insertSorted x (sortBy r)
  end.
End Sort.

(** A JavaScript condition on a string: the empty string is falsy. *)
Definition truthy (s : string) : bool :=
  match s with
  | EmptyString => false
  | String _ _ => true
  end.

End JS.

(* ================================================================== *)
(** ** The host: child processes and the quick pick *)
(* ================================================================== *)

(** What [cp.execSync] does with a command: it returns the standard output
    or it throws an [Error] with a message. *)
Inductive ExecResult : Type :=
| Stdout (out : string)
| Throws (message : string).

(** One call of [cp.execSync(command, { cwd })]. *)
Record Call : Type := mkCall { call_cwd : string; call_command : string }.

(** An item of the branch quick pick (lines 292-300). *)
Record BranchItem : Type :=
  mkBranchItem { label : string; description : string }.

(** The selected directory, as it stands at line 262: [isExternal] is falsy
    when the property is absent. *)
Record DirectoryItem : Type :=
  mkDirectoryItem { path : string; absolutePath : string; isExternal : bool }.

(** The surroundings of one run.  [execOracle n cwd command] is the answer
    to the call number [n] (counted from 0) of [cp.execSync]; [showQuickPick]
    is the user's choice in [vscode.window.showQuickPick];
    [localeCompareBase a b] is what
    [a.localeCompare(b, undefined, { sensitivity: 'base' })] gives in the
    locale of the run. *)
Record Host : Type := mkHost {
  execOracle : nat -> string -> string -> ExecResult;
  showQuickPick : list BranchItem -> option BranchItem;
  localeCompareBase : JS.Collation
}.

(* ================================================================== *)
(** ** State and exceptions *)
(* ================================================================== *)

(** The calls made so far and the two arrays the resolution assigns. *)
Record Frame : Type := mkFrame {
  calls : list Call;
  committedFiles : list string;
  modifiedFiles : list string
}.

Definition emptyFrame : Frame := mkFrame [] [] [].

Inductive Completion (A : Type) : Type :=
| Normal (a : A)
| Thrown (message : string).
Arguments Normal {A} a.
Arguments Thrown {A} message.

Definition M (A : Type) : Type := Frame -> Completion A * Frame.

Definition ret {A} (a : A) : M A := fun st => (Normal a, st).

Definition bind {A B} (m : M A) (k : A -> M B) : M B :=
  fun st =>
    match m st with
    | (Normal a, st') => k a st'
    | (Thrown e, st') => (Thrown e, st')
    end.

(** [try { body } catch (error) { handler }]: what the body did to the
    state before it threw stays done. *)
Definition tryCatch {A} (body : M A) (handler : string -> M A) : M A :=
  fun st =>
    match body st with
    | (Normal a, st') => (Normal a, st')
    | (Thrown e, st') => handler e st'
    end.

(** [throw new Error(message)], and what the engine does on its own when a
    property of [undefined] is read. *)
Definition throw {A} (message : string) : M A := fun st => (Thrown message, st).

Declare Scope js_scope.
Delimit Scope js_scope with js.
Notation "x <- m ;; k" := (bind m (fun x => k))
  (at level 61, m at next level, right associativity) : js_scope.
Notation "m ;;; k" := (bind m (fun _ => k))
  (at level 61, right associativity) : js_scope.
Open Scope js_scope.

Definition setCommittedFiles (files : list string) : M unit :=
  fun st => (Normal tt, mkFrame (calls st) files (modifiedFiles st)).

Definition setModifiedFiles (files : list string) : M unit :=
  fun st => (Normal tt, mkFrame (calls st) (committedFiles st) files).

Definition getModifiedFiles : M (list string) :=
  fun st => (Normal (modifiedFiles st), st).

Definition getCommittedFiles : M (list string) :=
  fun st => (Normal (committedFiles st), st).

(* ================================================================== *)
(** ** The command [gitbranchfiles.selectBranchFiles], lines 262-593 *)
(* ================================================================== *)

(** What the user gets in the end. *)
Record Resolution : Type := mkResolution {
  res_branchName : string;
  res_committedFiles : list string;
  res_modifiedFiles : list string;
  res_changedFiles : list string;
  res_sortedFiles : list string;
  res_formattedFiles : list string
}.

Inductive Outcome : Type :=
| ShowError (message : string)   (* [showErrorMessage] and return *)
| NoSelection                    (* the quick pick was dismissed *)
| ShowDocument (r : Resolution). (* the list is opened as a document *)

(** *** Branch names *)

(** Lines 326-329: "remotes/origin/main" becomes "origin/main". *)
Definition cleanRemoteBranchName (branchName : string) : string :=
  if JS.includes branchName "remotes/"
  then JS.removeFirst branchName "remotes/"
  else branchName.

(** Lines 486-487: the match of [/^(refs\/heads\/|refs\/remotes\/\w+\/)/],
    given by what follows it.  The second alternative needs one word
    character at least and a slash right after the longest run of them; no
    shorter run can be followed by a slash. *)
Definition refsPrefixMatch (s : string) : option string :=
  if JS.startsWith s "refs/heads/" then Some (JS.substringFrom 11 s)
  else if JS.startsWith s "refs/remotes/" then
    let afterRemotes := JS.substringFrom 13 s in
    let afterWord := JS.dropWordChars afterRemotes in
    if negb (String.eqb afterWord afterRemotes) && JS.startsWith afterWord "/"
    then Some (JS.substringFrom 1 afterWord)
    else None
  else None.

(** [s.replace(/^(refs\/heads\/|refs\/remotes\/\w+\/)/, '')] *)
Definition normalizeBranch (s : string) : string :=
  match refsPrefixMatch s with
  | Some rest => rest
  | None => s
  end.

(** Lines 347 and 444. *)
Definition isSameBranch (branchName baseRef : string) : bool :=
  String.eqb branchName baseRef || JS.endsWith branchName ("/" ++ baseRef).

(** Line 493. *)
Definition isRemoteBranch (branchName : string) : bool :=
  JS.includes branchName "/" && negb (JS.startsWith branchName "refs/heads/").

(** Line 490, on the trimmed output of the current-branch command. *)
Definition isOnSelectedBranch (currentBranch branchName : string) : bool :=
  String.eqb (normalizeBranch currentBranch) (normalizeBranch branchName).

(** *** Command lines *)

Definition gitCheckCommand : string := "git rev-parse --is-inside-work-tree".
Definition branchListCommand : string := "git branch --all".
Definition showRefCommand : string :=
  "git show-ref --verify --quiet refs/heads/main".
Definition statusCommand : string := "git status --porcelain".
Definition currentBranchCommand : string := "git rev-parse --abbrev-ref HEAD".

(** Lines 355, 430 and 441: [` -- "${pathForGitCommands}"`] or nothing. *)
Definition pathFilter (pathForGitCommands : string) : string :=
  if JS.truthy pathForGitCommands
  then " -- " ++ JS.dquote ++ pathForGitCommands ++ JS.dquote
  else "".

(** Line 356. *)
Definition allFilesCommand (branchName pathForGitCommands : string) : string :=
  "git log --name-only --format=" ++ JS.dquote ++ JS.dquote ++ " "
  ++ branchName ++ pathFilter pathForGitCommands ++ " | sort | uniq".

(** Line 426. *)
Definition mergeBaseCommand (baseRef branchName : string) : string :=
  "git merge-base " ++ baseRef ++ " " ++ branchName.

(** Line 431. *)
Definition committedFilesCommand
    (mergeBase branchName pathForGitCommands : string) : string :=
  "git diff --name-only --recurse-submodules " ++ mergeBase ++ " "
  ++ branchName ++ pathFilter pathForGitCommands.

(** Line 445. *)
Definition recentFilesCommand (pathForGitCommands : string) : string :=
  "git log --name-only --pretty=format: -n 20" ++ pathFilter pathForGitCommands.

(** Line 450. *)
Definition fallbackCommand
    (baseRef branchName pathForGitCommands : string) : string :=
  "git diff --name-only --recurse-submodules " ++ baseRef ++ "..."
  ++ branchName ++ pathFilter pathForGitCommands.

(** Lines 512-513: here the path is quoted without the [--]. *)
Definition modifiedFilesCommand (pathForGitCommands : string) : string :=
  "git ls-files --modified --recurse-submodules"
  ++ (if JS.truthy pathForGitCommands
      then " " ++ JS.dquote ++ pathForGitCommands ++ JS.dquote
      else "").

(** *** Pieces of the text processing *)

(** [file => file.trim() !== ''] *)
Definition notBlank (file : string) : bool :=
  negb (String.eqb (JS.trim file) "").

(** Lines 461-463 and 500-502: the paths of a porcelain status. *)
Definition statusFilesOf (statusOutput : string) : list string :=
  map (fun line => JS.trim (JS.substringFrom 3 line))
      (filter notBlank (JS.splitLines statusOutput)).

(** Lines 465-469 and 505-509. *)
Definition underFolder (folderPath : string) (files : list string)
  : list string :=
  if JS.truthy folderPath
  then filter (fun file => JS.startsWith file folderPath) files
  else files.

(** *** The result merger and sorter, lines 530-555 *)

Definition isDirLike (a : string) : bool :=
  JS.endsWith a "/" || negb (JS.includes a ".").

(** The comparator of lines 536-547; [localeCompare] stands for the call of
    line 546. *)
Definition compareFiles (localeCompare : JS.Collation) (a b : string) : Z :=
  let aIsDir := isDirLike a in
  let bIsDir := isDirLike b in
  if aIsDir && negb bIsDir then (-1)%Z
  else if negb aIsDir && bIsDir then 1%Z
  else localeCompare a b.

Definition allChangedFilesOf (committed modified : list string) : list string :=
  JS.newSet (committed ++ modified).

Definition changedFilesOf (committed modified : list string) : list string :=
  filter notBlank (allChangedFilesOf committed modified).

Definition sortedFilesOf
    (localeCompare : JS.Collation) (committed modified : list string)
  : list string :=
  JS.sortBy (compareFiles localeCompare) (changedFilesOf committed modified).

Definition formatFile (modified : list string) (file : string) : string :=
  if JS.arrayIncludes modified file then "* " ++ file else "  " ++ file.

Definition formattedFilesOf
    (localeCompare : JS.Collation) (committed modified : list string)
  : list string :=
  map (formatFile modified) (sortedFilesOf localeCompare committed modified).

Definition mergeResult
    (localeCompare : JS.Collation) (branchName : string)
    (committed modified : list string) : Resolution :=
  mkResolution branchName committed modified
    (changedFilesOf committed modified)
    (sortedFilesOf localeCompare committed modified)
    (formattedFilesOf localeCompare committed modified).

Section Program.
Variable host : Host.

(** [cp.execSync(command, { cwd }).toString()] *)
Definition execSync (command cwd : string) : M string :=
  fun st =>
    let st' := mkFrame (calls st ++ [mkCall cwd command])
                       (committedFiles st) (modifiedFiles st) in
    match execOracle host (List.length (calls st)) cwd command with
    | Stdout out => (Normal out, st')
    | Throws e => (Thrown e, st')
    end.

(** *** The changed-file resolver, lines 344-476 *)

(** Lines 346-436, the body of the first [try].  The commit-by-commit
    verification of lines 369-424 is switched off by the constant of line
    367 and is left out. *)
Definition primaryTier (repoPath baseRef branchName pathForGitCommands : string)
  : M unit :=
  if isSameBranch branchName baseRef then
    out <- execSync (allFilesCommand branchName pathForGitCommands) repoPath ;;
    setCommittedFiles (filter notBlank (JS.splitLines out))
  else
    out <- execSync (mergeBaseCommand baseRef branchName) repoPath ;;
    let mergeBase := JS.trim out in
    out' <- execSync (committedFilesCommand mergeBase branchName
                        pathForGitCommands) repoPath ;;
    setCommittedFiles (JS.splitLines out').

(** Lines 439-454, the body of the second [try]. *)
Definition secondaryTier
    (repoPath baseRef branchName pathForGitCommands : string) : M unit :=
  if isSameBranch branchName baseRef then
    out <- execSync (recentFilesCommand pathForGitCommands) repoPath ;;
    setCommittedFiles (JS.splitLines out)
  else
    out <- execSync (fallbackCommand baseRef branchName pathForGitCommands)
             repoPath ;;
    setCommittedFiles (JS.splitLines out).

(** Lines 457-470, the body of the third [try]. *)
Definition tertiaryTier (repoPath folderPath : string) : M unit :=
  statusOutput <- execSync statusCommand repoPath ;;
  setCommittedFiles (underFolder folderPath (statusFilesOf statusOutput)).

(** Lines 344-476.  The last handler only logs. *)
Definition resolveCommitted
    (repoPath baseRef branchName folderPath pathForGitCommands : string)
  : M unit :=
  setCommittedFiles [] ;;;
  tryCatch (primaryTier repoPath baseRef branchName pathForGitCommands)
    (fun _ =>
       tryCatch (secondaryTier repoPath baseRef branchName pathForGitCommands)
         (fun _ =>
            tryCatch (tertiaryTier repoPath folderPath)
              (fun _ => ret tt))).

(** *** The working-tree modification scanner, lines 479-528 *)

(** Lines 496-521, the branch taken on the selected branch. *)
Definition collectModified (repoPath folderPath pathForGitCommands : string)
  : M unit :=
  statusOutput <- execSync statusCommand repoPath ;;
  setModifiedFiles (underFolder folderPath (statusFilesOf statusOutput)) ;;;
  out <- execSync (modifiedFilesCommand pathForGitCommands) repoPath ;;
  let additionalModified := filter notBlank (JS.splitLines out) in
  current <- getModifiedFiles ;;
  setModifiedFiles (JS.newSet (current ++ additionalModified)).

Definition scanModified
    (repoPath branchName folderPath pathForGitCommands : string) : M unit :=
  setModifiedFiles [] ;;;
  tryCatch
    (out <- execSync currentBranchCommand repoPath ;;
     let currentBranch := JS.trim out in
     if isOnSelectedBranch currentBranch branchName
        && negb (isRemoteBranch branchName)
     then collectModified repoPath folderPath pathForGitCommands
     else ret tt)
    (fun _ => ret tt).

(** *** The whole command from line 262 on *)

Definition repoPathOf (workspacePath : string) (sel : DirectoryItem) : string :=
  if isExternal sel then absolutePath sel else workspacePath.

(** Lines 333-341; [pathForGitCommands] is the same string. *)
Definition folderPathOf (sel : DirectoryItem) : string :=
  if isExternal sel then ""
  else if String.eqb (path sel) "." then "" else path sel.

Definition notGitMessage : string :=
  "The selected folder doesn't appear to be a Git repository. Please select a different folder.".

(** Lines 266-279: [Some outcome] is the early return. *)
Definition checkGitRepo (repoPath : string) (sel : DirectoryItem)
  : M (option Outcome) :=
  tryCatch (execSync gitCheckCommand repoPath ;;; ret None)
    (fun _ => if isExternal sel then ret (Some (ShowError notGitMessage))
              else ret None).

(** Lines 282-290. *)
Definition listBranches (repoPath : string) : M (Outcome + list string) :=
  tryCatch (out <- execSync branchListCommand repoPath ;;
            ret (inr (JS.splitLines out)))
    (fun e => ret (inl (ShowError ("Failed to get Git branches: " ++ e)))).

(** Lines 292-300. *)
Definition branchItemsOf (branches : list string) : list BranchItem :=
  map (fun branch =>
         mkBranchItem (JS.trim (JS.removeFirst branch "*"))
           (if JS.startsWith branch "*" then "Current branch" else ""))
      (filter notBlank branches).

(** Lines 313-319. *)
Definition resolveBase (repoPath : string) : M string :=
  tryCatch (execSync showRefCommand repoPath ;;; ret "main")
    (fun _ => ret "master").

(** Lines 322-593, the body of the inner [try]; opening the document is
    the outcome. *)
Definition showBranchFiles
    (repoPath : string) (sel : DirectoryItem) (selectedBranch : BranchItem)
    (baseRef : string) : M Outcome :=
  let branchName := cleanRemoteBranchName (label selectedBranch) in
  let folderPath := folderPathOf sel in
  let pathForGitCommands := folderPath in
  resolveCommitted repoPath baseRef branchName folderPath pathForGitCommands ;;;
  scanModified repoPath branchName folderPath pathForGitCommands ;;;
  committed <- getCommittedFiles ;;
  modified <- getModifiedFiles ;;
  ret (ShowDocument
         (mergeResult (localeCompareBase host) branchName committed modified)).

Definition selectBranchFiles (workspacePath : string) (sel : DirectoryItem)
  : M Outcome :=
  let repoPath := repoPathOf workspacePath sel in
  tryCatch
    (early <- checkGitRepo repoPath sel ;;
     match early with
     | Some outcome => ret outcome
     | None =>
         listed <- listBranches repoPath ;;
         match listed with
         | inl outcome => ret outcome
         | inr branches =>
             match showQuickPick host (branchItemsOf branches) with
             | None => ret NoSelection
             | Some selectedBranch =>
                 baseRef <- resolveBase repoPath ;;
                 tryCatch (showBranchFiles repoPath sel selectedBranch baseRef)
                   (fun e =>
                      ret (ShowError ("Failed to get changed files: " ++ e)))
             end
         end
     end)
    (fun e => ret (ShowError ("An error occurred: " ++ e))).

End Program.

(* ================================================================== *)
(** ** More of the standard library: arrays, numbers, paths *)
(* ================================================================== *)

Module JSArray.

(** [arr.join(sep)] *)
Fixpoint join (sep : string) (arr : list string) : string :=
  match arr with
  | [] => ""
  | x :: rest =>
      match rest with
      | [] => x
      | _ :: _ => x ++ sep ++ join sep rest
      end
  end.

(** [s.split(sep)] for a separator of one character: never empty. *)
Fixpoint split (sep : ascii) (s : string) : list string :=
  match s with
  | EmptyString => [EmptyString]
  | String c s' =>
      if Ascii.eqb c sep then EmptyString :: split sep s'
      else match split sep s' with
           | [] => [String c EmptyString]
           | h :: t => String c h :: t
           end
  end.

(** [s.replace(/\\/g, '/')]: every backslash becomes a slash. *)
Fixpoint backslashesToSlashes (s : string) : string :=
  match s with
  | EmptyString => EmptyString
  | String c s' =>
      String (if Ascii.eqb c "092"%char then "/"%char else c)
             (backslashesToSlashes s')
  end.

(** A natural number in a template literal: its decimal digits. *)
Definition numberToString (n : nat) : string :=
  NilEmpty.string_of_uint (Nat.to_uint n).

(** [arr.map((x, index) => f(x, index))], counting from [index]. *)
Fixpoint mapIndexed {A B} (f : A -> nat -> B) (index : nat) (arr : list A)
  : list B :=
  match arr with
  | [] => []
  | x :: rest => f x index :: mapIndexed f (S index) rest
  end.

(** [arr.filter(item => item !== null)] on the results of a [map]. *)
Fixpoint dropNull {A} (arr : list (option A)) : list A :=
  match arr with
  | [] => []
  | Some x :: rest => x :: dropNull rest
  | None :: rest => dropNull rest
  end.

End JSArray.

(* ================================================================== *)
(** ** The filters of the history scan, line 356 *)
(* ================================================================== *)

(** The command of line 356 pipes the listing of git through [sort] and
    [uniq]; what the two do to the lines they read is what the committed
    files owe to them. *)
Module Shell.

(** [uniq]: of the lines that repeat the line before them none is
    printed. *)
Fixpoint uniq (ls : list string) : list string :=
  match ls with
  | [] => []
  | x :: rest =>
      match rest with
      | [] => [x]
      | y :: _ => if String.eqb x y then uniq rest else x :: uniq rest
      end
  end.

(** [sort]: the lines in the order of [compareLines], the comparison of the
    locale of the process completed by that of the bytes.  Such a
    comparison ties no two different lines, and the sorted arrangement is
    the only one. *)
Definition sort (compareLines : string -> string -> Z) (ls : list string)
  : list string :=
  JS.sortBy compareLines ls.

End Shell.

(* ================================================================== *)
(** ** The document of the branch command, lines 557-593 *)
(* ================================================================== *)

(** Lines 568-576.  The fifth element starts with a line feed of its own. *)
Definition debugInfoOf
    (sel : DirectoryItem) (repoPath : string) (r : Resolution) : string :=
  JSArray.join (String JS.LF "")
    ["# Git File List for Branch: " ++ res_branchName r;
     "- Selected folder: " ++ path sel;
     "- Working directory: " ++ repoPath;
     "- Total files: "
       ++ JSArray.numberToString (List.length (res_changedFiles r))
       ++ " ("
       ++ JSArray.numberToString (List.length (res_modifiedFiles r))
       ++ " currently modified)";
     String JS.LF "## File List";
     "Files with an asterisk (*) are currently modified but not yet committed.";
     ""].

Definition noFilesFoundText : string :=
  "No changed files were found. Please verify your Git commands manually.".

(** Lines 578-580. *)
Definition contentOf
    (sel : DirectoryItem) (repoPath : string) (r : Resolution) : string :=
  if (0 <? List.length (res_changedFiles r))%nat
  then debugInfoOf sel repoPath r ++ String JS.LF ""
       ++ JSArray.join (String JS.LF "") (res_formattedFiles r)
  else debugInfoOf sel repoPath r ++ String JS.LF (String JS.LF "")
       ++ noFilesFoundText.

(** Lines 591-593: the information message beside an empty list. *)
Definition informationOf (selectedBranch : BranchItem) (r : Resolution)
  : option string :=
  if (List.length (res_changedFiles r) =? 0)%nat
  then Some ("No files have changed in branch: " ++ label selectedBranch)
  else None.

(* ================================================================== *)
(** ** The choice of the folder, lines 160-260 *)
(* ================================================================== *)

(** An item of the folder quick pick: the fields of [DirectoryItem] that the
    list of line 184 fills in. *)
Record DirectoryPick : Type := mkDirectoryPick {
  pick_label : string;
  pick_description : string;
  pick_path : string;
  pick_isBrowseOption : bool
}.

(** The editor, Node's [path] module and the engine, as far as lines
    160-260 use them: the folder quick pick, the folder dialog (the
    [fsPath]s of the chosen folders, or nothing), [path.relative],
    [path.join], and the message of the [TypeError] that the engine throws
    when [uri] is read from [undefined] (its wording is the engine's). *)
Record Workbench : Type := mkWorkbench {
  pickDirectory : list DirectoryPick -> option DirectoryPick;
  showOpenDialog : string -> option (list string);
  pathRelative : string -> string -> string;
  pathJoin : string -> string -> string;
  readOfUndefinedMessage : string
}.

(** Line 170. *)
Definition getDirectoriesCommand : string :=
  "git ls-files --directory | xargs -n 1 dirname | sort | uniq".

Definition browseItem : DirectoryPick :=
  mkDirectoryPick "$(folder-opened) Browse..."
    "Select folder using file browser" "BROWSE" true.

Definition currentDirectoryItem : DirectoryPick :=
  mkDirectoryPick "Current directory" "Root of the repository" "." false.

(** Lines 184-201. *)
Definition directoryItemsOf (directories : list string) : list DirectoryPick :=
  browseItem :: currentDirectoryItem
  :: map (fun dir => mkDirectoryPick dir "" dir false)
         (filter (fun dir => negb (String.eqb dir ".")) directories).

(** Lines 213-260.  When the dialog is dismissed the item has neither
    [absolutePath] nor [isExternal]; the path is then never read, and it is
    given as the empty string. *)
Definition selectedDirectoryOf
    (wb : Workbench) (workspacePath : string) (directorySelection : DirectoryPick)
  : DirectoryItem :=
  if pick_isBrowseOption directorySelection then
    match showOpenDialog wb workspacePath with
    | None => mkDirectoryItem "." "" false
    | Some [] => mkDirectoryItem "." "" false
    | Some (selectedPath :: _) =>
        let relativePath :=
          let relative := pathRelative wb workspacePath selectedPath in
          if String.eqb relative "" then "." else relative in
        mkDirectoryItem relativePath selectedPath
          (negb (JS.startsWith selectedPath workspacePath))
    end
  else
    mkDirectoryItem (pick_path directorySelection)
      (if String.eqb (pick_path directorySelection) "." then workspacePath
       else pathJoin wb workspacePath (pick_path directorySelection))
      false.

(** Lines 171-182: a failure of the command leaves the root alone. *)
Definition listDirectories (host : Host) (workspacePath : string)
  : M (list string) :=
  directories <-
    tryCatch (out <- execSync host getDirectoriesCommand workspacePath ;;
              ret (filter notBlank (JS.splitLines out)))
      (fun _ => ret []) ;;
  ret ("." :: directories).

(** The command from its first line.  [workspaceFolders] is
    [vscode.workspace.workspaceFolders]: [undefined], or the array of the
    folders, each given by its [uri.fsPath].  An empty array passes the test
    of line 162, being truthy; line 167 then reads [uri] from [undefined],
    and the [TypeError] is caught by the handler of line 603, the [try] of
    line 159 spanning these lines as well.  With a first folder nothing
    throws before line 262, the one command having a [catch] of its own. *)
Definition selectBranchFilesCommand
    (host : Host) (wb : Workbench) (workspaceFolders : option (list string))
  : M Outcome :=
  match workspaceFolders with
  | None => ret (ShowError "No workspace folder is open.")
  | Some [] =>
      tryCatch (throw (readOfUndefinedMessage wb))
        (fun e => ret (ShowError ("An error occurred: " ++ e)))
  | Some (workspacePath :: _) =>
      directories <- listDirectories host workspacePath ;;
      match pickDirectory wb (directoryItemsOf directories) with
      | None => ret NoSelection
      | Some directorySelection =>
          selectBranchFiles host workspacePath
            (selectedDirectoryOf wb workspacePath directorySelection)
      end
  end.

(* ================================================================== *)
(** ** The command [gitcommitfiles.selectCommitFiles], lines 8-134 *)
(* ================================================================== *)

Record CommitItem : Type := mkCommitItem {
  commit_label : string;
  commit_description : string;
  commit_hash : string
}.

(** The editor for this command: the commit quick pick, whether
    [vscode.workspace.fs.stat] finds the file of a path, and the [fsPath] of
    [vscode.Uri.file(path.join(workspacePath, file))]. *)
Record CommitWorkbench : Type := mkCommitWorkbench {
  pickCommit : list CommitItem -> option CommitItem;
  statSucceeds : string -> bool;
  fileFsPath : string -> string -> string
}.

Inductive CommitOutcome : Type :=
| CommitError (message : string)        (* [showErrorMessage] *)
| CommitNoSelection                     (* the quick pick was dismissed *)
| CommitInformation (message : string)  (* [showInformationMessage] *)
| CommitDocument (content : string).    (* the list is opened *)

(** Line 20. *)
Definition commitLogCommand : string :=
  "git log --format=" ++ JS.dquote ++ "%h %ad %s" ++ JS.dquote
  ++ " --date=short".

(** Line 49. *)
Definition commitFilesCommand (hash : string) : string :=
  "git show --name-only --pretty=format: " ++ hash.

(** Lines 23-36: the item of a line of the log, or [null]. *)
Definition commitItemOf (commit : string) : option CommitItem :=
  let parts := JSArray.split " "%char commit in
  if (3 <=? List.length parts)%nat then
    let hash := nth 0 parts "" in
    let date := nth 1 parts "" in
    let message := JSArray.join " " (skipn 2 parts) in
    Some (mkCommitItem (hash ++ " (" ++ date ++ ")") message hash)
  else None.

(** Lines 21-37. *)
Definition commitItemsOf (commits : list string) : list CommitItem :=
  JSArray.dropNull (map commitItemOf (filter notBlank commits)).

(** Lines 100-108: some existing file's path ends with the file's. *)
Definition listedAsExisting (existingFsPaths : list string) (file : string)
  : bool :=
  existsb (fun fsPath =>
             JS.endsWith (JSArray.backslashesToSlashes fsPath)
                         (JSArray.backslashesToSlashes file))
          existingFsPaths.

(** Line 109. *)
Definition fileLine (existingFsPaths : list string) (file : string)
    (index : nat) : string :=
  JSArray.numberToString (index + 1) ++ ". " ++ file ++ " "
  ++ (if listedAsExisting existingFsPaths file then "(exists)"
      else "(not found)").

(** Lines 96-110. *)
Definition fileListContentOf
    (selectedCommit : CommitItem) (files existingFsPaths : list string)
  : string :=
  "# Files in commit " ++ commit_label selectedCommit
  ++ String JS.LF (String JS.LF "")
  ++ JSArray.join (String JS.LF "")
       (JSArray.mapIndexed (fileLine existingFsPaths) 0 files).

(** Lines 66-88: the paths of the files that [stat] finds, in the order of
    the commit. *)
Definition existingFileUrisOf
    (wb : CommitWorkbench) (workspacePath : string) (files : list string)
  : list string :=
  filter (statSucceeds wb) (map (fileFsPath wb workspacePath) files).

(** Lines 64-126. *)
Definition showCommitFiles
    (wb : CommitWorkbench) (workspacePath : string)
    (selectedCommit : CommitItem) (files : list string) : M CommitOutcome :=
  tryCatch
    (let existingFileUris := existingFileUrisOf wb workspacePath files in
     if (List.length existingFileUris =? 0)%nat
     then ret (CommitInformation
                 "None of the files in this commit exist in the workspace.")
     else ret (CommitDocument
                 (fileListContentOf selectedCommit files existingFileUris)))
    (fun e => ret (CommitError ("An error occurred: " ++ e))).

(** Lines 17-133, from the workspace path on.  The two commands are under
    the outer [try] only. *)
Definition selectCommitFiles
    (host : Host) (wb : CommitWorkbench) (workspacePath : string)
  : M CommitOutcome :=
  tryCatch
    (out <- execSync host commitLogCommand workspacePath ;;
     let commits := JS.splitLines out in
     match pickCommit wb (commitItemsOf commits) with
     | None => ret CommitNoSelection
     | Some selectedCommit =>
         out' <- execSync host (commitFilesCommand (commit_hash selectedCommit))
                   workspacePath ;;
         let files := filter JS.truthy (JS.splitLines out') in
         if (List.length files =? 0)%nat
         then ret (CommitInformation "No files found in the selected commit.")
         else showCommitFiles wb workspacePath selectedCommit files
     end)
    (fun e => ret (CommitError ("An error occurred: " ++ e))).

(* ================================================================== *)
(** ** Vocabulary of the properties *)
(* ================================================================== *)

(** A path with its ASCII letters in lower case. *)
Fixpoint foldString (s : string) : string :=
  match s with
  | EmptyString => EmptyString
  | String c s' => String (JS.foldCase c) (foldString s')
  end.

(** [a] may stand before [b] in the sorted list. *)
Definition fileLe (localeCompare : JS.Collation) (a b : string) : Prop :=
  (compareFiles localeCompare a b <= 0)%Z.

(** What Array.prototype.sort asks of a comparator for the order of its
    result to be defined (a consistent comparator): comparing the other way
    round gives the opposite sign, and "not after" is transitive. *)
Definition consistentComparator (cmp : string -> string -> Z) : Prop :=
  (forall a b, (cmp a b < 0)%Z <-> (0 < cmp b a)%Z) /\
  (forall a b c, (cmp a b <= 0)%Z -> (cmp b c <= 0)%Z -> (cmp a c <= 0)%Z).

(** The effect of sensitivity 'base' on the letters of a path: strings that
    differ only in the case of their ASCII letters compare equal. *)
Definition tiesLetterCase (cmp : JS.Collation) : Prop :=
  forall a b, foldString a = foldString b -> cmp a b = 0%Z.

(** A comparison that ties no two different lines, as that of [sort] does:
    lines that the locale ties are compared byte by byte in the end. *)
Definition separatesLines (cmp : string -> string -> Z) : Prop :=
  forall a b, cmp a b = 0%Z -> a = b.

(** The string holds no occurrence of the character. *)
Fixpoint freeOf (c : ascii) (s : string) : bool :=
  match s with
  | EmptyString => true
  | String d s' => negb (Ascii.eqb d c) && freeOf c s'
  end.

(** The string is made of white space only: [trim] leaves nothing. *)
Fixpoint allWhiteSpace (s : string) : bool :=
  match s with
  | EmptyString => true
  | String c s' => JS.isWhiteSpace c && allWhiteSpace s'
  end.

(** The string is one line: it holds no line feed. *)
Definition singleLine (s : string) : bool := freeOf JS.LF s.

(** A computation adds at most [n] calls, all of them run in [cwd]. *)
Definition spends {A} (cwd : string) (n : nat) (m : M A) : Prop :=
  forall st, exists made,
    calls (snd (m st)) = (calls st ++ made)%list /\
    List.length made <= n /\
    Forall (fun c => call_cwd c = cwd) made.

(** The line of a branch in the output of the branch list: the checked-out
    branch has an asterisk in front, the others two spaces. *)
Definition branchLine (current : bool) (name : string) : string :=
  (if current then "* " else "  ") ++ name.

(** The line of a path in a porcelain status, after the two status
    letters. *)
Definition statusLine (letters path : string) : string :=
  letters ++ " " ++ path.

(** A commit as the log of line 20 prints it: the short hash, the date and
    the subject, with a space between them. *)
Record LoggedCommit : Type := mkLoggedCommit {
  logged_hash : string;
  logged_date : string;
  logged_subject : string
}.

Definition commitLine (c : LoggedCommit) : string :=
  logged_hash c ++ " " ++ logged_date c ++ " " ++ logged_subject c.

(** A workspace whose files are the given ones: a path is the workspace
    path, a slash and the name of the file. *)
Definition plainWorkspace (wanted : string) (present : list string)
  : CommitWorkbench :=
  mkCommitWorkbench
    (fun items => find (fun item => String.eqb (commit_hash item) wanted) items)
    (fun fsPath => JS.arrayIncludes present fsPath)
    (fun workspacePath file => workspacePath ++ "/" ++ file).

(** A workbench whose quick pick of folders gives the root. *)
Definition rootWorkbench : Workbench :=
  mkWorkbench (fun _ => Some currentDirectoryItem) (fun _ => None)
    (fun _ selected => selected) (fun workspacePath dir => workspacePath ++ "/" ++ dir)
    "Cannot read properties of undefined (reading 'uri')".

(** The scanner has run its status command after the first [before] calls. *)
Definition scanned (repoPath : string) (before : nat) (st : Frame) : Prop :=
  In (mkCall repoPath statusCommand) (skipn before (calls st)).

(** A computation only adds to the calls made so far. *)
Definition grows {A} (m : M A) : Prop :=
  forall st, exists made, calls (snd (m st)) = (calls st ++ made)%list.

(* ================================================================== *)
(** ** Hosts to run the program on *)
(* ================================================================== *)

(** A repository that answers a command the same way at every call: the
    commands of [table] succeed with their output, every other one
    fails. *)
Fixpoint lookupCommand (table : list (string * string)) (command : string)
  : ExecResult :=
  match table with
  | [] => Throws "fatal"
  | (c, out) :: rest =>
      if String.eqb c command then Stdout out else lookupCommand rest command
  end.

(** The user picks the branch with the given label. *)
Definition pickLabel (wanted : string) (items : list BranchItem)
  : option BranchItem :=
  find (fun item => String.eqb (label item) wanted) items.

(** Strings compared code unit by code unit, each unit standing for the
    number [weight] gives it; a proper prefix comes first. *)
Fixpoint compareUnits (weight : ascii -> nat) (a b : string) : Z :=
  match a, b with
  | EmptyString, EmptyString => 0%Z
  | EmptyString, String _ _ => (-1)%Z
  | String _ _, EmptyString => 1%Z
  | String x a', String y b' =>
      if (weight x <? weight y)%nat then (-1)%Z
      else if (weight y <? weight x)%nat then 1%Z
      else compareUnits weight a' b'
  end.

(** The comparison of the sample hosts: code units, the upper-case ASCII
    letters counting as their lower case.  It is a consistent comparator
    that ties letter case; the order it gives to punctuation and to letters
    with accents is its own, not that of the collation of a real locale. *)
Definition foldedOrder : JS.Collation :=
  compareUnits (fun c => nat_of_ascii (JS.foldCase c)).

(** The order of [sort] in the C locale: byte by byte. *)
Definition byteOrder : string -> string -> Z := compareUnits nat_of_ascii.

Definition tableHost (table : list (string * string)) (wanted : string) : Host :=
  mkHost (fun _ _ command => lookupCommand table command) (pickLabel wanted)
    foldedOrder.

(** A host whose answers are fixed call by call; calls beyond the script
    fail. *)
Definition scriptHost (script : list ExecResult) (wanted : string) : Host :=
  mkHost (fun n _ _ => nth n script (Throws "fatal")) (pickLabel wanted)
    foldedOrder.

(** Lines of output, each ended by a line feed. *)
Fixpoint lines (ls : list string) : string :=
  match ls with
  | [] => ""
  | l :: rest => l ++ String JS.LF (lines rest)
  end.

Example splitLines_ex :
  JS.splitLines ("a" ++ String JS.LF "b" ++ String JS.LF "") = ["a"; "b"; ""].
Proof. reflexivity. Qed.

Example trim_ex : JS.trim "  M x.ts " = "M x.ts".
Proof. reflexivity. Qed.

Example removeFirst_ex :
  JS.removeFirst "remotes/origin/main" "remotes/" = "origin/main".
Proof. reflexivity. Qed.

(* ================================================================== *)
(** ** Facts about the string operations *)
(* ================================================================== *)

Lemma startsWith_split (s p : string) :
  JS.startsWith s p = true -> s = p ++ JS.substringFrom (String.length p) s.
Proof.
  revert s.
  induction p as [|c p IH]; intros s H; simpl in *.
  - reflexivity.
  - destruct s as [|d s]; [discriminate|].
    apply andb_true_iff in H as [Hc Hp].
    apply Ascii.eqb_eq in Hc. subst d.
    f_equal. now apply IH.
Qed.

Lemma length_substringFrom (n : nat) (s : string) :
  String.length (JS.substringFrom n s) = String.length s - n.
Proof.
  revert s. induction n as [|n IH]; intros [|c s]; simpl; auto.
Qed.

Lemma length_append (a b : string) :
  String.length (a ++ b) = String.length a + String.length b.
Proof. induction a; simpl; auto. Qed.

Lemma startsWith_length (s p : string) :
  JS.startsWith s p = true -> String.length p <= String.length s.
Proof.
  intros H. rewrite (startsWith_split s p H).
  rewrite length_append. lia.
Qed.

Lemma endsWith_refl (s : string) : JS.endsWith s s = true.
Proof.
  destruct s; cbn [JS.endsWith]; rewrite String.eqb_refl; reflexivity.
Qed.

Lemma endsWith_append (a b : string) : JS.endsWith (a ++ b) b = true.
Proof.
  induction a as [|c a IH].
  - apply endsWith_refl.
  - change (String c a ++ b) with (String c (a ++ b)).
    cbn [JS.endsWith]. rewrite IH. apply orb_true_r.
Qed.

Lemma dropWordChars_suffix (s : string) :
  exists w, s = w ++ JS.dropWordChars s.
Proof.
  induction s as [|c s [w IH]]; simpl.
  - now exists "".
  - destruct (JS.isWordChar c).
    + exists (String c w). simpl. now rewrite <- IH.
    + now exists "".
Qed.

(** Removing an occurrence makes the string shorter by the pattern. *)
Lemma length_removeFirst (s pat : string) :
  JS.includes s pat = true ->
  String.length (JS.removeFirst s pat) + String.length pat = String.length s.
Proof.
  induction s as [|c s IH]; intros H.
  - destruct pat; simpl in *; [reflexivity | discriminate].
  - cbn [JS.includes] in H. cbn [JS.removeFirst].
    destruct (JS.startsWith (String c s) pat) eqn:E.
    + rewrite length_substringFrom. apply startsWith_length in E. lia.
    + rewrite orb_false_l in H. specialize (IH H). simpl. lia.
Qed.

(** What the regular expression of [normalizeBranch] takes away. *)
Lemma refsPrefixMatch_shape (s rest : string) :
  refsPrefixMatch s = Some rest ->
  exists pre, s = pre ++ "/" ++ rest.
Proof.
  unfold refsPrefixMatch.
  destruct (JS.startsWith s "refs/heads/") eqn:E1.
  - intros [= <-]. exists "refs/heads".
    apply startsWith_split in E1. exact E1.
  - destruct (JS.startsWith s "refs/remotes/") eqn:E2; [|discriminate].
    destruct (negb _ && _) eqn:E3; [|discriminate].
    intros [= <-]. apply andb_true_iff in E3 as [_ E3].
    apply startsWith_split in E2, E3.
    destruct (dropWordChars_suffix (JS.substringFrom 13 s)) as [w Hw].
    exists ("refs/remotes/" ++ w).
    rewrite E2 at 1. rewrite Hw at 1. rewrite E3 at 1.
    simpl. reflexivity.
Qed.

Lemma refsPrefixMatch_shorter (s rest : string) :
  refsPrefixMatch s = Some rest -> String.length rest < String.length s.
Proof.
  intros H. destruct (refsPrefixMatch_shape _ _ H) as [pre ->].
  rewrite length_append. simpl. lia.
Qed.

(* ================================================================== *)
(** ** Facts about [new Set], the comparator and the sort *)
(* ================================================================== *)

Lemma arrayIncludes_In (arr : list string) (x : string) :
  JS.arrayIncludes arr x = true <-> In x arr.
Proof.
  unfold JS.arrayIncludes. rewrite existsb_exists. split.
  - intros [y [Hin Heq]]. apply String.eqb_eq in Heq. now subst.
  - intros Hin. exists x. split; [assumption | apply String.eqb_refl].
Qed.

Lemma arrayIncludes_not_In (arr : list string) (x : string) :
  JS.arrayIncludes arr x = false <-> ~ In x arr.
Proof.
  rewrite <- arrayIncludes_In. destruct (JS.arrayIncludes arr x); split;
    intros H; try reflexivity; try discriminate; try (intros [=]).
  exfalso. now apply H.
Qed.

Lemma uniqueFrom_In (arr seen : list string) (x : string) :
  In x (JS.uniqueFrom seen arr) <-> In x arr /\ ~ In x seen.
Proof.
  revert seen. induction arr as [|y r IH]; intros seen; simpl.
  - tauto.
  - destruct (JS.arrayIncludes seen y) eqn:E.
    + apply arrayIncludes_In in E. rewrite IH. split.
      * tauto.
      * intros [[->|Hr] Hs]; [contradiction | tauto].
    + apply arrayIncludes_not_In in E. simpl. rewrite IH. simpl. split.
      * intros [->|[Hr Hs]]; [tauto|]. split; [tauto|]. intros Hx. apply Hs. now right.
      * intros [[->|Hr] Hs]; [now left|].
        destruct (string_dec y x) as [->|Hne]; [now left|].
        right. split; [assumption|]. intros [Heq|Hx]; [now apply Hne | now apply Hs].
Qed.

Lemma uniqueFrom_NoDup (arr seen : list string) :
  NoDup (JS.uniqueFrom seen arr).
Proof.
  revert seen. induction arr as [|y r IH]; intros seen; simpl.
  - constructor.
  - destruct (JS.arrayIncludes seen y); [apply IH|].
    constructor; [|apply IH].
    rewrite uniqueFrom_In. intros [_ H]. apply H. now left.
Qed.

Lemma newSet_In (arr : list string) (x : string) :
  In x (JS.newSet arr) <-> In x arr.
Proof. unfold JS.newSet. rewrite uniqueFrom_In. simpl. tauto. Qed.

Lemma newSet_NoDup (arr : list string) : NoDup (JS.newSet arr).
Proof. apply uniqueFrom_NoDup. Qed.

(** *** The collation *)

Lemma nat_of_ascii_inj (x y : ascii) : nat_of_ascii x = nat_of_ascii y -> x = y.
Proof.
  intros H. rewrite <- (ascii_nat_embedding x), <- (ascii_nat_embedding y).
  now rewrite H.
Qed.

Section CompareUnits.
Variable weight : ascii -> nat.

Lemma compareUnits_opp (a b : string) :
  compareUnits weight b a = (- compareUnits weight a b)%Z.
Proof.
  revert b. induction a as [|x a IH]; intros [|y b]; cbn [compareUnits]; auto.
  destruct (Nat.ltb_spec (weight x) (weight y));
  destruct (Nat.ltb_spec (weight y) (weight x));
    try lia; auto.
Qed.

Lemma compareUnits_trans (a b c : string) :
  (compareUnits weight a b <= 0)%Z -> (compareUnits weight b c <= 0)%Z ->
  (compareUnits weight a c <= 0)%Z.
Proof.
  revert b c. induction a as [|x a IH]; intros [|y b] [|z c];
    cbn [compareUnits]; try lia.
  destruct (Nat.ltb_spec (weight x) (weight y));
  destruct (Nat.ltb_spec (weight y) (weight x));
  destruct (Nat.ltb_spec (weight y) (weight z));
  destruct (Nat.ltb_spec (weight z) (weight y));
  destruct (Nat.ltb_spec (weight x) (weight z));
  destruct (Nat.ltb_spec (weight z) (weight x));
    try lia.
  apply IH.
Qed.

Lemma compareUnits_consistent : consistentComparator (compareUnits weight).
Proof.
  split.
  - intros a b. rewrite (compareUnits_opp a b). lia.
  - apply compareUnits_trans.
Qed.
End CompareUnits.

Lemma foldedOrder_zero (a b : string) :
  foldedOrder a b = 0%Z <-> foldString a = foldString b.
Proof.
  unfold foldedOrder.
  revert b. induction a as [|x a IH]; intros [|y b];
    cbn [compareUnits foldString]; try (split; [lia | discriminate]).
  - tauto.
  - destruct (Nat.ltb_spec (nat_of_ascii (JS.foldCase x)) (nat_of_ascii (JS.foldCase y))).
    { split; [lia|]. intros [= E _]. rewrite E in *. lia. }
    destruct (Nat.ltb_spec (nat_of_ascii (JS.foldCase y)) (nat_of_ascii (JS.foldCase x))).
    { split; [lia|]. intros [= E _]. rewrite E in *. lia. }
    rewrite IH. split.
    + intros ->. f_equal. apply nat_of_ascii_inj. lia.
    + now intros [= _ ->].
Qed.

Lemma foldedOrder_consistent : consistentComparator foldedOrder.
Proof. apply compareUnits_consistent. Qed.

Lemma foldedOrder_tiesLetterCase : tiesLetterCase foldedOrder.
Proof. intros a b. apply foldedOrder_zero. Qed.

Lemma byteOrder_consistent : consistentComparator byteOrder.
Proof. apply compareUnits_consistent. Qed.

Lemma byteOrder_separatesLines : separatesLines byteOrder.
Proof.
  unfold byteOrder. intros a.
  induction a as [|x a IH]; intros [|y b]; cbn [compareUnits];
    try reflexivity; try discriminate.
  destruct (Nat.ltb_spec (nat_of_ascii x) (nat_of_ascii y)); [discriminate|].
  destruct (Nat.ltb_spec (nat_of_ascii y) (nat_of_ascii x)); [discriminate|].
  intros Hzero. f_equal; [apply nat_of_ascii_inj; lia | now apply IH].
Qed.

(** *** The comparator of the sort *)

(** The class of a path does not depend on the case of its letters. *)
Lemma foldCase_slash (c : ascii) :
  Ascii.eqb (JS.foldCase c) "/" = Ascii.eqb c "/".
Proof. destruct c as [[] [] [] [] [] [] [] []]; reflexivity. Qed.

Lemma foldCase_dot (c : ascii) :
  Ascii.eqb "." (JS.foldCase c) = Ascii.eqb "." c.
Proof. destruct c as [[] [] [] [] [] [] [] []]; reflexivity. Qed.

Lemma foldString_empty (s : string) :
  String.eqb (foldString s) "" = String.eqb s "".
Proof. destruct s; reflexivity. Qed.

Lemma endsWith_slash_fold (s : string) :
  JS.endsWith (foldString s) "/" = JS.endsWith s "/".
Proof.
  induction s as [|c s IH]; [reflexivity|].
  cbn [foldString JS.endsWith]. rewrite IH. f_equal.
  cbn [String.eqb]. now rewrite foldCase_slash, foldString_empty.
Qed.

Lemma includes_dot_fold (s : string) :
  JS.includes (foldString s) "." = JS.includes s ".".
Proof.
  induction s as [|c s IH]; [reflexivity|].
  cbn [foldString JS.includes]. rewrite IH. f_equal.
  cbn [JS.startsWith]. now rewrite foldCase_dot.
Qed.

Lemma isDirLike_fold (a b : string) :
  foldString a = foldString b -> isDirLike a = isDirLike b.
Proof.
  intros H. unfold isDirLike.
  rewrite <- (endsWith_slash_fold a), <- (includes_dot_fold a), H.
  now rewrite endsWith_slash_fold, includes_dot_fold.
Qed.

Section Comparator.
Variable localeCompare : JS.Collation.
Hypothesis consistent : consistentComparator localeCompare.

Lemma compareFiles_opp (a b : string) :
  (compareFiles localeCompare a b < 0)%Z <->
  (0 < compareFiles localeCompare b a)%Z.
Proof.
  unfold compareFiles.
  destruct (isDirLike a), (isDirLike b); simpl; try lia;
    apply (proj1 consistent).
Qed.


Lemma fileLe_trans (a b c : string) :
  fileLe localeCompare a b -> fileLe localeCompare b c ->
  fileLe localeCompare a c.
Proof.
  unfold fileLe, compareFiles.
  destruct (isDirLike a), (isDirLike b), (isDirLike c); simpl; try lia;
    apply (proj2 consistent).
Qed.
End Comparator.

Lemma compareFiles_zero (localeCompare : JS.Collation) (a b : string) :
  compareFiles localeCompare a b = 0%Z <->
  isDirLike a = isDirLike b /\ localeCompare a b = 0%Z.
Proof.
  unfold compareFiles.
  destruct (isDirLike a), (isDirLike b); simpl;
    split; try tauto; try lia; intros [? ?]; discriminate.
Qed.

(** *** Insertion sort with a total preorder *)

Section SortFacts.
Variable cmp : string -> string -> Z.
Let le (a b : string) : Prop := (cmp a b <= 0)%Z.
Hypothesis le_total : forall a b, le a b \/ le b a.
Hypothesis le_trans : forall a b c, le a b -> le b c -> le a c.

Lemma insertSorted_perm (x : string) (l : list string) :
  Permutation (x :: l) (JS.insertSorted cmp x l).
Proof.
  induction l as [|y r IH]; simpl.
  - apply Permutation_refl.
  - destruct (cmp x y <=? 0)%Z.
    + apply Permutation_refl.
    + eapply perm_trans; [apply perm_swap|]. now apply perm_skip.
Qed.

Lemma sortBy_perm (l : list string) : Permutation l (JS.sortBy cmp l).
Proof.
  induction l as [|x r IH]; simpl.
  - constructor.
  - eapply perm_trans; [apply perm_skip, IH | apply insertSorted_perm].
Qed.

Lemma insertSorted_sorted (x : string) (l : list string) :
  StronglySorted le l -> StronglySorted le (JS.insertSorted cmp x l).
Proof.
  induction 1 as [|y r Hr IH Hy]; simpl.
  - repeat constructor.
  - destruct (Z.leb_spec (cmp x y) 0) as [Hxy|Hxy].
    + constructor; [now constructor|].
      constructor; [exact Hxy|].
      eapply Forall_impl; [|exact Hy]. intros z Hz. now apply (le_trans x y z).
    + constructor; [exact IH|].
      assert (Hyx : le y x).
      { destruct (le_total x y) as [H|H]; [unfold le in H; lia | exact H]. }
      eapply Permutation_Forall; [apply insertSorted_perm|].
      now constructor.
Qed.

Lemma sortBy_sorted (l : list string) : StronglySorted le (JS.sortBy cmp l).
Proof.
  induction l as [|x r IH]; simpl.
  - constructor.
  - now apply insertSorted_sorted.
Qed.
End SortFacts.


(* ================================================================== *)
(** ** The result merger and sorter *)
(* ================================================================== *)

Lemma changedFilesOf_In (committed modified : list string) (file : string) :
  In file (changedFilesOf committed modified) <->
  (In file committed \/ In file modified) /\ notBlank file = true.
Proof.
  unfold changedFilesOf, allChangedFilesOf.
  rewrite filter_In, newSet_In, in_app_iff. tauto.
Qed.

Lemma changedFilesOf_NoDup (committed modified : list string) :
  NoDup (changedFilesOf committed modified).
Proof. apply NoDup_filter, newSet_NoDup. Qed.

Lemma sortedFilesOf_perm
    (localeCompare : JS.Collation) (committed modified : list string) :
  Permutation (changedFilesOf committed modified)
              (sortedFilesOf localeCompare committed modified).
Proof. apply sortBy_perm. Qed.

Lemma sortedFilesOf_In
    (localeCompare : JS.Collation) (committed modified : list string)
    (file : string) :
  In file (sortedFilesOf localeCompare committed modified) <->
  (In file committed \/ In file modified) /\ notBlank file = true.
Proof.
  rewrite <- changedFilesOf_In. split; apply Permutation_in.
  - apply Permutation_sym, sortedFilesOf_perm.
  - apply sortedFilesOf_perm.
Qed.

Lemma sortedFilesOf_NoDup
    (localeCompare : JS.Collation) (committed modified : list string) :
  NoDup (sortedFilesOf localeCompare committed modified).
Proof.
  eapply Permutation_NoDup; [apply sortedFilesOf_perm|].
  apply changedFilesOf_NoDup.
Qed.


Lemma append_inj_l (p a b : string) : p ++ a = p ++ b -> a = b.
Proof. induction p as [|c p IH]; simpl; [auto|]. intros [= H]. auto. Qed.

Lemma formatFile_injective (modified : list string) :
  Injective (formatFile modified).
Proof.
  intros a b. unfold formatFile.
  destruct (JS.arrayIncludes modified a), (JS.arrayIncludes modified b);
    intros H; try discriminate H.
  - now apply (append_inj_l "* ").
  - now apply (append_inj_l "  ").
Qed.

(** C5.  The merged result holds no path twice, whatever the two lists hold:
    neither the sorted paths nor the formatted lines repeat; and a file that
    is both committed and modified has one entry, the one with the asterisk
    of a modified file. *)
Theorem merged_result_has_no_duplicates
    (localeCompare : JS.Collation) (branchName : string)
    (committed modified : list string) :
  let r := mergeResult localeCompare branchName committed modified in
  NoDup (res_sortedFiles r) /\
  NoDup (res_formattedFiles r) /\
  forall file,
    In file committed -> In file modified -> notBlank file = true ->
    count_occ string_dec (res_sortedFiles r) file = 1 /\
    count_occ string_dec (res_formattedFiles r) ("* " ++ file) = 1 /\
    ~ In ("  " ++ file) (res_formattedFiles r).
Proof.
  cbn [mergeResult res_sortedFiles res_formattedFiles].
  assert (Hs := sortedFilesOf_NoDup localeCompare committed modified).
  assert (Hf : NoDup (formattedFilesOf localeCompare committed modified)).
  { apply Injective_map_NoDup; [apply formatFile_injective | exact Hs]. }
  split; [exact Hs|]. split; [exact Hf|].
  intros file Hc Hm Hb.
  assert (Hin : In file (sortedFilesOf localeCompare committed modified)).
  { apply sortedFilesOf_In. tauto. }
  assert (Hmark : formatFile modified file = "* " ++ file).
  { unfold formatFile. apply arrayIncludes_In in Hm. now rewrite Hm. }
  split; [|split].
  - now apply (proj1 (NoDup_count_occ' string_dec _) Hs).
  - apply (proj1 (NoDup_count_occ' string_dec _) Hf).
    rewrite <- Hmark. now apply in_map.
  - unfold formattedFilesOf. rewrite in_map_iff. intros [g [Hg _]].
    unfold formatFile in Hg. destruct (JS.arrayIncludes modified g) eqn:E.
    + discriminate Hg.
    + apply (append_inj_l "  ") in Hg. subst g.
      apply arrayIncludes_In in Hm. congruence.
Qed.

(** A file committed on the branch and modified in the working tree. *)
Lemma merged_result_has_no_duplicates_witness :
  let r := mergeResult foldedOrder "feature"
             ["src/a.ts"; "src/b.ts"; ""] ["src/b.ts"] in
  res_formattedFiles r = ["  src/a.ts"; "* src/b.ts"] /\
  count_occ string_dec (res_formattedFiles r) ("* " ++ "src/b.ts") = 1.
Proof.
  split; [reflexivity|].
  apply (merged_result_has_no_duplicates foldedOrder
           "feature" ["src/a.ts"; "src/b.ts"; ""] ["src/b.ts"]).
  - simpl; auto.
  - simpl; auto.
  - reflexivity.
Defined.



(** C7, as stated, fails: README.md and Readme.md are two paths, and every
    comparison that ties letter case, as sensitivity 'base' does, makes the
    comparator report them equal; the comparison of the sample hosts is
    one. *)
Lemma comparator_equates_distinct_paths :
  "README.md" <> "Readme.md" /\
  (forall localeCompare : JS.Collation,
     tiesLetterCase localeCompare ->
     compareFiles localeCompare "README.md" "Readme.md" = 0%Z) /\
  tiesLetterCase foldedOrder /\
  compareFiles foldedOrder "README.md" "Readme.md" = 0%Z.
Proof.
  split; [discriminate|]. split.
  - intros localeCompare Hties. apply compareFiles_zero.
    split; [reflexivity | now apply Hties].
  - split; [exact foldedOrder_tiesLetterCase | reflexivity].
Qed.

(** C7, amended.  With a comparison of the locale that is a consistent
    comparator, the comparator of the sort is a total preorder: the two
    directions of a comparison have opposite signs, and "not after" is
    transitive.  It reports two paths equal exactly when they are of the
    same class and the comparison of the locale ties them; when that
    comparison ties letter case, two paths that differ in letter case only
    are reported equal. *)
Theorem comparator_total_preorder
    (localeCompare : JS.Collation) (a b : string) :
  let dirLike := fun entry : string =>
    JS.endsWith entry "/" || negb (JS.includes entry ".") in
  consistentComparator localeCompare ->
  ((compareFiles localeCompare a b < 0)%Z <->
   (0 < compareFiles localeCompare b a)%Z) /\
  (forall c, (compareFiles localeCompare a b <= 0)%Z ->
             (compareFiles localeCompare b c <= 0)%Z ->
             (compareFiles localeCompare a c <= 0)%Z) /\
  (compareFiles localeCompare a b = 0%Z <->
   dirLike a = dirLike b /\ localeCompare a b = 0%Z) /\
  (tiesLetterCase localeCompare -> foldString a = foldString b ->
   compareFiles localeCompare a b = 0%Z).
Proof.
  intros dirLike Hc. change dirLike with isDirLike. clear dirLike.
  split; [now apply compareFiles_opp|]. split.
  - intros c. now apply fileLe_trans.
  - split; [apply compareFiles_zero|].
    intros Hties Hfold. apply compareFiles_zero.
    split; [now apply isDirLike_fold | now apply Hties].
Qed.

(** The comparison of the sample hosts, on two paths of the same class. *)
Lemma comparator_total_preorder_witness :
  (compareFiles foldedOrder "src/a.ts" "src/B.ts" < 0)%Z /\
  (0 < compareFiles foldedOrder "src/B.ts" "src/a.ts")%Z.
Proof.
  split; [reflexivity|].
  apply (proj1 (comparator_total_preorder foldedOrder "src/a.ts" "src/B.ts"
                  foldedOrder_consistent)).
  reflexivity.
Defined.

(* ================================================================== *)
(** ** Branch-name normalization *)
(* ================================================================== *)

(** C8, as stated, fails for both normalizations: one pass strips one
    prefix, and what is left may start with another. *)
Lemma normalization_not_idempotent :
  cleanRemoteBranchName (cleanRemoteBranchName "remotes/origin/remotes/x")
    <> cleanRemoteBranchName "remotes/origin/remotes/x" /\
  normalizeBranch (normalizeBranch "refs/heads/refs/heads/x")
    <> normalizeBranch "refs/heads/refs/heads/x".
Proof. split; vm_compute; discriminate. Qed.

(** C8, amended.  Normalizing a second time changes nothing exactly when
    the normalized name has nothing left to strip: no "remotes/" in it for
    the cleaning of remote names, no match of the refs prefix for the
    normalization before the comparison. *)
Theorem normalization_idempotent_iff (s : string) :
  (cleanRemoteBranchName (cleanRemoteBranchName s) = cleanRemoteBranchName s
   <-> JS.includes (cleanRemoteBranchName s) "remotes/" = false) /\
  (normalizeBranch (normalizeBranch s) = normalizeBranch s
   <-> refsPrefixMatch (normalizeBranch s) = None).
Proof.
  split.
  - set (t := cleanRemoteBranchName s).
    unfold cleanRemoteBranchName at 1.
    destruct (JS.includes t "remotes/") eqn:E.
    + split; [|discriminate]. intros H.
      apply length_removeFirst in E. rewrite H in E. simpl in E. lia.
    + tauto.
  - set (t := normalizeBranch s).
    unfold normalizeBranch at 1.
    destruct (refsPrefixMatch t) as [rest|] eqn:E.
    + split; [|discriminate]. intros H.
      apply refsPrefixMatch_shorter in E. rewrite H in E. lia.
    + tauto.
Qed.

(** Names as git prints them are fixed after one pass. *)
Lemma normalization_idempotent_examples :
  cleanRemoteBranchName (cleanRemoteBranchName "remotes/origin/main")
    = cleanRemoteBranchName "remotes/origin/main" /\
  normalizeBranch (normalizeBranch "refs/remotes/origin/main")
    = normalizeBranch "refs/remotes/origin/main" /\
  normalizeBranch "refs/remotes/origin/main" = "main" /\
  normalizeBranch "refs/heads/feature/x" = "feature/x".
Proof. repeat split; reflexivity. Qed.

(* ================================================================== *)
(** ** The changed-file resolver *)
(* ================================================================== *)

Section Resolver.
Variable host : Host.
Variables repoPath baseRef branchName folderPath pathForGitCommands : string.

Local Abbreviation primary := (primaryTier host repoPath baseRef branchName pathForGitCommands).
Local Abbreviation secondary := (secondaryTier host repoPath baseRef branchName pathForGitCommands).
Local Abbreviation tertiary := (tertiaryTier host repoPath folderPath).
Local Abbreviation resolve :=
  (resolveCommitted host repoPath baseRef branchName folderPath pathForGitCommands).

(** The three nested [try] blocks, one after the other. *)
Lemma resolveCommitted_tiers (st : Frame) :
  resolve st =
  match primary (mkFrame (calls st) [] (modifiedFiles st)) with
  | (Normal _, s) => (Normal tt, s)
  | (Thrown _, s1) =>
      match secondary s1 with
      | (Normal _, s) => (Normal tt, s)
      | (Thrown _, s2) =>
          match tertiary s2 with
          | (Normal _, s) => (Normal tt, s)
          | (Thrown _, s3) => (Normal tt, s3)
          end
      end
  end.
Proof.
  unfold resolveCommitted, bind, tryCatch, setCommittedFiles, ret. simpl.
  destruct (primary _) as [[[]|e1] s1]; [reflexivity|].
  destruct (secondary s1) as [[[]|e2] s2]; [reflexivity|].
  destruct (tertiary s2) as [[[]|e3] s3]; reflexivity.
Qed.

Lemma execSync_run (command cwd : string) (st : Frame) :
  execSync host command cwd st =
  (match execOracle host (List.length (calls st)) cwd command with
   | Stdout out => Normal out
   | Throws e => Thrown e
   end,
   mkFrame (calls st ++ [mkCall cwd command]) (committedFiles st)
           (modifiedFiles st)).
Proof.
  unfold execSync. destruct (execOracle host _ cwd command); reflexivity.
Qed.

(** A tier that throws has assigned nothing. *)
Lemma primaryTier_thrown (st s1 : Frame) (e : string) :
  primary st = (Thrown e, s1) ->
  committedFiles s1 = committedFiles st /\ modifiedFiles s1 = modifiedFiles st.
Proof.
  unfold primaryTier, bind, setCommittedFiles.
  destruct (isSameBranch branchName baseRef); rewrite execSync_run.
  - destruct (execOracle host _ _ _); [discriminate|].
    intros [= _ <-]. auto.
  - destruct (execOracle host _ _ _); [|intros [= _ <-]; auto].
    rewrite execSync_run.
    destruct (execOracle host _ _ _); [discriminate|].
    intros [= _ <-]. auto.
Qed.

Lemma secondaryTier_thrown (st s2 : Frame) (e : string) :
  secondary st = (Thrown e, s2) ->
  committedFiles s2 = committedFiles st /\ modifiedFiles s2 = modifiedFiles st.
Proof.
  unfold secondaryTier, bind, setCommittedFiles.
  destruct (isSameBranch branchName baseRef); rewrite execSync_run;
    (destruct (execOracle host _ _ _); [discriminate|]);
    intros [= _ <-]; auto.
Qed.

Lemma tertiaryTier_run (st : Frame) :
  tertiary st =
  match execOracle host (List.length (calls st)) repoPath statusCommand with
  | Stdout statusOutput =>
      (Normal tt,
       mkFrame (calls st ++ [mkCall repoPath statusCommand])
               (underFolder folderPath (statusFilesOf statusOutput))
               (modifiedFiles st))
  | Throws e =>
      (Thrown e,
       mkFrame (calls st ++ [mkCall repoPath statusCommand])
               (committedFiles st) (modifiedFiles st))
  end.
Proof.
  unfold tertiaryTier, bind, setCommittedFiles. rewrite execSync_run.
  destruct (execOracle host _ _ _); reflexivity.
Qed.

(** No exception leaves the resolver, and it leaves [modifiedFiles] alone. *)
Lemma resolveCommitted_normal (st : Frame) : fst (resolve st) = Normal tt.
Proof.
  rewrite resolveCommitted_tiers.
  destruct (primary _) as [[[]|e1] s1]; [reflexivity|].
  destruct (secondary s1) as [[[]|e2] s2]; [reflexivity|].
  destruct (tertiary s2) as [[[]|e3] s3]; reflexivity.
Qed.

Lemma underFolder_In (files : list string) (file : string) :
  In file (underFolder folderPath files) <->
  In file files /\ (folderPath = "" \/ JS.startsWith file folderPath = true).
Proof.
  unfold underFolder. destruct folderPath as [|c f]; simpl JS.truthy; cbv iota.
  - tauto.
  - rewrite filter_In. split; [tauto|].
    intros [H [H'|H']]; [discriminate | tauto].
Qed.

End Resolver.

(** The two normalizations agree with the same-branch test of the resolver:
    a name that is the base after either of them passes the test. *)
Lemma normalized_base_isSameBranch (branchName baseRef : string) :
  branchName = baseRef \/ normalizeBranch branchName = baseRef ->
  isSameBranch branchName baseRef = true.
Proof.
  unfold isSameBranch, normalizeBranch. intros [->|H].
  - now rewrite String.eqb_refl.
  - destruct (refsPrefixMatch branchName) as [rest|] eqn:E.
    + subst rest. destruct (refsPrefixMatch_shape _ _ E) as [pre ->].
      rewrite endsWith_append. apply orb_true_r.
    + subst. now rewrite String.eqb_refl.
Qed.

(** C2.  The committed files of a branch whose normalized name differs from
    the base are to be the diff from the merge-base.  The local branch
    "feature/main" is not the base under either normalization, and yet the
    resolver takes it for the base because its name ends in "/main": it runs
    the history scan and never asks for the merge-base or the diff. *)
Lemma branch_ending_in_base_is_scanned :
  let host := tableHost
    [(allFilesCommand "feature/main" "", lines ["old.ts"; "src/a.ts"]);
     (mergeBaseCommand "main" "feature/main", lines ["abc123"]);
     (committedFilesCommand "abc123" "feature/main" "", lines ["src/a.ts"])]
    "feature/main" in
  let run := resolveCommitted host "/repo" "main"
               (cleanRemoteBranchName "feature/main") "" "" emptyFrame in
  cleanRemoteBranchName "feature/main" <> "main" /\
  normalizeBranch (cleanRemoteBranchName "feature/main") <> "main" /\
  calls (snd run) = [mkCall "/repo" (allFilesCommand "feature/main" "")] /\
  committedFiles (snd run) = ["old.ts"; "src/a.ts"] /\
  committedFiles (snd run) <> JS.splitLines (lines ["src/a.ts"]).
Proof.
  vm_compute. repeat split; discriminate.
Qed.

(** X1.  What the resolver does for a branch that fails its same-branch
    test (it is not the base and does not end in "/" and the base): when
    the merge-base and
    the diff commands succeed, the committed files are the lines of the
    diff between the merge-base and the branch, with the path filter in the
    command; when one of the two fails, the three-dot diff is used, and the
    status when that fails as well; no exception leaves the resolver. *)
Theorem differing_branch_merge_base_diff
    (host : Host)
    (repoPath baseRef branchName folderPath pathForGitCommands : string)
    (st : Frame) :
  let start := mkFrame (calls st) [] (modifiedFiles st) in
  let n := List.length (calls st) in
  let run := resolveCommitted host repoPath baseRef branchName folderPath
               pathForGitCommands st in
  isSameBranch branchName baseRef = false ->
  fst run = Normal tt /\
  (forall mergeBaseOut out,
     execOracle host n repoPath (mergeBaseCommand baseRef branchName)
       = Stdout mergeBaseOut ->
     execOracle host (S n) repoPath
       (committedFilesCommand (JS.trim mergeBaseOut) branchName
          pathForGitCommands) = Stdout out ->
     run = (Normal tt,
            mkFrame (calls st ++
                     [mkCall repoPath (mergeBaseCommand baseRef branchName);
                      mkCall repoPath
                        (committedFilesCommand (JS.trim mergeBaseOut)
                           branchName pathForGitCommands)])%list
                    (JS.splitLines out) (modifiedFiles st))) /\
  (forall e1 s1,
     primaryTier host repoPath baseRef branchName pathForGitCommands start
       = (Thrown e1, s1) ->
     let m := List.length (calls s1) in
     let threeDot := fallbackCommand baseRef branchName pathForGitCommands in
     (forall out,
        execOracle host m repoPath threeDot = Stdout out ->
        run = (Normal tt,
               mkFrame (calls s1 ++ [mkCall repoPath threeDot])%list
                       (JS.splitLines out) (modifiedFiles st))) /\
     (forall e2,
        execOracle host m repoPath threeDot = Throws e2 ->
        (forall statusOutput,
           execOracle host (S m) repoPath statusCommand = Stdout statusOutput ->
           committedFiles (snd run)
             = underFolder folderPath (statusFilesOf statusOutput)) /\
        (forall e3,
           execOracle host (S m) repoPath statusCommand = Throws e3 ->
           committedFiles (snd run) = []))).
Proof.
  intros start n run Hdiff. split; [apply resolveCommitted_normal|].
  subst run. rewrite resolveCommitted_tiers. fold start. split.
  - intros mergeBaseOut out Hmb Hout.
    unfold primaryTier. rewrite Hdiff.
    unfold bind, setCommittedFiles. rewrite execSync_run.
    cbn [calls committedFiles modifiedFiles start]. fold n. rewrite Hmb.
    rewrite execSync_run. cbn [calls committedFiles modifiedFiles].
    rewrite length_app, Nat.add_comm. cbn [List.length Nat.add]. fold n.
    rewrite Hout. rewrite <- app_assoc. reflexivity.
  - intros e1 s1 H1 m threeDot. rewrite H1.
    destruct (primaryTier_thrown _ _ _ _ _ _ _ _ H1) as [Hc Hm].
    cbn [start committedFiles modifiedFiles] in Hc, Hm.
    unfold secondaryTier. rewrite Hdiff.
    unfold bind, setCommittedFiles. rewrite execSync_run.
    fold m threeDot. split.
    + intros out Hout. rewrite Hout. cbn [calls modifiedFiles].
      now rewrite Hm.
    + intros e2 H2. rewrite H2. rewrite tertiaryTier_run.
      cbn [calls committedFiles modifiedFiles].
      rewrite length_app, Nat.add_comm. cbn [List.length Nat.add]. fold m.
      split.
      * intros statusOutput H3. now rewrite H3.
      * intros e3 H3. rewrite H3. cbn [snd committedFiles]. exact Hc.
Qed.

(** A feature branch with one commit that adds two files under "src". *)
Lemma differing_branch_merge_base_diff_witness :
  let host := tableHost
    [(mergeBaseCommand "main" "feature/x", lines ["abc123"]);
     (committedFilesCommand "abc123" "feature/x" "src",
      lines ["src/a.ts"; "src/b.ts"])] "feature/x" in
  isSameBranch "feature/x" "main" = false /\
  resolveCommitted host "/repo" "main" "feature/x" "src" "src" emptyFrame
  = (Normal tt,
     mkFrame [mkCall "/repo" (mergeBaseCommand "main" "feature/x");
              mkCall "/repo" (committedFilesCommand "abc123" "feature/x" "src")]
             ["src/a.ts"; "src/b.ts"; ""] []).
Proof.
  intros host. split; [reflexivity|].
  exact (proj1 (proj2 (differing_branch_merge_base_diff host "/repo" "main"
                         "feature/x" "src" "src" emptyFrame eq_refl))
           (lines ["abc123"]) (lines ["src/a.ts"; "src/b.ts"])
           eq_refl eq_refl).
Defined.

(** C4.  No exception leaves the resolver.  When the first two tiers have
    thrown, the status decides: if it throws too, the committed files are
    empty; if it succeeds, they are the paths of the status, and under a
    folder those that start with the folder's path. *)
Theorem status_fallback_never_throws
    (host : Host)
    (repoPath baseRef branchName folderPath pathForGitCommands : string)
    (st : Frame) :
  let start := mkFrame (calls st) [] (modifiedFiles st) in
  let run := resolveCommitted host repoPath baseRef branchName folderPath
               pathForGitCommands st in
  fst run = Normal tt /\
  (forall e1 s1 e2 s2,
     primaryTier host repoPath baseRef branchName pathForGitCommands start
       = (Thrown e1, s1) ->
     secondaryTier host repoPath baseRef branchName pathForGitCommands s1
       = (Thrown e2, s2) ->
     let m := List.length (calls s2) in
     (forall e3,
        execOracle host m repoPath statusCommand = Throws e3 ->
        run = (Normal tt,
               mkFrame (calls s2 ++ [mkCall repoPath statusCommand])%list
                       [] (modifiedFiles st))) /\
     (forall statusOutput,
        execOracle host m repoPath statusCommand = Stdout statusOutput ->
        committedFiles (snd run)
          = underFolder folderPath (statusFilesOf statusOutput) /\
        forall file,
          In file (committedFiles (snd run)) <->
          In file (statusFilesOf statusOutput) /\
          (folderPath = "" \/ JS.startsWith file folderPath = true))).
Proof.
  intros start run. split; [apply resolveCommitted_normal|].
  intros e1 s1 e2 s2 H1 H2 m.
  subst run. rewrite resolveCommitted_tiers. fold start. rewrite H1, H2.
  destruct (primaryTier_thrown _ _ _ _ _ _ _ _ H1) as [Hc1 Hm1].
  destruct (secondaryTier_thrown _ _ _ _ _ _ _ _ H2) as [Hc2 Hm2].
  cbn [start committedFiles modifiedFiles] in Hc1, Hm1.
  rewrite tertiaryTier_run. fold m. split.
  - intros e3 H3. rewrite H3. now rewrite Hc2, Hc1, Hm2, Hm1.
  - intros statusOutput H3. rewrite H3. cbn [snd committedFiles].
    split; [reflexivity|]. intros file. apply underFolder_In.
Qed.

(** Not a repository at all: every command fails, the result is empty.
    And a repository whose status alone succeeds, asked for "src". *)
Lemma status_fallback_never_throws_witness :
  resolveCommitted (tableHost [] "feature/x") "/repo" "master" "feature/x"
    "" "" emptyFrame
  = (Normal tt,
     mkFrame [mkCall "/repo" (mergeBaseCommand "master" "feature/x");
              mkCall "/repo" (fallbackCommand "master" "feature/x" "");
              mkCall "/repo" statusCommand] [] []) /\
  committedFiles (snd (resolveCommitted
    (tableHost [(statusCommand, lines [" M src/a.ts"; "?? docs/b.md"])]
       "feature/x")
    "/repo" "master" "feature/x" "src" "src" emptyFrame))
  = ["src/a.ts"].
Proof.
  split.
  - exact (proj1 (proj2 (status_fallback_never_throws (tableHost [] "feature/x")
             "/repo" "master" "feature/x" "" "" emptyFrame)
             _ _ _ _ eq_refl eq_refl) "fatal" eq_refl).
  - exact (proj1 (proj2 (proj2 (status_fallback_never_throws
             (tableHost [(statusCommand, lines [" M src/a.ts"; "?? docs/b.md"])]
                "feature/x")
             "/repo" "master" "feature/x" "src" "src" emptyFrame)
             _ _ _ _ eq_refl eq_refl)
             (lines [" M src/a.ts"; "?? docs/b.md"]) eq_refl)).
Defined.

(* ================================================================== *)
(** ** The working-tree modification scanner *)
(* ================================================================== *)

Lemma skipn_length_app {A} (l r : list A) :
  skipn (List.length l) (l ++ r)%list = r.
Proof. induction l; simpl; auto. Qed.

Lemma collectModified_run
    (host : Host) (repoPath folderPath pathForGitCommands : string)
    (st : Frame) :
  collectModified host repoPath folderPath pathForGitCommands st =
  let n := List.length (calls st) in
  let status := mkCall repoPath statusCommand in
  let lsFiles := mkCall repoPath (modifiedFilesCommand pathForGitCommands) in
  match execOracle host n repoPath statusCommand with
  | Throws e =>
      (Thrown e,
       mkFrame (calls st ++ [status]) (committedFiles st) (modifiedFiles st))
  | Stdout statusOutput =>
      let fromStatus := underFolder folderPath (statusFilesOf statusOutput) in
      match execOracle host (S n) repoPath
              (modifiedFilesCommand pathForGitCommands) with
      | Throws e =>
          (Thrown e,
           mkFrame (calls st ++ [status; lsFiles]) (committedFiles st)
                   fromStatus)
      | Stdout out =>
          (Normal tt,
           mkFrame (calls st ++ [status; lsFiles]) (committedFiles st)
                   (JS.newSet (fromStatus
                               ++ filter notBlank (JS.splitLines out))))
      end
  end.
Proof.
  unfold collectModified, bind, setModifiedFiles, getModifiedFiles.
  rewrite execSync_run. cbv zeta.
  destruct (execOracle host _ _ statusCommand); [|reflexivity].
  rewrite execSync_run. cbn [calls committedFiles modifiedFiles].
  rewrite length_app, Nat.add_comm. cbn [List.length Nat.add].
  rewrite <- app_assoc. cbn [app].
  destruct (execOracle host _ _ _); reflexivity.
Qed.

Lemma scanModified_run
    (host : Host) (repoPath branchName folderPath pathForGitCommands : string)
    (st : Frame) :
  scanModified host repoPath branchName folderPath pathForGitCommands st =
  let asked :=
    mkFrame (calls st ++ [mkCall repoPath currentBranchCommand])
            (committedFiles st) [] in
  match execOracle host (List.length (calls st)) repoPath currentBranchCommand
  with
  | Throws _ => (Normal tt, asked)
  | Stdout out =>
      if isOnSelectedBranch (JS.trim out) branchName
         && negb (isRemoteBranch branchName)
      then (Normal tt,
            snd (collectModified host repoPath folderPath pathForGitCommands
                   asked))
      else (Normal tt, asked)
  end.
Proof.
  unfold scanModified, bind, tryCatch, setModifiedFiles, ret.
  rewrite execSync_run. cbn [calls committedFiles modifiedFiles]. cbv zeta.
  destruct (execOracle host _ _ currentBranchCommand); [|reflexivity].
  destruct (_ && _); [|reflexivity].
  destruct (collectModified _ _ _ _ _) as [[[]|e] s]; reflexivity.
Qed.

Lemma collectModified_calls
    (host : Host) (repoPath folderPath pathForGitCommands : string)
    (st : Frame) :
  exists rest,
    calls (snd (collectModified host repoPath folderPath pathForGitCommands st))
    = (calls st ++ mkCall repoPath statusCommand :: rest)%list.
Proof.
  rewrite collectModified_run. cbv zeta.
  destruct (execOracle host _ _ statusCommand).
  - destruct (execOracle host _ _ _); eexists; reflexivity.
  - eexists; reflexivity.
Qed.

(** C3.  The scanner is to run exactly when the checked-out branch
    normalizes to the selected one and the selected one is not a
    remote-tracking reference.  A local branch whose name holds a slash is
    taken for a remote one: "feature/x" is checked out and selected (the
    branch list prints remote-tracking names with "remotes/" in front), the
    status reports a modified file, and the scanner asks for the current
    branch only and returns nothing. *)
Lemma local_branch_with_slash_is_not_scanned :
  let host := tableHost
    [(currentBranchCommand, lines ["feature/x"]);
     (statusCommand, lines [" M src/a.ts"]);
     (modifiedFilesCommand "", lines ["src/a.ts"])] "feature/x" in
  let branchName := cleanRemoteBranchName "feature/x" in
  JS.startsWith "feature/x" "remotes/" = false /\
  normalizeBranch (JS.trim (lines ["feature/x"])) = normalizeBranch branchName /\
  scanModified host "/repo" branchName "" "" emptyFrame
  = (Normal tt, mkFrame [mkCall "/repo" currentBranchCommand] [] []) /\
  ~ scanned "/repo" 0 (snd (scanModified host "/repo" branchName "" "" emptyFrame)).
Proof.
  vm_compute. repeat split. intros [H|[]]. discriminate H.
Qed.

(** A remote-tracking branch as the branch list prints it, cleaned. *)
Lemma cleanRemoteBranchName_remote (rest : string) :
  cleanRemoteBranchName ("remotes/" ++ rest) = rest.
Proof. cbv. reflexivity. Qed.

(** X4.  What the scanner does.  It never throws.  It runs its status
    command exactly when the current branch is known, normalizes to the same name
    as the selected branch, and the selected name (with "remotes/" removed)
    is not taken for a remote one, that is, holds no slash or starts with
    "refs/heads/".  Otherwise it has asked for the current branch only and
    the modified files are empty; so they are for every name taken for a
    remote one, whatever is checked out. *)
Theorem scanner_runs_iff_eligible
    (host : Host) (repoPath branchName folderPath pathForGitCommands : string)
    (st : Frame) :
  let n := List.length (calls st) in
  let run := scanModified host repoPath branchName folderPath
               pathForGitCommands st in
  let idle :=
    (Normal tt,
     mkFrame (calls st ++ [mkCall repoPath currentBranchCommand])%list
             (committedFiles st) []) in
  fst run = Normal tt /\
  (forall out,
     execOracle host n repoPath currentBranchCommand = Stdout out ->
     (scanned repoPath n (snd run) <->
      isOnSelectedBranch (JS.trim out) branchName = true /\
      isRemoteBranch branchName = false)) /\
  (forall e,
     execOracle host n repoPath currentBranchCommand = Throws e ->
     run = idle) /\
  (~ scanned repoPath n (snd run) -> run = idle) /\
  (isRemoteBranch branchName = true -> run = idle).
Proof.
  intros n run idle. subst run. rewrite scanModified_run. cbv zeta.
  fold n.
  assert (Hidle : ~ scanned repoPath n (snd idle)).
  { unfold scanned, idle, n. cbn [snd calls]. rewrite skipn_length_app.
    intros [H|[]]. discriminate H. }
  assert (Hbusy : forall s,
    scanned repoPath n
      (snd (collectModified host repoPath folderPath pathForGitCommands
              (mkFrame (calls st ++ [mkCall repoPath currentBranchCommand])
                       s []))) ).
  { intros s. destruct (collectModified_calls host repoPath folderPath
      pathForGitCommands
      (mkFrame (calls st ++ [mkCall repoPath currentBranchCommand]) s []))
      as [rest Hrest].
    unfold scanned, n. rewrite Hrest. cbn [calls].
    rewrite <- app_assoc, skipn_length_app. simpl. auto. }
  destruct (execOracle host n repoPath currentBranchCommand) as [out|e].
  - split; [destruct (_ && _); reflexivity|].
    split; [|split; [discriminate|]].
    + intros out' [= <-].
      destruct (isOnSelectedBranch (JS.trim out) branchName);
        destruct (isRemoteBranch branchName); cbn [andb negb snd];
        split; try (intros [? ?]; discriminate); try (intros H; now elim Hidle);
        auto.
    + destruct (isOnSelectedBranch (JS.trim out) branchName);
        destruct (isRemoteBranch branchName); cbn [andb negb snd];
        split; try reflexivity; try discriminate;
        intros H; exfalso; apply H, Hbusy.
  - split; [reflexivity|]. split; [discriminate|].
    split; [reflexivity|]. split; reflexivity.
Qed.

(** The checked-out branch is the selected one and a file is modified. *)
Lemma scanner_runs_iff_eligible_witness :
  let host := tableHost
    [(currentBranchCommand, lines ["dev"]);
     (statusCommand, lines [" M src/a.ts"; "?? notes.md"]);
     (modifiedFilesCommand "", lines ["src/a.ts"])] "dev" in
  let run := scanModified host "/repo" "dev" "" "" emptyFrame in
  modifiedFiles (snd run) = ["src/a.ts"; "notes.md"] /\
  (scanned "/repo" 0 (snd run) <->
   isOnSelectedBranch (JS.trim (lines ["dev"])) "dev" = true /\
   isRemoteBranch "dev" = false).
Proof.
  intros host run. split; [reflexivity|].
  exact (proj1 (proj2 (scanner_runs_iff_eligible host "/repo" "dev" "" ""
                         emptyFrame)) (lines ["dev"]) eq_refl).
Defined.

(** X5.  A remote-tracking branch as the branch list prints it, "remotes/"
    and then a name that holds a slash and does not start with
    "refs/heads/", is never scanned, whatever is checked out and whatever
    the commands answer: the scanner asks for the current branch and
    leaves the modified files empty. *)
Lemma remote_tracking_selection_not_scanned
    (host : Host) (repoPath rest folderPath pathForGitCommands : string)
    (st : Frame) :
  JS.includes rest "/" = true ->
  JS.startsWith rest "refs/heads/" = false ->
  scanModified host repoPath (cleanRemoteBranchName ("remotes/" ++ rest))
    folderPath pathForGitCommands st
  = (Normal tt,
     mkFrame (calls st ++ [mkCall repoPath currentBranchCommand])%list
             (committedFiles st) []).
Proof.
  intros Hslash Hrefs. rewrite cleanRemoteBranchName_remote.
  rewrite scanModified_run. cbv zeta. unfold isRemoteBranch.
  rewrite Hslash, Hrefs. cbn [andb negb].
  destruct (execOracle host _ _ _); [|reflexivity].
  now rewrite andb_false_r.
Qed.

(** The remote branch "origin/feature/x" is selected while the local
    "feature/x" is checked out and has a modified file. *)
Lemma remote_tracking_selection_not_scanned_witness :
  let host := tableHost
    [(currentBranchCommand, lines ["feature/x"]);
     (statusCommand, lines [" M src/a.ts"])] "remotes/origin/feature/x" in
  scanModified host "/repo"
    (cleanRemoteBranchName "remotes/origin/feature/x") "" "" emptyFrame
  = (Normal tt, mkFrame [mkCall "/repo" currentBranchCommand] [] []).
Proof.
  intros host.
  apply (remote_tracking_selection_not_scanned host "/repo" "origin/feature/x"
           "" "" emptyFrame); reflexivity.
Defined.

(* ================================================================== *)
(** ** The command as a whole *)
(* ================================================================== *)

Lemma grows_ret {A} (a : A) : grows (ret a).
Proof. intros st. exists []. simpl. now rewrite app_nil_r. Qed.

Lemma grows_bind {A B} (m : M A) (k : A -> M B) :
  grows m -> (forall a, grows (k a)) -> grows (bind m k).
Proof.
  intros Hm Hk st. unfold bind. destruct (Hm st) as [made1 H1].
  destruct (m st) as [[a|e] s1]; simpl in H1.
  - destruct (Hk a s1) as [made2 H2]. exists (made1 ++ made2)%list.
    rewrite H2, H1. now rewrite app_assoc.
  - exists made1. exact H1.
Qed.

Lemma grows_tryCatch {A} (body : M A) (handler : string -> M A) :
  grows body -> (forall e, grows (handler e)) -> grows (tryCatch body handler).
Proof.
  intros Hm Hk st. unfold tryCatch. destruct (Hm st) as [made1 H1].
  destruct (body st) as [[a|e] s1]; simpl in H1.
  - exists made1. exact H1.
  - destruct (Hk e s1) as [made2 H2]. exists (made1 ++ made2)%list.
    rewrite H2, H1. now rewrite app_assoc.
Qed.

Lemma grows_execSync (host : Host) (command cwd : string) :
  grows (execSync host command cwd).
Proof. intros st. rewrite execSync_run. eexists. reflexivity. Qed.

Lemma grows_setCommittedFiles (files : list string) :
  grows (setCommittedFiles files).
Proof. intros st. exists []. simpl. now rewrite app_nil_r. Qed.

Lemma grows_setModifiedFiles (files : list string) :
  grows (setModifiedFiles files).
Proof. intros st. exists []. simpl. now rewrite app_nil_r. Qed.

Lemma grows_getCommittedFiles : grows getCommittedFiles.
Proof. intros st. exists []. simpl. now rewrite app_nil_r. Qed.

Lemma grows_getModifiedFiles : grows getModifiedFiles.
Proof. intros st. exists []. simpl. now rewrite app_nil_r. Qed.

Create HintDb grows.
#[local] Hint Resolve grows_ret grows_execSync grows_setCommittedFiles
  grows_setModifiedFiles grows_getCommittedFiles grows_getModifiedFiles
  : grows.

Ltac grows_step :=
  match goal with
  | |- grows (bind _ _) => apply grows_bind; [|intros ?]
  | |- grows (tryCatch _ _) => apply grows_tryCatch; [|intros ?]
  | |- grows (if ?c then _ else _) => destruct c
  | |- grows (match ?x with _ => _ end) => destruct x
  | |- grows _ => solve [auto with grows]
  end.

Lemma grows_resolveCommitted
    (host : Host)
    (repoPath baseRef branchName folderPath pathForGitCommands : string) :
  grows (resolveCommitted host repoPath baseRef branchName folderPath
           pathForGitCommands).
Proof.
  unfold resolveCommitted, primaryTier, secondaryTier, tertiaryTier.
  repeat grows_step.
Qed.

Lemma grows_scanModified
    (host : Host)
    (repoPath branchName folderPath pathForGitCommands : string) :
  grows (scanModified host repoPath branchName folderPath pathForGitCommands).
Proof.
  unfold scanModified, collectModified. repeat grows_step.
Qed.

Lemma grows_showBranchFiles
    (host : Host) (repoPath : string) (sel : DirectoryItem)
    (selectedBranch : BranchItem) (baseRef : string) :
  grows (showBranchFiles host repoPath sel selectedBranch baseRef).
Proof.
  unfold showBranchFiles.
  repeat (grows_step || apply grows_resolveCommitted
          || apply grows_scanModified).
Qed.

Lemma checkGitRepo_run (host : Host) (repoPath : string) (sel : DirectoryItem)
    (st : Frame) :
  checkGitRepo host repoPath sel st =
  (Normal
     match execOracle host (List.length (calls st)) repoPath gitCheckCommand
     with
     | Stdout _ => None
     | Throws _ => if isExternal sel then Some (ShowError notGitMessage)
                   else None
     end,
   mkFrame (calls st ++ [mkCall repoPath gitCheckCommand])
           (committedFiles st) (modifiedFiles st)).
Proof.
  unfold checkGitRepo, tryCatch, bind, ret. rewrite execSync_run.
  destruct (execOracle host _ _ _); [reflexivity|].
  destruct (isExternal sel); reflexivity.
Qed.

Lemma listBranches_run (host : Host) (repoPath : string) (st : Frame) :
  listBranches host repoPath st =
  (Normal
     match execOracle host (List.length (calls st)) repoPath branchListCommand
     with
     | Stdout out => inr (JS.splitLines out)
     | Throws e => inl (ShowError ("Failed to get Git branches: " ++ e))
     end,
   mkFrame (calls st ++ [mkCall repoPath branchListCommand])
           (committedFiles st) (modifiedFiles st)).
Proof.
  unfold listBranches, tryCatch, bind, ret. rewrite execSync_run.
  destruct (execOracle host _ _ _); reflexivity.
Qed.

(** What is left of the command after the check of line 270. *)
Lemma selectBranchFiles_after_check
    (host : Host) (workspacePath : string) (sel : DirectoryItem) :
  let repoPath := repoPathOf workspacePath sel in
  exists rest : M Outcome,
    grows rest /\
    selectBranchFiles host workspacePath sel emptyFrame
    = rest (mkFrame [mkCall repoPath gitCheckCommand] [] []).
Proof.
  intros repoPath.
  unfold selectBranchFiles. fold repoPath.
  eexists (tryCatch
    (match (match execOracle host 0 repoPath gitCheckCommand with
            | Stdout _ => None
            | Throws _ => if isExternal sel
                          then Some (ShowError notGitMessage) else None
            end) with
     | Some outcome => ret outcome
     | None => _
     end) _).
  split; cycle 1.
  - unfold tryCatch at 1, bind at 1. rewrite checkGitRepo_run.
    reflexivity.
  - apply grows_tryCatch; [|intros e; apply grows_ret].
    destruct (match execOracle host 0 repoPath gitCheckCommand with
              | Stdout _ => None | Throws _ => _ end);
      [apply grows_ret|].
    unfold listBranches, resolveBase.
    repeat (grows_step || apply grows_showBranchFiles).
Qed.

(** What is left when the check has not ended the run: the branches are
    listed next. *)
Lemma selectBranchFiles_after_list
    (host : Host) (workspacePath : string) (sel : DirectoryItem) :
  let repoPath := repoPathOf workspacePath sel in
  checkGitRepo host repoPath sel emptyFrame
  = (Normal None, mkFrame [mkCall repoPath gitCheckCommand] [] []) ->
  exists made,
    calls (snd (selectBranchFiles host workspacePath sel emptyFrame))
    = mkCall repoPath gitCheckCommand
      :: mkCall repoPath branchListCommand :: made.
Proof.
  intros repoPath Hcheck.
  unfold selectBranchFiles. fold repoPath.
  unfold tryCatch at 1, bind at 1. rewrite Hcheck.
  unfold bind at 1. rewrite listBranches_run. cbn [calls List.length app].
  set (after := mkFrame _ _ _).
  match goal with
  | |- context [match ?l with inl _ => _ | inr _ => _ end after] =>
      assert (Hgrows : grows (match l with
                              | inl outcome => ret outcome
                              | inr branches =>
                                  match showQuickPick host
                                          (branchItemsOf branches) with
                                  | Some selectedBranch =>
                                      baseRef <- resolveBase host repoPath ;;
                                      tryCatch
                                        (showBranchFiles host repoPath sel
                                           selectedBranch baseRef)
                                        (fun e =>
                                           ret (ShowError
                                             ("Failed to get changed files: "
                                              ++ e)))
                                  | None => ret NoSelection
                                  end
                              end))
  end.
  { unfold resolveBase.
    repeat (grows_step || apply grows_showBranchFiles). }
  destruct (Hgrows after) as [made Hmade].
  exists made.
  match goal with
  | |- calls (snd (let (c, st') := ?k after in _)) = _ =>
      destruct (k after) as [[a|e] s']
  end; exact Hmade.
Qed.

(** C9, as stated, fails.  For a folder of the workspace the failed check
    is ignored: where nothing is a repository the next command runs and its
    failure is what is reported, and where the check alone fails the whole
    resolution runs and the list is shown.  And the check looks at the exit
    of the command only: in a bare repository, where the command prints
    "false" and succeeds, the resolution runs as well. *)
Lemma failed_check_in_workspace_goes_on :
  let sel := mkDirectoryItem "." "/ws" false in
  let check := mkCall "/ws" gitCheckCommand in
  let branchList := mkCall "/ws" branchListCommand in
  let notARepo := tableHost [] "main" in
  let flaky := tableHost
    [(branchListCommand, lines ["* main"; "  topic"]);
     (showRefCommand, "");
     (mergeBaseCommand "main" "topic", lines ["abc123"]);
     (committedFilesCommand "abc123" "topic" "", lines ["src/a.ts"]);
     (currentBranchCommand, lines ["main"])] "topic" in
  let bare := tableHost
    [(gitCheckCommand, lines ["false"]);
     (branchListCommand, lines ["* main"]);
     (showRefCommand, "");
     (allFilesCommand "main" "", lines ["src/a.ts"]);
     (currentBranchCommand, lines ["main"])] "main" in
  (execOracle notARepo 0 "/ws" gitCheckCommand = Throws "fatal" /\
   selectBranchFiles notARepo "/ws" sel emptyFrame
   = (Normal (ShowError "Failed to get Git branches: fatal"),
      mkFrame [check; branchList] [] [])) /\
  (execOracle flaky 0 "/ws" gitCheckCommand = Throws "fatal" /\
   selectBranchFiles flaky "/ws" sel emptyFrame
   = (Normal (ShowDocument
                (mkResolution "topic" ["src/a.ts"; ""] [] ["src/a.ts"]
                   ["src/a.ts"] ["  src/a.ts"])),
      mkFrame [check; branchList;
               mkCall "/ws" showRefCommand;
               mkCall "/ws" (mergeBaseCommand "main" "topic");
               mkCall "/ws" (committedFilesCommand "abc123" "topic" "");
               mkCall "/ws" currentBranchCommand]
              ["src/a.ts"; ""] [])) /\
  (execOracle bare 0 "/bare.git" gitCheckCommand = Stdout (lines ["false"]) /\
   selectBranchFiles bare "/ws" (mkDirectoryItem "../bare.git" "/bare.git" true)
     emptyFrame
   = (Normal (ShowDocument
                (mkResolution "main" ["src/a.ts"] [] ["src/a.ts"]
                   ["src/a.ts"] ["  src/a.ts"])),
      mkFrame [mkCall "/bare.git" gitCheckCommand;
               mkCall "/bare.git" branchListCommand;
               mkCall "/bare.git" showRefCommand;
               mkCall "/bare.git" (allFilesCommand "main" "");
               mkCall "/bare.git" currentBranchCommand;
               mkCall "/bare.git" statusCommand]
              ["src/a.ts"] [])).
Proof.
  vm_compute. repeat split.
Qed.

(** C9, amended.  The check of the working tree is the first command of
    every run.  When it fails for a folder outside the workspace, the error
    message is shown at once and nothing else runs.  When it fails for a
    folder of the workspace, the run goes on with the list of branches, and
    stops with that command's error message if it fails as well.  When the
    check command succeeds, what it prints is not read and the branches are
    listed next. *)
Theorem git_check_first_and_external_failure
    (host : Host) (workspacePath : string) (sel : DirectoryItem) :
  let repoPath := repoPathOf workspacePath sel in
  let run := selectBranchFiles host workspacePath sel emptyFrame in
  let check := mkCall repoPath gitCheckCommand in
  let branchList := mkCall repoPath branchListCommand in
  (exists made, calls (snd run) = check :: made) /\
  (forall e,
     execOracle host 0 repoPath gitCheckCommand = Throws e ->
     (isExternal sel = true ->
      run = (Normal (ShowError notGitMessage), mkFrame [check] [] [])) /\
     (isExternal sel = false ->
      (exists made, calls (snd run) = check :: branchList :: made) /\
      forall e',
        execOracle host 1 repoPath branchListCommand = Throws e' ->
        run = (Normal (ShowError ("Failed to get Git branches: " ++ e')),
               mkFrame [check; branchList] [] []))) /\
  (forall out,
     execOracle host 0 repoPath gitCheckCommand = Stdout out ->
     exists made, calls (snd run) = check :: branchList :: made).
Proof.
  intros repoPath run check branchList. split; [|split].
  - destruct (selectBranchFiles_after_check host workspacePath sel)
      as [rest [Hgrows Hrun]].
    subst run. rewrite Hrun.
    destruct (Hgrows (mkFrame [mkCall repoPath gitCheckCommand] [] []))
      as [made Hmade].
    exists made. exact Hmade.
  - intros e He. subst run. split; intros Hext.
    + unfold selectBranchFiles; fold repoPath.
      unfold tryCatch at 1, bind at 1; rewrite checkGitRepo_run.
      cbn [calls emptyFrame List.length]; rewrite He, Hext.
      reflexivity.
    + split.
      * apply selectBranchFiles_after_list. fold repoPath.
        rewrite checkGitRepo_run. cbn [calls emptyFrame List.length].
        rewrite He, Hext. reflexivity.
      * intros e' He'.
        unfold selectBranchFiles; fold repoPath.
        unfold tryCatch at 1, bind at 1; rewrite checkGitRepo_run.
        cbn [calls emptyFrame List.length]; rewrite He, Hext.
        unfold bind. rewrite listBranches_run.
        cbn [calls List.length app]. rewrite He'. reflexivity.
  - intros out Hout. subst run.
    apply selectBranchFiles_after_list. fold repoPath.
    rewrite checkGitRepo_run. cbn [calls emptyFrame List.length].
    rewrite Hout. reflexivity.
Qed.

(** A folder picked with the file browser that is not a repository. *)
Lemma git_check_first_and_external_failure_witness :
  let sel := mkDirectoryItem "../other" "/other" true in
  selectBranchFiles (tableHost [] "main") "/ws" sel emptyFrame
  = (Normal (ShowError notGitMessage),
     mkFrame [mkCall "/other" gitCheckCommand] [] []).
Proof.
  intros sel.
  exact (proj1 (proj1 (proj2 (git_check_first_and_external_failure
                                (tableHost [] "main") "/ws" sel))
                  "fatal" eq_refl)
           eq_refl).
Defined.

(* ================================================================== *)
(** ** Committed and modified files together *)
(* ================================================================== *)

Lemma scanModified_normal
    (host : Host) (repoPath branchName folderPath pathForGitCommands : string)
    (st : Frame) :
  fst (scanModified host repoPath branchName folderPath pathForGitCommands st)
  = Normal tt.
Proof.
  rewrite scanModified_run. cbv zeta.
  destruct (execOracle host _ _ _); [|reflexivity].
  destruct (_ && _); reflexivity.
Qed.

(** The body of the inner [try]: it always opens the document. *)
Lemma showBranchFiles_run
    (host : Host) (repoPath : string) (sel : DirectoryItem)
    (selectedBranch : BranchItem) (baseRef : string) (st : Frame) :
  let branchName := cleanRemoteBranchName (label selectedBranch) in
  let folderPath := folderPathOf sel in
  let s1 := snd (resolveCommitted host repoPath baseRef branchName folderPath
                   folderPath st) in
  let s2 := snd (scanModified host repoPath branchName folderPath folderPath
                   s1) in
  showBranchFiles host repoPath sel selectedBranch baseRef st
  = (Normal (ShowDocument
               (mergeResult (localeCompareBase host) branchName
                  (committedFiles s2) (modifiedFiles s2))),
     s2).
Proof.
  intros branchName folderPath s1 s2.
  unfold showBranchFiles. fold branchName folderPath.
  unfold bind at 1.
  assert (H1 := resolveCommitted_normal host repoPath baseRef branchName
                  folderPath folderPath st).
  fold s1. destruct (resolveCommitted _ _ _ _ _ _ st) as [c1 s1'].
  simpl in H1, s1. subst c1 s1.
  unfold bind at 1.
  assert (H2 := scanModified_normal host repoPath branchName folderPath
                  folderPath s1').
  fold s2. destruct (scanModified _ _ _ _ _ s1') as [c2 s2'].
  simpl in H2, s2. subst c2 s2.
  reflexivity.
Qed.

(** With nothing committed every entry is a modified file. *)
Lemma merge_only_modified
    (localeCompare : JS.Collation) (modified : list string) :
  formattedFilesOf localeCompare [] modified
    = map (String.append "* ") (sortedFilesOf localeCompare [] modified) /\
  forall file,
    In file (sortedFilesOf localeCompare [] modified) <->
    In file modified /\ notBlank file = true.
Proof.
  split.
  - unfold formattedFilesOf. apply map_ext_in. intros file Hin.
    apply sortedFilesOf_In in Hin as [[[]|Hm] _].
    unfold formatFile. apply arrayIncludes_In in Hm. now rewrite Hm.
  - intros file. rewrite sortedFilesOf_In. simpl. tauto.
Qed.

(** C10.  When the three tiers of the resolver have all thrown and the
    scanner is on the selected branch and reads the status and the modified
    files, the document is still opened: nothing is committed, the entries
    are the scanned files (without blank ones), and each carries the
    asterisk of a modified file. *)
Theorem modified_files_survive_committed_failure
    (host : Host) (repoPath : string) (sel : DirectoryItem)
    (selectedBranch : BranchItem) (baseRef : string) (st : Frame)
    (e1 e2 e3 : string) (s1 s2 : Frame)
    (out statusOutput lsOutput : string) :
  let branchName := cleanRemoteBranchName (label selectedBranch) in
  let folderPath := folderPathOf sel in
  let start := mkFrame (calls st) [] (modifiedFiles st) in
  let m := List.length (calls s2) in
  let found :=
    JS.newSet (underFolder folderPath (statusFilesOf statusOutput)
               ++ filter notBlank (JS.splitLines lsOutput)) in
  let r := mergeResult (localeCompareBase host) branchName [] found in
  primaryTier host repoPath baseRef branchName folderPath start
    = (Thrown e1, s1) ->
  secondaryTier host repoPath baseRef branchName folderPath s1
    = (Thrown e2, s2) ->
  execOracle host m repoPath statusCommand = Throws e3 ->
  execOracle host (S m) repoPath currentBranchCommand = Stdout out ->
  isOnSelectedBranch (JS.trim out) branchName = true ->
  isRemoteBranch branchName = false ->
  execOracle host (S (S m)) repoPath statusCommand = Stdout statusOutput ->
  execOracle host (S (S (S m))) repoPath (modifiedFilesCommand folderPath)
    = Stdout lsOutput ->
  (exists final,
     showBranchFiles host repoPath sel selectedBranch baseRef st
     = (Normal (ShowDocument r), final)) /\
  res_committedFiles r = [] /\
  res_modifiedFiles r = found /\
  res_formattedFiles r = map (String.append "* ") (res_sortedFiles r) /\
  (forall file,
     In file (res_sortedFiles r) <-> In file found /\ notBlank file = true).
Proof.
  intros branchName folderPath start m found r H1 H2 H3 Hcur Hon Hrem Hst Hls.
  split; [|split; [reflexivity|split; [reflexivity|]]].
  - rewrite showBranchFiles_run. cbv zeta. fold branchName folderPath.
    rewrite resolveCommitted_tiers. fold start. rewrite H1, H2.
    destruct (primaryTier_thrown _ _ _ _ _ _ _ _ H1) as [Hc1 _].
    destruct (secondaryTier_thrown _ _ _ _ _ _ _ _ H2) as [Hc2 _].
    cbn [start committedFiles] in Hc1.
    rewrite tertiaryTier_run. fold m. rewrite H3. cbn [snd].
    rewrite scanModified_run. cbv zeta. cbn [calls committedFiles].
    rewrite length_app, Nat.add_comm. cbn [List.length Nat.add]. fold m.
    rewrite Hcur, Hon, Hrem. cbn [andb negb].
    rewrite collectModified_run. cbv zeta. cbn [calls committedFiles].
    rewrite !length_app. cbn [List.length]. fold m.
    replace (m + 1 + 1) with (S (S m)) by lia.
    rewrite Hst, Hls. cbn [snd committedFiles modifiedFiles].
    rewrite Hc2, Hc1. eexists. reflexivity.
  - apply merge_only_modified.
Qed.

(** The base does not exist and the index is locked while the resolver
    runs; afterwards the scanner finds a modified file on the checked-out
    branch "dev". *)
Lemma modified_files_survive_committed_failure_witness :
  let host := scriptHost
    [Throws "fatal: Not a valid object name main";
     Throws "fatal: ambiguous argument";
     Throws "fatal: Unable to create index.lock";
     Stdout (lines ["dev"]);
     Stdout (lines [" M src/a.ts"]);
     Stdout (lines ["src/a.ts"; "Makefile"])] "dev" in
  let sel := mkDirectoryItem "." "/ws" false in
  fst (showBranchFiles host "/ws" sel (mkBranchItem "dev" "Current branch")
         "main" emptyFrame)
  = Normal (ShowDocument
              (mkResolution "dev" [] ["src/a.ts"; "Makefile"]
                 ["src/a.ts"; "Makefile"] ["Makefile"; "src/a.ts"]
                 ["* Makefile"; "* src/a.ts"])) /\
  res_formattedFiles (mergeResult foldedOrder "dev" [] ["src/a.ts"; "Makefile"])
  = map (String.append "* ")
        (res_sortedFiles (mergeResult foldedOrder "dev" [] ["src/a.ts"; "Makefile"])).
Proof.
  intros host sel. split; [reflexivity|].
  exact (proj1 (proj2 (proj2 (proj2
    (modified_files_survive_committed_failure host "/ws" sel
       (mkBranchItem "dev" "Current branch") "main" emptyFrame
       "fatal: Not a valid object name main" "fatal: ambiguous argument"
       "fatal: Unable to create index.lock"
       (mkFrame [mkCall "/ws" (mergeBaseCommand "main" "dev")] [] [])
       (mkFrame [mkCall "/ws" (mergeBaseCommand "main" "dev");
                 mkCall "/ws" (fallbackCommand "main" "dev" "")] [] [])
       (lines ["dev"]) (lines [" M src/a.ts"]) (lines ["src/a.ts"; "Makefile"])
       eq_refl eq_refl eq_refl eq_refl eq_refl eq_refl eq_refl eq_refl))))).
Defined.

(* ================================================================== *)
(** ** Splitting and joining *)
(* ================================================================== *)

Lemma splitLines_split (s : string) : JS.splitLines s = JSArray.split JS.LF s.
Proof.
  induction s as [|c s IH]; cbn [JS.splitLines JSArray.split];
    [reflexivity | now rewrite IH].
Qed.

Lemma split_not_nil (c : ascii) (s : string) : JSArray.split c s <> [].
Proof.
  destruct s as [|d s]; cbn [JSArray.split]; [discriminate|].
  destruct (Ascii.eqb d c); [discriminate|].
  destruct (JSArray.split c s); discriminate.
Qed.

Lemma split_free (c : ascii) (s : string) :
  freeOf c s = true -> JSArray.split c s = [s].
Proof.
  induction s as [|d s IH]; cbn [freeOf JSArray.split]; [reflexivity|].
  intros H. apply andb_true_iff in H as [Hd Hs].
  apply negb_true_iff in Hd. rewrite Hd, (IH Hs). reflexivity.
Qed.

(** Splitting at a separator that is there splits the two sides. *)
Lemma split_append (c : ascii) (a b : string) :
  JSArray.split c (a ++ String c b)
  = (JSArray.split c a ++ JSArray.split c b)%list.
Proof.
  induction a as [|d a IH].
  - cbn [append JSArray.split]. now rewrite Ascii.eqb_refl.
  - change (String d a ++ String c b) with (String d (a ++ String c b)).
    cbn [JSArray.split]. rewrite IH.
    destruct (Ascii.eqb d c); [reflexivity|].
    destruct (JSArray.split c a) as [|h t] eqn:E.
    + now apply split_not_nil in E.
    + reflexivity.
Qed.

Lemma split_pieces_free (c : ascii) (s : string) :
  Forall (fun piece => freeOf c piece = true) (JSArray.split c s).
Proof.
  induction s as [|d s IH]; cbn [JSArray.split].
  - now constructor.
  - destruct (Ascii.eqb d c) eqn:E; [now constructor|].
    destruct (JSArray.split c s) as [|h t].
    + constructor; [|constructor]. cbn [freeOf]. now rewrite E.
    + inversion IH; subst. constructor; [|assumption].
      cbn [freeOf]. rewrite E. assumption.
Qed.

Lemma join_cons (sep x y : string) (rest : list string) :
  JSArray.join sep (x :: y :: rest) = x ++ sep ++ JSArray.join sep (y :: rest).
Proof. reflexivity. Qed.

Lemma append_assoc (a b c : string) : (a ++ b) ++ c = a ++ (b ++ c).
Proof. induction a as [|x a IH]; simpl; [reflexivity | now rewrite IH]. Qed.

Lemma append_empty_r (a : string) : a ++ "" = a.
Proof. induction a as [|x a IH]; simpl; [reflexivity | now rewrite IH]. Qed.

(** Splitting what was joined gives the pieces back, when no piece holds
    the separator. *)
Lemma split_join (c : ascii) (pieces : list string) :
  pieces <> [] ->
  Forall (fun piece => freeOf c piece = true) pieces ->
  JSArray.split c (JSArray.join (String c "") pieces) = pieces.
Proof.
  induction pieces as [|x rest IH]; [congruence|]. intros _ Hfree.
  inversion Hfree as [|? ? Hx Hrest]; subst.
  destruct rest as [|y rest].
  - cbn [JSArray.join]. now apply split_free.
  - rewrite join_cons. cbn [append].
    rewrite split_append, (split_free c x Hx), IH; [reflexivity| |assumption].
    discriminate.
Qed.

(** Joining what was split gives the string back. *)
Lemma join_split (c : ascii) (s : string) :
  JSArray.join (String c "") (JSArray.split c s) = s.
Proof.
  induction s as [|d s IH]; cbn [JSArray.split]; [reflexivity|].
  destruct (Ascii.eqb_spec d c) as [->|Hne].
  - destruct (JSArray.split c s) as [|h t] eqn:E;
      [now apply split_not_nil in E|].
    rewrite join_cons, IH. reflexivity.
  - destruct (JSArray.split c s) as [|h t] eqn:E;
      [now apply split_not_nil in E|].
    destruct t as [|h' t].
    + cbn [JSArray.join] in *. now rewrite IH.
    + rewrite join_cons in *. rewrite <- IH. reflexivity.
Qed.

Lemma freeOf_append (c : ascii) (a b : string) :
  freeOf c (a ++ b) = freeOf c a && freeOf c b.
Proof.
  induction a as [|d a IH]; cbn [append freeOf]; [reflexivity|].
  rewrite IH. now rewrite andb_assoc.
Qed.

Lemma freeOf_substringFrom (c : ascii) (n : nat) (s : string) :
  freeOf c s = true -> freeOf c (JS.substringFrom n s) = true.
Proof.
  revert s. induction n as [|n IH]; intros [|d s]; cbn [JS.substringFrom freeOf];
    auto.
  intros H. apply andb_true_iff in H as [_ H]. auto.
Qed.

Lemma freeOf_trimStart (c : ascii) (s : string) :
  freeOf c s = true -> freeOf c (JS.trimStart s) = true.
Proof.
  induction s as [|d s IH]; cbn [JS.trimStart freeOf]; auto.
  intros H. destruct (JS.isWhiteSpace d); [|exact H].
  apply andb_true_iff in H as [_ H]. auto.
Qed.

Lemma freeOf_trimEnd (c : ascii) (s : string) :
  freeOf c s = true -> freeOf c (JS.trimEnd s) = true.
Proof.
  induction s as [|d s IH]; cbn [JS.trimEnd freeOf]; auto.
  intros H. apply andb_true_iff in H as [Hd Hs]. specialize (IH Hs).
  destruct (JS.trimEnd s) as [|e r].
  - destruct (JS.isWhiteSpace d); cbn [freeOf]; [reflexivity|].
    now rewrite Hd.
  - cbn [freeOf] in *. now rewrite Hd, IH.
Qed.

Lemma freeOf_trim (c : ascii) (s : string) :
  freeOf c s = true -> freeOf c (JS.trim s) = true.
Proof. intros H. apply freeOf_trimEnd, freeOf_trimStart, H. Qed.

(** The lines of an output are single lines. *)
Lemma splitLines_singleLine (s : string) :
  Forall (fun line => singleLine line = true) (JS.splitLines s).
Proof. rewrite splitLines_split. apply split_pieces_free. Qed.

(** An output of lines that each end in a line feed splits into them and
    an empty string at the end. *)
Lemma splitLines_lines (ls : list string) :
  Forall (fun line => singleLine line = true) ls ->
  JS.splitLines (lines ls) = (ls ++ [""])%list.
Proof.
  rewrite splitLines_split.
  induction 1 as [|l rest Hl Hrest IH]; [reflexivity|].
  cbn [lines]. rewrite split_append, IH, (split_free _ _ Hl). reflexivity.
Qed.

(* ================================================================== *)
(** ** Reading the output of git *)
(* ================================================================== *)

Lemma trimEnd_empty (s : string) :
  JS.trimEnd s = "" <-> allWhiteSpace s = true.
Proof.
  induction s as [|c s IH]; cbn [JS.trimEnd allWhiteSpace]; [tauto|].
  destruct (JS.trimEnd s) as [|d r].
  - destruct (JS.isWhiteSpace c); cbn [andb].
    + rewrite <- IH. tauto.
    + split; discriminate.
  - split; [discriminate|]. intros H. apply andb_true_iff in H as [_ H].
    apply IH in H. discriminate.
Qed.

Lemma allWhiteSpace_trimStart (s : string) :
  allWhiteSpace (JS.trimStart s) = allWhiteSpace s.
Proof.
  induction s as [|c s IH]; cbn [JS.trimStart allWhiteSpace]; [reflexivity|].
  destruct (JS.isWhiteSpace c) eqn:E; cbn [andb allWhiteSpace].
  - exact IH.
  - now rewrite E.
Qed.

Lemma notBlank_allWhiteSpace (s : string) :
  notBlank s = negb (allWhiteSpace s).
Proof.
  unfold notBlank, JS.trim. rewrite <- (allWhiteSpace_trimStart s).
  destruct (allWhiteSpace (JS.trimStart s)) eqn:E.
  - apply trimEnd_empty in E. now rewrite E.
  - destruct (String.eqb_spec (JS.trimEnd (JS.trimStart s)) "") as [H|H];
      [|reflexivity].
    apply trimEnd_empty in H. congruence.
Qed.

Lemma allWhiteSpace_append (a b : string) :
  allWhiteSpace (a ++ b) = allWhiteSpace a && allWhiteSpace b.
Proof.
  induction a as [|c a IH]; cbn [append allWhiteSpace]; [reflexivity|].
  now rewrite IH, andb_assoc.
Qed.

(** A trimmed string that is not empty is not blank. *)
Lemma trimmed_notBlank (s : string) :
  JS.trim s = s -> s <> "" -> notBlank s = true.
Proof.
  intros Ht Hne. unfold notBlank. rewrite Ht.
  destruct (String.eqb_spec s ""); [contradiction | reflexivity].
Qed.

Lemma notBlank_append_r (a b : string) :
  notBlank b = true -> notBlank (a ++ b) = true.
Proof.
  rewrite !notBlank_allWhiteSpace, allWhiteSpace_append.
  intros H. apply negb_true_iff in H. rewrite H. now rewrite andb_false_r.
Qed.

Lemma trim_whiteSpace_cons (c : ascii) (s : string) :
  JS.isWhiteSpace c = true -> JS.trim (String c s) = JS.trim s.
Proof. intros H. unfold JS.trim. cbn [JS.trimStart]. now rewrite H. Qed.

Lemma substringFrom_append (a b : string) :
  JS.substringFrom (String.length a) (a ++ b) = b.
Proof.
  induction a as [|c a IH]; cbn [String.length append JS.substringFrom].
  - now destruct b.
  - exact IH.
Qed.

Lemma removeFirst_free (c : ascii) (s : string) :
  freeOf c s = true -> JS.removeFirst s (String c "") = s.
Proof.
  induction s as [|d s IH]; cbn [freeOf]; intros H.
  - reflexivity.
  - apply andb_true_iff in H as [Hd Hs]. apply negb_true_iff in Hd.
    cbn [JS.removeFirst JS.startsWith].
    rewrite Ascii.eqb_sym, Hd. cbn [andb]. now rewrite (IH Hs).
Qed.

Lemma filter_notBlank_lines (ls : list string) :
  Forall (fun line => notBlank line = true) ls ->
  filter notBlank (ls ++ [""])%list = ls.
Proof.
  intros H. rewrite filter_app. cbn [filter]. change (notBlank "") with false.
  rewrite app_nil_r. apply forallb_filter_id. apply forallb_forall.
  now apply Forall_forall.
Qed.

(** The item of a branch line: the name without the asterisk. *)
Lemma branchItem_of_line (current : bool) (name : string) :
  JS.trim name = name -> freeOf "*" name = true ->
  JS.trim (JS.removeFirst (branchLine current name) "*") = name /\
  JS.startsWith (branchLine current name) "*" = current.
Proof.
  intros Ht Hstar. unfold branchLine. destruct current.
  - split; [|reflexivity].
    change (JS.removeFirst ("* " ++ name) "*") with (String " " name).
    rewrite trim_whiteSpace_cons; [exact Ht | reflexivity].
  - split; [|reflexivity].
    change ("  " ++ name) with (String " " (String " " name)).
    cbn [JS.removeFirst JS.startsWith Ascii.eqb Bool.eqb andb].
    rewrite (removeFirst_free "*" name Hstar).
    rewrite !trim_whiteSpace_cons; [exact Ht | reflexivity | reflexivity].
Qed.

(** X8.  Reading the branch list.  The output of [git branch --all], one
    branch a line with an asterisk before the checked-out one, is read back
    as the branches it lists: an item per branch, its label the name and
    "Current branch" as the description of the checked-out one.  The names
    are as git prints them: one line each, not empty, without white space
    around them and without an asterisk. *)
Theorem branch_list_round_trip (branches : list (bool * string)) :
  Forall (fun branch =>
            singleLine (snd branch) = true /\ JS.trim (snd branch) = snd branch
            /\ snd branch <> "" /\ freeOf "*" (snd branch) = true) branches ->
  branchItemsOf
    (JS.splitLines
       (lines (map (fun branch : bool * string =>
                      branchLine (fst branch) (snd branch))
                   branches)))
  = map (fun branch : bool * string =>
           mkBranchItem (snd branch)
             (if fst branch then "Current branch" else ""))
        branches.
Proof.
  intros H. rewrite splitLines_lines.
  - unfold branchItemsOf. rewrite filter_notBlank_lines.
    + rewrite map_map. apply map_ext_in. intros [current name] Hin.
      rewrite Forall_forall in H. destruct (H _ Hin) as [_ [Ht [_ Hstar]]].
      cbn [fst snd] in *.
      destruct (branchItem_of_line current name Ht Hstar) as [-> ->].
      reflexivity.
    + rewrite Forall_map. eapply Forall_impl; [|exact H].
      intros [current name] [_ [Ht [Hne _]]]. cbn [fst snd] in *.
      unfold branchLine. apply notBlank_append_r.
      now apply trimmed_notBlank.
  - rewrite Forall_map. eapply Forall_impl; [|exact H].
    intros [current name] [Hl _]. cbn [fst snd] in *.
    unfold singleLine, branchLine in *. rewrite freeOf_append, Hl.
    now destruct current.
Qed.

(** A repository on "main" with a feature branch and a remote. *)
Lemma branch_list_round_trip_witness :
  branchItemsOf
    (JS.splitLines
       (lines ["* main"; "  feature/x"; "  remotes/origin/main"]))
  = [mkBranchItem "main" "Current branch"; mkBranchItem "feature/x" "";
     mkBranchItem "remotes/origin/main" ""].
Proof.
  apply (branch_list_round_trip
           [(true, "main"); (false, "feature/x");
            (false, "remotes/origin/main")]).
  repeat constructor; cbn [snd]; try reflexivity; discriminate.
Defined.

(** X7.  Reading the status.  A porcelain status, two status letters, a
    space and the path on every line, is read back as its paths, in order.
    The paths are as git prints them: one line each, not empty and without
    white space around them. *)
Theorem status_paths_round_trip (entries : list (string * string)) :
  Forall (fun entry =>
            String.length (fst entry) = 2 /\ singleLine (fst entry) = true /\
            singleLine (snd entry) = true /\ JS.trim (snd entry) = snd entry
            /\ snd entry <> "") entries ->
  statusFilesOf
    (lines (map (fun entry : string * string =>
                   statusLine (fst entry) (snd entry)) entries))
  = map snd entries.
Proof.
  intros H. unfold statusFilesOf. rewrite splitLines_lines.
  - rewrite filter_notBlank_lines.
    + rewrite map_map. apply map_ext_in. intros [letters file] Hin.
      rewrite Forall_forall in H.
      destruct (H _ Hin) as [Hlen [_ [_ [Ht _]]]]. cbn [fst snd] in *.
      unfold statusLine.
      replace (letters ++ " " ++ file) with ((letters ++ " ") ++ file)
        by apply append_assoc.
      replace 3 with (String.length (letters ++ " "))
        by (rewrite length_append, Hlen; reflexivity).
      now rewrite substringFrom_append.
    + rewrite Forall_map. eapply Forall_impl; [|exact H].
      intros [letters file] [_ [_ [_ [Ht Hne]]]]. cbn [fst snd] in *.
      unfold statusLine. apply notBlank_append_r, notBlank_append_r.
      now apply trimmed_notBlank.
  - rewrite Forall_map. eapply Forall_impl; [|exact H].
    intros [letters file] [_ [Hl [Hf _]]]. cbn [fst snd] in *.
    unfold singleLine, statusLine in *.
    now rewrite !freeOf_append, Hl, Hf.
Qed.

(** A modified file, a new one and one added to the index. *)
Lemma status_paths_round_trip_witness :
  statusFilesOf (lines [" M src/a.ts"; "?? notes.md"; "A  src/new file.ts"])
  = ["src/a.ts"; "notes.md"; "src/new file.ts"].
Proof.
  apply (status_paths_round_trip
           [(" M", "src/a.ts"); ("??", "notes.md");
            ("A ", "src/new file.ts")]).
  repeat constructor; cbn [fst snd]; try reflexivity; discriminate.
Defined.

(* ================================================================== *)
(** ** More on the merged list *)
(* ================================================================== *)

Lemma formattedFilesOf_In
    (localeCompare : JS.Collation) (committed modified : list string)
    (line : string) :
  In line (formattedFilesOf localeCompare committed modified) <->
  exists file,
    In file (sortedFilesOf localeCompare committed modified) /\
    line = (if JS.arrayIncludes modified file then "* " else "  ") ++ file.
Proof.
  unfold formattedFilesOf. rewrite in_map_iff. unfold formatFile.
  split; intros [file [H1 H2]]; exists file.
  - split; [exact H2|]. rewrite <- H1.
    now destruct (JS.arrayIncludes modified file).
  - split; [|exact H1]. rewrite H2.
    now destruct (JS.arrayIncludes modified file).
Qed.

(** X9.  What the list holds.  A path is in the final list exactly when it is
    not blank and is committed or modified; its line carries the asterisk
    exactly when it is modified, and two spaces exactly when it is
    committed only. *)
Theorem final_list_membership
    (localeCompare : JS.Collation) (branchName : string)
    (committed modified : list string) (file : string) :
  let r := mergeResult localeCompare branchName committed modified in
  (In file (res_sortedFiles r) <->
   (In file committed \/ In file modified) /\ notBlank file = true) /\
  (In ("* " ++ file) (res_formattedFiles r) <->
   In file modified /\ notBlank file = true) /\
  (In ("  " ++ file) (res_formattedFiles r) <->
   In file committed /\ ~ In file modified /\ notBlank file = true).
Proof.
  cbn [mergeResult res_sortedFiles res_formattedFiles].
  split; [apply sortedFilesOf_In|]. split.
  - rewrite formattedFilesOf_In. split.
    + intros [g [Hin Heq]]. destruct (JS.arrayIncludes modified g) eqn:E.
      * apply (append_inj_l "* ") in Heq. subst g.
        apply arrayIncludes_In in E. apply sortedFilesOf_In in Hin. tauto.
      * discriminate Heq.
    + intros [Hm Hb]. exists file. split; [apply sortedFilesOf_In; tauto|].
      apply arrayIncludes_In in Hm. now rewrite Hm.
  - rewrite formattedFilesOf_In. split.
    + intros [g [Hin Heq]]. destruct (JS.arrayIncludes modified g) eqn:E.
      * discriminate Heq.
      * apply (append_inj_l "  ") in Heq. subst g.
        apply arrayIncludes_not_In in E. apply sortedFilesOf_In in Hin. tauto.
    + intros [Hc [Hm Hb]]. exists file. split; [apply sortedFilesOf_In; tauto|].
      apply arrayIncludes_not_In in Hm. now rewrite Hm.
Qed.

Lemma uniqueFrom_length (arr seen : list string) :
  List.length (JS.uniqueFrom seen arr) <= List.length arr.
Proof.
  revert seen. induction arr as [|x r IH]; intros seen; simpl; [lia|].
  destruct (JS.arrayIncludes seen x); simpl;
    [specialize (IH seen) | specialize (IH (x :: seen))]; lia.
Qed.

Lemma uniqueFrom_length_eq (arr seen : list string) :
  List.length (JS.uniqueFrom seen arr) = List.length arr <->
  NoDup arr /\ (forall x, In x arr -> ~ In x seen).
Proof.
  revert seen. induction arr as [|x r IH]; intros seen; simpl.
  - split; [intros _; split; [constructor | intros ? []] | reflexivity].
  - destruct (JS.arrayIncludes seen x) eqn:E.
    + apply arrayIncludes_In in E.
      pose proof (uniqueFrom_length r seen) as Hlen. split; [lia|].
      intros [_ H]. exfalso. apply (H x); auto.
    + apply arrayIncludes_not_In in E. simpl.
      split.
      * intros H. assert (H' : List.length (JS.uniqueFrom (x :: seen) r)
                               = List.length r) by lia.
        apply IH in H' as [Hnd Hseen]. split.
        -- constructor; [|exact Hnd]. intros Hx. apply (Hseen x Hx). now left.
        -- intros y [<-|Hy]; [exact E|]. intros Hs. apply (Hseen y Hy).
           now right.
      * intros [Hnd Hseen]. inversion Hnd as [|? ? Hx Hr]; subst.
        f_equal. apply IH. split; [exact Hr|].
        intros y Hy [<-|Hs]; [contradiction|]. apply (Hseen y); auto.
Qed.

Lemma filter_length_eq {A} (p : A -> bool) (l : list A) :
  List.length (filter p l) = List.length l <->
  Forall (fun x => p x = true) l.
Proof.
  induction l as [|x r IH]; simpl.
  - split; [constructor | reflexivity].
  - pose proof (filter_length_le p r) as Hlen. destruct (p x) eqn:E; simpl.
    + split.
      * intros H'. constructor; [exact E|]. apply IH. lia.
      * intros H'. inversion H'; subst. f_equal. now apply IH.
    + split; [lia|]. intros H'. inversion H'; subst. congruence.
Qed.

(** X10.  The count of the list.  The list has a line per changed file, and
    never more files than the committed and the modified ones together; it
    has as many exactly when no path is repeated within or across the two
    lists and none is blank. *)
Theorem final_count_bound
    (localeCompare : JS.Collation) (branchName : string)
    (committed modified : list string) :
  let r := mergeResult localeCompare branchName committed modified in
  List.length (res_formattedFiles r) = List.length (res_changedFiles r) /\
  List.length (res_sortedFiles r) = List.length (res_changedFiles r) /\
  List.length (res_changedFiles r)
    <= List.length committed + List.length modified /\
  (List.length (res_changedFiles r)
     = List.length committed + List.length modified <->
   NoDup (committed ++ modified)%list /\
   Forall (fun file => notBlank file = true) (committed ++ modified)%list).
Proof.
  cbn [mergeResult res_sortedFiles res_formattedFiles res_changedFiles].
  assert (Hs : List.length (sortedFilesOf localeCompare committed modified)
               = List.length (changedFilesOf committed modified)).
  { symmetry. apply Permutation_length, sortedFilesOf_perm. }
  split; [unfold formattedFilesOf; now rewrite length_map|].
  split; [exact Hs|].
  unfold changedFilesOf, allChangedFilesOf, JS.newSet.
  set (all := (committed ++ modified)%list).
  assert (Hall : List.length all = List.length committed + List.length modified)
    by (unfold all; apply length_app).
  pose proof (filter_length_le notBlank (JS.uniqueFrom [] all)) as H1.
  pose proof (uniqueFrom_length all []) as H2.
  split; [lia|]. rewrite <- Hall. split.
  - intros H.
    assert (Hu : List.length (JS.uniqueFrom [] all) = List.length all) by lia.
    assert (Hf : List.length (filter notBlank (JS.uniqueFrom [] all))
                 = List.length (JS.uniqueFrom [] all)) by lia.
    apply uniqueFrom_length_eq in Hu as [Hnd _]. split; [exact Hnd|].
    apply filter_length_eq in Hf. rewrite Forall_forall in *.
    intros file Hin. apply Hf. apply uniqueFrom_In. split; [exact Hin | intros []].
  - intros [Hnd Hb].
    assert (Hu : List.length (JS.uniqueFrom [] all) = List.length all).
    { apply uniqueFrom_length_eq. split; [exact Hnd | intros ? _ []]. }
    rewrite <- Hu. apply filter_length_eq. rewrite Forall_forall in *.
    intros file Hin. apply Hb. apply uniqueFrom_In in Hin. tauto.
Qed.

(* ================================================================== *)
(** ** Paths are single lines, and the document lists them *)
(* ================================================================== *)

Lemma statusFilesOf_singleLine (statusOutput : string) :
  Forall (fun file => singleLine file = true) (statusFilesOf statusOutput).
Proof.
  unfold statusFilesOf. rewrite Forall_map, Forall_forall.
  intros line Hin. apply filter_In in Hin as [Hin _].
  pose proof (splitLines_singleLine statusOutput) as H.
  rewrite Forall_forall in H. unfold singleLine in *.
  apply freeOf_trim, freeOf_substringFrom, H, Hin.
Qed.

Lemma Forall_filter {A} (P : A -> Prop) (p : A -> bool) (l : list A) :
  Forall P l -> Forall P (filter p l).
Proof.
  rewrite !Forall_forall. intros H x Hin. apply filter_In in Hin as [Hin _].
  auto.
Qed.

Lemma underFolder_Forall (P : string -> Prop) (folderPath : string)
    (files : list string) :
  Forall P files -> Forall P (underFolder folderPath files).
Proof.
  unfold underFolder. destruct (JS.truthy folderPath); [|auto].
  apply Forall_filter.
Qed.

Lemma newSet_Forall (P : string -> Prop) (arr : list string) :
  Forall P arr -> Forall P (JS.newSet arr).
Proof.
  rewrite !Forall_forall. intros H x Hin. apply H.
  exact (proj1 (newSet_In arr x) Hin).
Qed.

Ltac oracle_cases :=
  repeat match goal with
         | |- context [match execOracle ?h ?n ?d ?c with _ => _ end] =>
             destruct (execOracle h n d c)
         end.

(** Runs the commands of a tier one after the other, whatever they answer. *)
Ltac run_commands :=
  repeat first
    [ rewrite execSync_run
    | rewrite tertiaryTier_run
    | progress cbn [calls committedFiles modifiedFiles fst snd]
    | match goal with
      | |- context [match execOracle ?h ?n ?d ?c with _ => _ end] =>
          destruct (execOracle h n d c)
      end ].

(** What the resolver leaves in the frame. *)
Lemma resolveCommitted_frame
    (host : Host)
    (repoPath baseRef branchName folderPath pathForGitCommands : string)
    (st : Frame) :
  let after := snd (resolveCommitted host repoPath baseRef branchName
                      folderPath pathForGitCommands st) in
  Forall (fun file => singleLine file = true) (committedFiles after) /\
  modifiedFiles after = modifiedFiles st.
Proof.
  cbv zeta. rewrite resolveCommitted_tiers.
  unfold primaryTier, secondaryTier, bind, setCommittedFiles.
  destruct (isSameBranch branchName baseRef); run_commands;
    (split; [|reflexivity]);
    auto using splitLines_singleLine, Forall_filter, underFolder_Forall,
               statusFilesOf_singleLine.
Qed.

(** What the scanner leaves in the frame. *)
Lemma scanModified_frame
    (host : Host) (repoPath branchName folderPath pathForGitCommands : string)
    (st : Frame) :
  let after := snd (scanModified host repoPath branchName folderPath
                      pathForGitCommands st) in
  Forall (fun file => singleLine file = true) (modifiedFiles after) /\
  committedFiles after = committedFiles st.
Proof.
  cbv zeta. rewrite scanModified_run. cbv zeta.
  destruct (execOracle host _ _ currentBranchCommand);
    [|cbn [snd modifiedFiles committedFiles]; auto].
  destruct (_ && _); [|cbn [snd modifiedFiles committedFiles]; auto].
  rewrite collectModified_run. cbv zeta.
  cbn [calls committedFiles modifiedFiles]. oracle_cases;
    cbn [snd modifiedFiles committedFiles]; (split; [|reflexivity]);
    auto using underFolder_Forall, statusFilesOf_singleLine.
  apply newSet_Forall, Forall_app. split.
  - apply underFolder_Forall, statusFilesOf_singleLine.
  - apply Forall_filter, splitLines_singleLine.
Qed.

Lemma sortedFilesOf_Forall (P : string -> Prop)
    (localeCompare : JS.Collation) (committed modified : list string) :
  Forall P committed -> Forall P modified ->
  Forall P (sortedFilesOf localeCompare committed modified).
Proof.
  rewrite !Forall_forall. intros Hc Hm file Hin.
  apply sortedFilesOf_In in Hin as [[H|H] _]; auto.
Qed.

(** X12.  Paths are single lines.  Whatever the commands print, no path of the
    result holds a line feed: not the committed files, not the modified
    ones, not the entries of the sorted list. *)
Theorem entries_are_single_lines
    (host : Host) (repoPath : string) (sel : DirectoryItem)
    (selectedBranch : BranchItem) (baseRef : string) (st : Frame) :
  exists r final,
    showBranchFiles host repoPath sel selectedBranch baseRef st
    = (Normal (ShowDocument r), final) /\
    Forall (fun file => singleLine file = true) (res_committedFiles r) /\
    Forall (fun file => singleLine file = true) (res_modifiedFiles r) /\
    Forall (fun file => singleLine file = true) (res_sortedFiles r).
Proof.
  rewrite showBranchFiles_run. cbv zeta.
  set (branchName := cleanRemoteBranchName (label selectedBranch)).
  set (folderPath := folderPathOf sel).
  set (s1 := snd (resolveCommitted host repoPath baseRef branchName folderPath
                    folderPath st)).
  destruct (resolveCommitted_frame host repoPath baseRef branchName folderPath
              folderPath st) as [Hc _]. fold s1 in Hc.
  destruct (scanModified_frame host repoPath branchName folderPath folderPath
              s1) as [Hm Hkeep].
  do 2 eexists. split; [reflexivity|].
  cbn [mergeResult res_committedFiles res_modifiedFiles res_sortedFiles].
  rewrite Hkeep. repeat split; auto using sortedFilesOf_Forall.
Qed.

Lemma numberToString_singleLine (n : nat) :
  singleLine (JSArray.numberToString n) = true.
Proof.
  unfold JSArray.numberToString. generalize (Nat.to_uint n). intros d.
  induction d; cbn; auto.
Qed.

Lemma freeOf_removeFirst (c : ascii) (s pat : string) :
  freeOf c s = true -> freeOf c (JS.removeFirst s pat) = true.
Proof.
  induction s as [|d s IH]; intros H; cbn [JS.removeFirst].
  - destruct (JS.startsWith "" pat); [|reflexivity].
    now apply freeOf_substringFrom.
  - destruct (JS.startsWith (String d s) pat).
    + now apply freeOf_substringFrom.
    + cbn [freeOf] in *. apply andb_true_iff in H as [Hd Hs].
      now rewrite Hd, (IH Hs).
Qed.

Lemma cleanRemoteBranchName_singleLine (branchName : string) :
  singleLine branchName = true ->
  singleLine (cleanRemoteBranchName branchName) = true.
Proof.
  unfold cleanRemoteBranchName, singleLine. intros H.
  destruct (JS.includes branchName "remotes/"); [|exact H].
  now apply freeOf_removeFirst.
Qed.

Lemma separator_append (c : ascii) (s : string) :
  String c "" ++ s = String c s.
Proof. reflexivity. Qed.

(** The lines of the text above the list (lines 568-576). *)
Lemma debugInfo_lines (l1 l2 l3 l4 l6 : string) :
  singleLine l1 = true -> singleLine l2 = true -> singleLine l3 = true ->
  singleLine l4 = true -> singleLine l6 = true ->
  JS.splitLines
    (JSArray.join (String JS.LF "")
       [l1; l2; l3; l4; String JS.LF "## File List"; l6; ""])
  = [l1; l2; l3; l4; ""; "## File List"; l6; ""].
Proof.
  intros H1 H2 H3 H4 H6. rewrite splitLines_split.
  rewrite !join_cons. cbn [JSArray.join].
  rewrite !separator_append, !split_append.
  unfold singleLine in *.
  rewrite (split_free _ _ H1), (split_free _ _ H2), (split_free _ _ H3),
    (split_free _ _ H4), (split_free _ _ H6).
  reflexivity.
Qed.

Lemma formattedFilesOf_singleLine
    (localeCompare : JS.Collation) (committed modified : list string) :
  Forall (fun file => singleLine file = true)
         (sortedFilesOf localeCompare committed modified) ->
  Forall (fun line => singleLine line = true)
         (formattedFilesOf localeCompare committed modified).
Proof.
  intros H. unfold formattedFilesOf. rewrite Forall_map.
  eapply Forall_impl; [|exact H]. intros file Hf.
  unfold formatFile, singleLine in *.
  destruct (JS.arrayIncludes modified file); rewrite freeOf_append, Hf;
    reflexivity.
Qed.

(** The run of the inner [try] with what the document needs of it. *)
Lemma entries_single_lines_aux
    (host : Host) (repoPath : string) (sel : DirectoryItem)
    (selectedBranch : BranchItem) (baseRef : string) (st : Frame) :
  exists r final,
    showBranchFiles host repoPath sel selectedBranch baseRef st
    = (Normal (ShowDocument r), final) /\
    (Forall (fun line => singleLine line = true) (res_formattedFiles r) /\
     List.length (res_formattedFiles r) = List.length (res_changedFiles r) /\
     (res_formattedFiles r = [] -> res_changedFiles r = [])) /\
    (singleLine (label selectedBranch) = true ->
     freeOf JS.LF (res_branchName r) = true).
Proof.
  rewrite showBranchFiles_run. cbv zeta.
  set (branchName := cleanRemoteBranchName (label selectedBranch)).
  set (folderPath := folderPathOf sel).
  set (s1 := snd (resolveCommitted host repoPath baseRef branchName folderPath
                    folderPath st)).
  destruct (resolveCommitted_frame host repoPath baseRef branchName folderPath
              folderPath st) as [Hc _]. fold s1 in Hc.
  destruct (scanModified_frame host repoPath branchName folderPath folderPath
              s1) as [Hm Hkeep].
  do 2 eexists. split; [reflexivity|].
  cbn [mergeResult res_formattedFiles res_changedFiles res_branchName].
  rewrite Hkeep.
  assert (Hlen : List.length (formattedFilesOf (localeCompareBase host) (committedFiles s1)
                    (modifiedFiles (snd (scanModified host repoPath branchName
                                           folderPath folderPath s1))))
                 = List.length (changedFilesOf (committedFiles s1)
                    (modifiedFiles (snd (scanModified host repoPath branchName
                                           folderPath folderPath s1))))).
  { unfold formattedFilesOf. rewrite length_map. symmetry.
    apply Permutation_length, sortedFilesOf_perm. }
  split; [split; [|split]|].
  - apply formattedFilesOf_singleLine, sortedFilesOf_Forall; assumption.
  - exact Hlen.
  - intros Hnil. rewrite Hnil in Hlen. symmetry in Hlen.
    now apply length_zero_iff_nil in Hlen.
  - apply cleanRemoteBranchName_singleLine.
Qed.

(** X13.  The document.  When the branch name, the folder and the repository
    path are single lines, the document that is opened is eight lines of
    heading and then the list, a line per file and nothing after it; when
    no file is left, the sentence that none was found stands in place of
    the list, and the message that no files have changed is shown then and
    only then. *)
Theorem document_has_a_line_per_file
    (host : Host) (repoPath : string) (sel : DirectoryItem)
    (selectedBranch : BranchItem) (baseRef : string) (st : Frame) :
  singleLine (label selectedBranch) = true ->
  singleLine (path sel) = true ->
  singleLine repoPath = true ->
  exists r final,
    showBranchFiles host repoPath sel selectedBranch baseRef st
    = (Normal (ShowDocument r), final) /\
    let heading :=
      ["# Git File List for Branch: " ++ res_branchName r;
       "- Selected folder: " ++ path sel;
       "- Working directory: " ++ repoPath;
       "- Total files: "
         ++ JSArray.numberToString (List.length (res_changedFiles r))
         ++ " ("
         ++ JSArray.numberToString (List.length (res_modifiedFiles r))
         ++ " currently modified)";
       "";
       "## File List";
       "Files with an asterisk (*) are currently modified but not yet committed.";
       ""] in
    (res_changedFiles r <> [] ->
     JS.splitLines (contentOf sel repoPath r)
       = (heading ++ res_formattedFiles r)%list /\
     List.length (res_formattedFiles r) = List.length (res_changedFiles r) /\
     informationOf selectedBranch r = None) /\
    (res_changedFiles r = [] ->
     JS.splitLines (contentOf sel repoPath r)
       = (heading ++ [""; noFilesFoundText])%list /\
     informationOf selectedBranch r
       = Some ("No files have changed in branch: " ++ label selectedBranch)).
Proof.
  intros Hlabel Hpath Hrepo.
  destruct (entries_single_lines_aux host repoPath sel selectedBranch baseRef st)
    as [r [final [Hrun [Hsorted Hname]]]].
  exists r, final. split; [exact Hrun|]. cbv zeta.
  assert (Hhead :
    JS.splitLines (debugInfoOf sel repoPath r) =
      ["# Git File List for Branch: " ++ res_branchName r;
       "- Selected folder: " ++ path sel;
       "- Working directory: " ++ repoPath;
       "- Total files: "
         ++ JSArray.numberToString (List.length (res_changedFiles r))
         ++ " ("
         ++ JSArray.numberToString (List.length (res_modifiedFiles r))
         ++ " currently modified)";
       "";
       "## File List";
       "Files with an asterisk (*) are currently modified but not yet committed.";
       ""]).
  { unfold debugInfoOf. apply debugInfo_lines; unfold singleLine in *;
      rewrite ?freeOf_append, ?Hpath, ?Hrepo;
      try reflexivity.
    - rewrite Hname; [reflexivity | exact Hlabel].
    - pose proof (numberToString_singleLine (List.length (res_changedFiles r)))
        as Hn1.
      pose proof (numberToString_singleLine (List.length (res_modifiedFiles r)))
        as Hn2.
      unfold singleLine in Hn1, Hn2. now rewrite Hn1, Hn2. }
  unfold contentOf, informationOf. split.
  - intros Hne. destruct (res_changedFiles r) as [|f fs] eqn:E; [congruence|].
    cbn [List.length Nat.ltb Nat.leb Nat.eqb].
    destruct Hsorted as [Hform [Hlen Hnil]].
    split; [|split; [exact Hlen | reflexivity]].
    rewrite splitLines_split, separator_append, split_append.
    rewrite <- !splitLines_split, Hhead. f_equal.
    rewrite splitLines_split. apply split_join; [|exact Hform].
    intros Hempty. rewrite Hempty in Hlen. discriminate.
  - intros Hnil. rewrite Hnil in Hhead |- *.
    cbn [List.length Nat.ltb Nat.leb Nat.eqb].
    split; [|reflexivity].
    change (String JS.LF (String JS.LF "") ++ noFilesFoundText)
      with (String JS.LF (String JS.LF noFilesFoundText)).
    rewrite splitLines_split, split_append, <- splitLines_split, Hhead.
    reflexivity.
Qed.

(** A feature branch with two committed files, one of them modified. *)
Lemma document_has_a_line_per_file_witness :
  let host := tableHost
    [(mergeBaseCommand "main" "dev", lines ["abc123"]);
     (committedFilesCommand "abc123" "dev" "", lines ["src/a.ts"; "src/b.ts"]);
     (currentBranchCommand, lines ["dev"]);
     (statusCommand, lines [" M src/b.ts"]);
     (modifiedFilesCommand "", lines ["src/b.ts"])] "dev" in
  let sel := mkDirectoryItem "." "/ws" false in
  exists r final,
    showBranchFiles host "/ws" sel (mkBranchItem "dev" "Current branch") "main"
      emptyFrame
    = (Normal (ShowDocument r), final) /\
    JS.splitLines (contentOf sel "/ws" r)
    = ["# Git File List for Branch: dev";
       "- Selected folder: .";
       "- Working directory: /ws";
       "- Total files: 2 (1 currently modified)";
       "";
       "## File List";
       "Files with an asterisk (*) are currently modified but not yet committed.";
       "";
       "  src/a.ts";
       "* src/b.ts"].
Proof.
  intros host sel.
  destruct (document_has_a_line_per_file host "/ws" sel
              (mkBranchItem "dev" "Current branch") "main" emptyFrame
              eq_refl eq_refl eq_refl) as [r [final [Hrun [Hlist _]]]].
  exists r, final. split; [exact Hrun|].
  assert (Hr : r = mergeResult foldedOrder "dev" ["src/a.ts"; "src/b.ts"; ""] ["src/b.ts"]).
  { vm_compute in Hrun. injection Hrun as Hr _. rewrite <- Hr. reflexivity. }
  subst r. destruct Hlist as [Hlines _]; [discriminate|]. exact Hlines.
Defined.

(* ================================================================== *)
(** ** The commands of a run *)
(* ================================================================== *)

Lemma spends_weaken {A} (cwd : string) (n n' : nat) (m : M A) :
  n <= n' -> spends cwd n m -> spends cwd n' m.
Proof.
  intros Hle H st. destruct (H st) as [made [H1 [H2 H3]]].
  exists made. repeat split; [exact H1 | lia | exact H3].
Qed.

Lemma spends_ret {A} (cwd : string) (a : A) : spends cwd 0 (ret a).
Proof.
  intros st. exists []. simpl. rewrite app_nil_r. repeat split; auto.
Qed.

Lemma spends_bind {A B} (cwd : string) (n1 n2 : nat) (m : M A) (k : A -> M B) :
  spends cwd n1 m -> (forall a, spends cwd n2 (k a)) ->
  spends cwd (n1 + n2) (bind m k).
Proof.
  intros Hm Hk st. unfold bind. destruct (Hm st) as [made1 [H1 [L1 F1]]].
  destruct (m st) as [[a|e] s1]; simpl in H1.
  - destruct (Hk a s1) as [made2 [H2 [L2 F2]]].
    exists (made1 ++ made2)%list. rewrite H2, H1, app_assoc, length_app.
    repeat split; [lia | now apply Forall_app].
  - exists made1. simpl. repeat split; [exact H1 | lia | exact F1].
Qed.

Lemma spends_tryCatch {A} (cwd : string) (n1 n2 : nat) (body : M A)
    (handler : string -> M A) :
  spends cwd n1 body -> (forall e, spends cwd n2 (handler e)) ->
  spends cwd (n1 + n2) (tryCatch body handler).
Proof.
  intros Hm Hk st. unfold tryCatch. destruct (Hm st) as [made1 [H1 [L1 F1]]].
  destruct (body st) as [[a|e] s1]; simpl in H1.
  - exists made1. simpl. repeat split; [exact H1 | lia | exact F1].
  - destruct (Hk e s1) as [made2 [H2 [L2 F2]]].
    exists (made1 ++ made2)%list. rewrite H2, H1, app_assoc, length_app.
    repeat split; [lia | now apply Forall_app].
Qed.

Lemma spends_execSync (host : Host) (command cwd : string) :
  spends cwd 1 (execSync host command cwd).
Proof.
  intros st. rewrite execSync_run. eexists. split; [reflexivity|].
  split; [reflexivity | repeat constructor].
Qed.

Lemma spends_setCommittedFiles (cwd : string) (files : list string) :
  spends cwd 0 (setCommittedFiles files).
Proof.
  intros st. exists []. simpl. rewrite app_nil_r. repeat split; auto.
Qed.

Lemma spends_setModifiedFiles (cwd : string) (files : list string) :
  spends cwd 0 (setModifiedFiles files).
Proof.
  intros st. exists []. simpl. rewrite app_nil_r. repeat split; auto.
Qed.

Lemma spends_getCommittedFiles (cwd : string) : spends cwd 0 getCommittedFiles.
Proof.
  intros st. exists []. simpl. rewrite app_nil_r. repeat split; auto.
Qed.

Lemma spends_getModifiedFiles (cwd : string) : spends cwd 0 getModifiedFiles.
Proof.
  intros st. exists []. simpl. rewrite app_nil_r. repeat split; auto.
Qed.

(** One command and an assignment. *)
Lemma spends_command_then_set {A} (host : Host) (command cwd : string)
    (k : string -> M A) :
  (forall out, spends cwd 0 (k out)) ->
  spends cwd 1 (bind (execSync host command cwd) k).
Proof.
  intros Hk. apply (spends_bind cwd 1 0); [apply spends_execSync | exact Hk].
Qed.

Lemma spends_primaryTier
    (host : Host) (repoPath baseRef branchName pathForGitCommands : string) :
  spends repoPath 2
    (primaryTier host repoPath baseRef branchName pathForGitCommands).
Proof.
  unfold primaryTier. destruct (isSameBranch branchName baseRef).
  - apply (spends_weaken repoPath 1 2); [lia|].
    apply spends_command_then_set. intros. apply spends_setCommittedFiles.
  - apply (spends_bind repoPath 1 1); [apply spends_execSync|]. intros.
    apply spends_command_then_set. intros. apply spends_setCommittedFiles.
Qed.

Lemma spends_secondaryTier
    (host : Host) (repoPath baseRef branchName pathForGitCommands : string) :
  spends repoPath 1
    (secondaryTier host repoPath baseRef branchName pathForGitCommands).
Proof.
  unfold secondaryTier. destruct (isSameBranch branchName baseRef);
    apply spends_command_then_set; intros; apply spends_setCommittedFiles.
Qed.

Lemma spends_tertiaryTier (host : Host) (repoPath folderPath : string) :
  spends repoPath 1 (tertiaryTier host repoPath folderPath).
Proof.
  unfold tertiaryTier.
  apply spends_command_then_set; intros; apply spends_setCommittedFiles.
Qed.

Lemma spends_resolveCommitted
    (host : Host)
    (repoPath baseRef branchName folderPath pathForGitCommands : string) :
  spends repoPath 4
    (resolveCommitted host repoPath baseRef branchName folderPath
       pathForGitCommands).
Proof.
  unfold resolveCommitted.
  apply (spends_bind repoPath 0 4); [apply spends_setCommittedFiles|]. intros _.
  apply (spends_tryCatch repoPath 2 2); [apply spends_primaryTier|]. intros _.
  apply (spends_tryCatch repoPath 1 1); [apply spends_secondaryTier|]. intros _.
  apply (spends_tryCatch repoPath 1 0); [apply spends_tertiaryTier|]. intros _.
  apply spends_ret.
Qed.

Lemma spends_collectModified
    (host : Host) (repoPath folderPath pathForGitCommands : string) :
  spends repoPath 2
    (collectModified host repoPath folderPath pathForGitCommands).
Proof.
  unfold collectModified.
  apply (spends_bind repoPath 1 1); [apply spends_execSync|]. intros.
  apply (spends_bind repoPath 0 1); [apply spends_setModifiedFiles|]. intros.
  apply spends_command_then_set. intros.
  apply (spends_bind repoPath 0 0); [apply spends_getModifiedFiles|]. intros.
  apply spends_setModifiedFiles.
Qed.

Lemma spends_scanModified
    (host : Host) (repoPath branchName folderPath pathForGitCommands : string) :
  spends repoPath 3
    (scanModified host repoPath branchName folderPath pathForGitCommands).
Proof.
  unfold scanModified.
  apply (spends_bind repoPath 0 3); [apply spends_setModifiedFiles|]. intros _.
  apply (spends_tryCatch repoPath 3 0); [|intros; apply spends_ret].
  apply (spends_bind repoPath 1 2); [apply spends_execSync|]. intros out.
  destruct (_ && _).
  - apply spends_collectModified.
  - apply (spends_weaken repoPath 0 2); [lia | apply spends_ret].
Qed.

Lemma spends_showBranchFiles
    (host : Host) (repoPath : string) (sel : DirectoryItem)
    (selectedBranch : BranchItem) (baseRef : string) :
  spends repoPath 7 (showBranchFiles host repoPath sel selectedBranch baseRef).
Proof.
  unfold showBranchFiles.
  apply (spends_bind repoPath 4 3); [apply spends_resolveCommitted|]. intros _.
  apply (spends_bind repoPath 3 0); [apply spends_scanModified|]. intros _.
  apply (spends_bind repoPath 0 0); [apply spends_getCommittedFiles|]. intros.
  apply (spends_bind repoPath 0 0); [apply spends_getModifiedFiles|]. intros.
  apply spends_ret.
Qed.

Lemma spends_selectBranchFiles
    (host : Host) (workspacePath : string) (sel : DirectoryItem) :
  spends (repoPathOf workspacePath sel) 10
    (selectBranchFiles host workspacePath sel).
Proof.
  unfold selectBranchFiles. set (repoPath := repoPathOf workspacePath sel).
  apply (spends_tryCatch repoPath 10 0); [|intros; apply spends_ret].
  apply (spends_bind repoPath 1 9).
  { unfold checkGitRepo.
    apply (spends_tryCatch repoPath 1 0).
    - apply spends_command_then_set. intros. apply spends_ret.
    - intros. destruct (isExternal sel); apply spends_ret. }
  intros [outcome|]; [apply (spends_weaken repoPath 0 9); [lia | apply spends_ret]|].
  apply (spends_bind repoPath 1 8).
  { unfold listBranches. apply (spends_tryCatch repoPath 1 0).
    - apply spends_command_then_set. intros. apply spends_ret.
    - intros. apply spends_ret. }
  intros [outcome|branches];
    [apply (spends_weaken repoPath 0 8); [lia | apply spends_ret]|].
  destruct (showQuickPick host (branchItemsOf branches)) as [selectedBranch|];
    [|apply (spends_weaken repoPath 0 8); [lia | apply spends_ret]].
  apply (spends_bind repoPath 1 7).
  { unfold resolveBase. apply (spends_tryCatch repoPath 1 0).
    - apply spends_command_then_set. intros. apply spends_ret.
    - intros. apply spends_ret. }
  intros baseRef.
  apply (spends_tryCatch repoPath 7 0); [apply spends_showBranchFiles|].
  intros. apply spends_ret.
Qed.

(** X16.  The commands of a run.  From the check of the repository on, a run
    of the command starts at most ten processes, and every one of them in
    the repository path: the folder picked outside the workspace, or else
    the workspace folder. *)
Theorem run_stays_in_repository
    (host : Host) (workspacePath : string) (sel : DirectoryItem) (st : Frame) :
  exists made,
    calls (snd (selectBranchFiles host workspacePath sel st))
    = (calls st ++ made)%list /\
    List.length made <= 10 /\
    Forall (fun c => call_cwd c = repoPathOf workspacePath sel) made.
Proof.
  destruct (spends_selectBranchFiles host workspacePath sel st)
    as [made [Hcalls [Hcount Hcwd]]].
  exists made. split; [exact Hcalls|]. split; [exact Hcount | exact Hcwd].
Qed.

Lemma resolveBase_run (host : Host) (repoPath : string) (st : Frame) :
  resolveBase host repoPath st =
  (Normal
     match execOracle host (List.length (calls st)) repoPath showRefCommand with
     | Stdout _ => "main"
     | Throws _ => "master"
     end,
   mkFrame (calls st ++ [mkCall repoPath showRefCommand])
           (committedFiles st) (modifiedFiles st)).
Proof.
  unfold resolveBase, tryCatch, bind, ret. rewrite execSync_run.
  destruct (execOracle host _ _ _); reflexivity.
Qed.

(** The inner [try] of line 322 never reaches its handler. *)
Lemma showBranchFiles_caught
    (host : Host) (repoPath : string) (sel : DirectoryItem)
    (selectedBranch : BranchItem) (baseRef : string) (st : Frame) :
  tryCatch (showBranchFiles host repoPath sel selectedBranch baseRef)
    (fun e => ret (ShowError ("Failed to get changed files: " ++ e))) st
  = showBranchFiles host repoPath sel selectedBranch baseRef st.
Proof. unfold tryCatch. now rewrite showBranchFiles_run. Qed.

(** X14.  How a run is put together.  When the check does not end the run (it
    succeeds, or the folder is one of the workspace), the branches are
    listed and the user picks one, the outcome is the document of that
    branch: the base is "main" if the reference of main is verified and
    "master" if not, and the resolver and the scanner run after these three
    commands. *)
Theorem run_resolves_picked_branch
    (host : Host) (workspacePath : string) (sel : DirectoryItem) (st : Frame)
    (out : string) (selectedBranch : BranchItem) :
  let repoPath := repoPathOf workspacePath sel in
  let n := List.length (calls st) in
  let baseRef :=
    match execOracle host (S (S n)) repoPath showRefCommand with
    | Stdout _ => "main"
    | Throws _ => "master"
    end in
  let asked :=
    mkFrame (calls st ++ [mkCall repoPath gitCheckCommand;
                          mkCall repoPath branchListCommand;
                          mkCall repoPath showRefCommand])
            (committedFiles st) (modifiedFiles st) in
  (isExternal sel = false \/
   exists printed, execOracle host n repoPath gitCheckCommand = Stdout printed) ->
  execOracle host (S n) repoPath branchListCommand = Stdout out ->
  showQuickPick host (branchItemsOf (JS.splitLines out)) = Some selectedBranch ->
  selectBranchFiles host workspacePath sel st
  = showBranchFiles host repoPath sel selectedBranch baseRef asked.
Proof.
  intros repoPath n baseRef asked Hcheck Hlist Hpick.
  unfold selectBranchFiles. fold repoPath.
  assert (Hearly :
    checkGitRepo host repoPath sel st
    = (Normal None,
       mkFrame (calls st ++ [mkCall repoPath gitCheckCommand])
               (committedFiles st) (modifiedFiles st))).
  { rewrite checkGitRepo_run. fold n.
    destruct Hcheck as [Hext|[printed Hok]].
    - rewrite Hext. now destruct (execOracle host n repoPath gitCheckCommand).
    - now rewrite Hok. }
  unfold tryCatch at 1, bind at 1. rewrite Hearly.
  unfold bind at 1. rewrite listBranches_run.
  cbn [calls committedFiles modifiedFiles].
  rewrite length_app, Nat.add_comm. cbn [List.length Nat.add]. fold n.
  rewrite Hlist, Hpick.
  unfold bind at 1. rewrite resolveBase_run.
  cbn [calls committedFiles modifiedFiles].
  rewrite !length_app. cbn [List.length].
  replace (Datatypes.length (calls st) + 1 + 1) with (S (S n)) by (unfold n; lia).
  fold baseRef. rewrite showBranchFiles_caught.
  rewrite <- !app_assoc. cbn [app]. fold asked.
  rewrite showBranchFiles_run. reflexivity.
Qed.

(** The feature branch "feature/x" of a repository on "main" adds two
    files. *)
Lemma run_resolves_picked_branch_witness :
  let host := tableHost
    [(gitCheckCommand, lines ["true"]);
     (branchListCommand, lines ["* main"; "  feature/x"]);
     (showRefCommand, "");
     (mergeBaseCommand "main" "feature/x", lines ["abc123"]);
     (committedFilesCommand "abc123" "feature/x" "",
      lines ["src/b.ts"; "src/a.ts"]);
     (currentBranchCommand, lines ["main"])] "feature/x" in
  let sel := mkDirectoryItem "." "/ws" false in
  fst (selectBranchFiles host "/ws" sel emptyFrame)
  = Normal (ShowDocument
              (mkResolution "feature/x" ["src/b.ts"; "src/a.ts"; ""] []
                 ["src/b.ts"; "src/a.ts"] ["src/a.ts"; "src/b.ts"]
                 ["  src/a.ts"; "  src/b.ts"])).
Proof.
  intros host sel.
  rewrite (run_resolves_picked_branch host "/ws" sel emptyFrame
             (lines ["* main"; "  feature/x"]) (mkBranchItem "feature/x" "")
             (or_introl eq_refl) eq_refl eq_refl).
  reflexivity.
Defined.

(** X15.  How a run ends.  From the check of the repository on, a run never
    escapes with an exception and never shows one of the two general error
    messages: it ends with the message that the folder is no repository,
    with the message that the branches could not be listed, without
    anything when no branch is picked, or with the document. *)
Theorem run_outcomes
    (host : Host) (workspacePath : string) (sel : DirectoryItem) (st : Frame) :
  exists outcome final,
    selectBranchFiles host workspacePath sel st = (Normal outcome, final) /\
    (outcome = ShowError notGitMessage \/
     (exists e, outcome = ShowError ("Failed to get Git branches: " ++ e)) \/
     outcome = NoSelection \/
     exists r, outcome = ShowDocument r).
Proof.
  unfold selectBranchFiles. set (repoPath := repoPathOf workspacePath sel).
  unfold tryCatch at 1, bind at 1. rewrite checkGitRepo_run.
  destruct (match execOracle host _ repoPath gitCheckCommand with
            | Stdout _ => None
            | Throws _ => _
            end) as [early|] eqn:Eearly.
  - do 2 eexists. split; [reflexivity|]. left.
    destruct (execOracle host _ repoPath gitCheckCommand); [discriminate|].
    destruct (isExternal sel); [now injection Eearly as <- | discriminate].
  - unfold bind at 1. rewrite listBranches_run.
    destruct (execOracle host _ repoPath branchListCommand) as [out|e].
    + destruct (showQuickPick host (branchItemsOf (JS.splitLines out)))
        as [selectedBranch|].
      * unfold bind at 1. rewrite resolveBase_run, showBranchFiles_caught.
        rewrite showBranchFiles_run. do 2 eexists. split; [reflexivity|].
        right; right; right. eexists. reflexivity.
      * do 2 eexists. split; [reflexivity|]. right; right; left. reflexivity.
    + do 2 eexists. split; [reflexivity|]. right; left. now exists e.
Qed.

(* ================================================================== *)
(** ** More on the resolver and the scanner *)
(* ================================================================== *)

(** X2.  The fallbacks of the same-branch case.  When the history scan of a
    branch taken for the base fails, the files of the last twenty commits
    are listed, by a command that names no branch (it reads the history of
    what is checked out) and whose blank lines are kept; when that fails
    too, the status is read; when all three fail, nothing is committed. *)
Theorem same_branch_fallbacks
    (host : Host)
    (repoPath baseRef branchName folderPath pathForGitCommands : string)
    (st : Frame) (e1 : string) :
  let n := List.length (calls st) in
  let history := mkCall repoPath (allFilesCommand branchName pathForGitCommands) in
  let recent := mkCall repoPath (recentFilesCommand pathForGitCommands) in
  let status := mkCall repoPath statusCommand in
  let run := resolveCommitted host repoPath baseRef branchName folderPath
               pathForGitCommands st in
  isSameBranch branchName baseRef = true ->
  execOracle host n repoPath (allFilesCommand branchName pathForGitCommands)
    = Throws e1 ->
  (forall out,
     execOracle host (S n) repoPath (recentFilesCommand pathForGitCommands)
       = Stdout out ->
     run = (Normal tt,
            mkFrame (calls st ++ [history; recent])%list (JS.splitLines out)
                    (modifiedFiles st))) /\
  (forall e2,
     execOracle host (S n) repoPath (recentFilesCommand pathForGitCommands)
       = Throws e2 ->
     (forall statusOutput,
        execOracle host (S (S n)) repoPath statusCommand = Stdout statusOutput ->
        run = (Normal tt,
               mkFrame (calls st ++ [history; recent; status])%list
                       (underFolder folderPath (statusFilesOf statusOutput))
                       (modifiedFiles st))) /\
     (forall e3,
        execOracle host (S (S n)) repoPath statusCommand = Throws e3 ->
        run = (Normal tt,
               mkFrame (calls st ++ [history; recent; status])%list []
                       (modifiedFiles st)))).
Proof.
  intros n history recent status run Hsame H1. subst run.
  rewrite resolveCommitted_tiers. unfold primaryTier, secondaryTier.
  rewrite Hsame. unfold bind, setCommittedFiles.
  rewrite execSync_run. cbn [calls committedFiles modifiedFiles]. fold n.
  rewrite H1. rewrite execSync_run. cbn [calls committedFiles modifiedFiles].
  rewrite length_app, Nat.add_comm. cbn [List.length Nat.add]. fold n.
  split.
  - intros out H2. rewrite H2. rewrite <- app_assoc. reflexivity.
  - intros e2 H2. rewrite H2. rewrite tertiaryTier_run.
    cbn [calls committedFiles modifiedFiles].
    rewrite !length_app. cbn [List.length].
    replace (Datatypes.length (calls st) + 1 + 1) with (S (S n))
      by (unfold n; lia).
    split.
    + intros statusOutput H3. rewrite H3. rewrite <- !app_assoc. reflexivity.
    + intros e3 H3. rewrite H3. rewrite <- !app_assoc. reflexivity.
Qed.

(** The history of "main" is too long to be read; the recent one is not. *)
Lemma same_branch_fallbacks_witness :
  let host := tableHost [(recentFilesCommand "", lines ["src/a.ts"; ""; "src/a.ts"])]
                "main" in
  resolveCommitted host "/repo" "main" "main" "" "" emptyFrame
  = (Normal tt,
     mkFrame [mkCall "/repo" (allFilesCommand "main" "");
              mkCall "/repo" (recentFilesCommand "")]
             ["src/a.ts"; ""; "src/a.ts"; ""] []).
Proof.
  intros host.
  exact (proj1 (same_branch_fallbacks host "/repo" "main" "main" "" ""
                  emptyFrame "fatal" eq_refl eq_refl)
           (lines ["src/a.ts"; ""; "src/a.ts"]) eq_refl).
Defined.

(** X6.  What the scanner keeps.  On the selected branch, when the status is
    read and the listing of the modified files then fails, the paths of the
    status are kept as the modified files; when the status itself fails,
    nothing is modified; when both succeed, the two lists are joined
    without repetition.  In no case does the scanner throw. *)
Theorem scan_keeps_status_when_listing_fails
    (host : Host) (repoPath branchName folderPath pathForGitCommands : string)
    (st : Frame) (out : string) :
  let n := List.length (calls st) in
  let current := mkCall repoPath currentBranchCommand in
  let status := mkCall repoPath statusCommand in
  let listing := mkCall repoPath (modifiedFilesCommand pathForGitCommands) in
  let run := scanModified host repoPath branchName folderPath
               pathForGitCommands st in
  execOracle host n repoPath currentBranchCommand = Stdout out ->
  isOnSelectedBranch (JS.trim out) branchName = true ->
  isRemoteBranch branchName = false ->
  (forall e,
     execOracle host (S n) repoPath statusCommand = Throws e ->
     run = (Normal tt,
            mkFrame (calls st ++ [current; status])%list
                    (committedFiles st) [])) /\
  (forall statusOutput,
     execOracle host (S n) repoPath statusCommand = Stdout statusOutput ->
     let fromStatus := underFolder folderPath (statusFilesOf statusOutput) in
     (forall e,
        execOracle host (S (S n)) repoPath
          (modifiedFilesCommand pathForGitCommands) = Throws e ->
        run = (Normal tt,
               mkFrame (calls st ++ [current; status; listing])%list
                       (committedFiles st) fromStatus)) /\
     (forall listed,
        execOracle host (S (S n)) repoPath
          (modifiedFilesCommand pathForGitCommands) = Stdout listed ->
        run = (Normal tt,
               mkFrame (calls st ++ [current; status; listing])%list
                       (committedFiles st)
                       (JS.newSet (fromStatus
                                   ++ filter notBlank (JS.splitLines listed))))
        /\ NoDup (modifiedFiles (snd run)))).
Proof.
  intros n current status listing run Hcur Hon Hrem. subst run.
  rewrite scanModified_run. cbv zeta. fold n.
  rewrite Hcur, Hon, Hrem. cbn [andb negb].
  rewrite collectModified_run. cbv zeta.
  cbn [calls committedFiles modifiedFiles].
  rewrite length_app, Nat.add_comm. cbn [List.length Nat.add]. fold n.
  split.
  - intros e H1. rewrite H1. cbn [snd]. rewrite <- app_assoc. reflexivity.
  - intros statusOutput H1. rewrite H1. cbv zeta. split.
    + intros e H2. rewrite H2. cbn [snd]. rewrite <- app_assoc. reflexivity.
    + intros listed H2. rewrite H2. cbn [snd modifiedFiles].
      rewrite <- app_assoc. split; [reflexivity | apply newSet_NoDup].
Qed.

(** The index is locked when the modified files are listed. *)
Lemma scan_keeps_status_when_listing_fails_witness :
  let host := tableHost
    [(currentBranchCommand, lines ["dev"]);
     (statusCommand, lines [" M src/a.ts"; "?? notes.md"])] "dev" in
  scanModified host "/repo" "dev" "" "" emptyFrame
  = (Normal tt,
     mkFrame [mkCall "/repo" currentBranchCommand;
              mkCall "/repo" statusCommand;
              mkCall "/repo" (modifiedFilesCommand "")]
             [] ["src/a.ts"; "notes.md"]).
Proof.
  intros host.
  exact (proj1 (proj2 (scan_keeps_status_when_listing_fails host "/repo" "dev"
                         "" "" emptyFrame (lines ["dev"])
                         eq_refl eq_refl eq_refl)
                  (lines [" M src/a.ts"; "?? notes.md"]) eq_refl)
           "fatal" eq_refl).
Defined.

Lemma endsWith_suffix (s suf : string) :
  JS.endsWith s suf = true -> exists a, s = a ++ suf.
Proof.
  induction s as [|c s IH]; cbn [JS.endsWith]; intros H.
  - apply orb_true_iff in H as [H|H]; [|discriminate].
    apply String.eqb_eq in H. subst. now exists "".
  - apply orb_true_iff in H as [H|H].
    + apply String.eqb_eq in H. subst. now exists "".
    + destruct (IH H) as [a ->]. now exists (String c a).
Qed.

(** X3.  Which branches are taken for the base.  The resolver takes a branch
    for the base exactly when its name is the base or ends in a slash and
    the base: so the remote-tracking twin of the base, as the branch list
    prints it, is taken for the base, and so is any local branch whose last
    part is the base. *)
Theorem same_branch_names (branchName baseRef : string) :
  (isSameBranch branchName baseRef = true <->
   branchName = baseRef \/ exists before, branchName = before ++ "/" ++ baseRef)
  /\
  (forall remote,
     isSameBranch
       (cleanRemoteBranchName ("remotes/" ++ remote ++ "/" ++ baseRef)) baseRef
     = true).
Proof.
  unfold isSameBranch. split.
  - rewrite orb_true_iff, String.eqb_eq. split.
    + intros [H|H]; [now left | right]. now apply endsWith_suffix.
    + intros [H|[before ->]]; [now left | right]. apply endsWith_append.
  - intros remote. rewrite cleanRemoteBranchName_remote.
    rewrite (endsWith_append remote ("/" ++ baseRef)). apply orb_true_r.
Qed.

(* ================================================================== *)
(** ** The history scan of the base branch *)
(* ================================================================== *)

(** The resolver on a branch that passes its same-branch test, command by
    command. *)
Lemma resolveCommitted_same_branch
    (host : Host)
    (repoPath baseRef branchName folderPath pathForGitCommands : string)
    (st : Frame) :
  isSameBranch branchName baseRef = true ->
  let n := List.length (calls st) in
  let history := mkCall repoPath (allFilesCommand branchName pathForGitCommands) in
  let recent := mkCall repoPath (recentFilesCommand pathForGitCommands) in
  let status := mkCall repoPath statusCommand in
  resolveCommitted host repoPath baseRef branchName folderPath
    pathForGitCommands st
  = (Normal tt,
     match execOracle host n repoPath
             (allFilesCommand branchName pathForGitCommands) with
     | Stdout out =>
         mkFrame (calls st ++ [history])%list
                 (filter notBlank (JS.splitLines out)) (modifiedFiles st)
     | Throws _ =>
         match execOracle host (S n) repoPath
                 (recentFilesCommand pathForGitCommands) with
         | Stdout out =>
             mkFrame (calls st ++ [history; recent])%list (JS.splitLines out)
                     (modifiedFiles st)
         | Throws _ =>
             mkFrame (calls st ++ [history; recent; status])%list
               match execOracle host (S (S n)) repoPath statusCommand with
               | Stdout statusOutput =>
                   underFolder folderPath (statusFilesOf statusOutput)
               | Throws _ => []
               end
               (modifiedFiles st)
         end
     end).
Proof.
  intros Hsame n history recent status.
  rewrite resolveCommitted_tiers. unfold primaryTier, secondaryTier.
  rewrite Hsame. unfold bind, setCommittedFiles.
  rewrite execSync_run. cbn [calls committedFiles modifiedFiles]. fold n.
  destruct (execOracle host n repoPath _) as [out|e1]; [reflexivity|].
  rewrite execSync_run. cbn [calls committedFiles modifiedFiles].
  rewrite length_app, Nat.add_comm. cbn [List.length Nat.add]. fold n.
  destruct (execOracle host (S n) repoPath _) as [out|e2].
  { rewrite <- app_assoc. reflexivity. }
  rewrite tertiaryTier_run. cbn [calls committedFiles modifiedFiles].
  rewrite !length_app. cbn [List.length].
  replace (Datatypes.length (calls st) + 1 + 1) with (S (S n))
    by (unfold n; lia).
  destruct (execOracle host (S (S n)) repoPath statusCommand);
    rewrite <- !app_assoc; reflexivity.
Qed.

(** *** What [sort | uniq] leaves *)

Lemma uniq_In (ls : list string) (x : string) :
  In x (Shell.uniq ls) <-> In x ls.
Proof.
  induction ls as [|y rest IH]; [reflexivity|].
  cbn [Shell.uniq]. destruct rest as [|z rest']; [reflexivity|].
  destruct (String.eqb_spec y z) as [->|Hyz].
  - rewrite IH. simpl. tauto.
  - cbn [In]. rewrite IH. simpl. tauto.
Qed.

Lemma uniq_NoDup (cmp : string -> string -> Z) (ls : list string) :
  (forall a b, (cmp a b <= 0)%Z -> (cmp b a <= 0)%Z -> a = b) ->
  StronglySorted (fun a b => (cmp a b <= 0)%Z) ls ->
  NoDup (Shell.uniq ls).
Proof.
  intros Hanti. induction 1 as [|x rest Hrest IH Hx]; [constructor|].
  cbn [Shell.uniq]. destruct rest as [|y rest'].
  { constructor; [intros []|constructor]. }
  destruct (String.eqb_spec x y) as [->|Hxy]; [exact IH|].
  constructor; [|exact IH].
  rewrite uniq_In. intros [Heq|Hin]; [now apply Hxy|].
  apply Hxy. apply Hanti.
  - apply (Forall_inv Hx).
  - apply StronglySorted_inv in Hrest as [_ Hy].
    rewrite Forall_forall in Hy. now apply Hy.
Qed.

Lemma sort_uniq_NoDup (compareLines : string -> string -> Z) (ls : list string) :
  consistentComparator compareLines -> separatesLines compareLines ->
  NoDup (Shell.uniq (Shell.sort compareLines ls)).
Proof.
  intros [Hopp Htrans] Hsep. apply (uniq_NoDup compareLines).
  - intros a b Hab Hba. apply Hsep.
    pose proof (Hopp a b). pose proof (Hopp b a). lia.
  - apply sortBy_sorted; [|exact Htrans].
    intros a b. pose proof (Hopp a b). pose proof (Hopp b a). lia.
Qed.

Lemma sort_uniq_In (compareLines : string -> string -> Z) (ls : list string)
    (x : string) :
  In x (Shell.uniq (Shell.sort compareLines ls)) <-> In x ls.
Proof.
  rewrite uniq_In. unfold Shell.sort. split; apply Permutation_in.
  - apply Permutation_sym, sortBy_perm.
  - apply sortBy_perm.
Qed.

(** The lines that the program keeps of an output of whole lines. *)
Lemma filter_notBlank_splitLines_lines (ls : list string) :
  Forall (fun line => singleLine line = true) ls ->
  filter notBlank (JS.splitLines (lines ls)) = filter notBlank ls.
Proof.
  intros H. rewrite (splitLines_lines _ H), filter_app. cbn [filter].
  change (notBlank "") with false. apply app_nil_r.
Qed.

(** C1, as stated, fails: the base branch is selected and the history scan
    fails (its output is too long for the buffer, or the shell has no
    [uniq]); the committed files are then the names that the log of the
    last 20 commits of HEAD prints, with their repeats and the blank lines
    between the commits. *)
Lemma failed_history_scan_keeps_repeats :
  let host := scriptHost
    [Throws "spawnSync /bin/sh ENOBUFS";
     Stdout (lines ["src/a.ts"; "README.md"; ""; "src/a.ts"])] "main" in
  let run := resolveCommitted host "/repo" "main"
               (cleanRemoteBranchName "main") "" "" emptyFrame in
  normalizeBranch (cleanRemoteBranchName "main") = "main" /\
  calls (snd run)
    = [mkCall "/repo" (allFilesCommand "main" "");
       mkCall "/repo" "git log --name-only --pretty=format: -n 20"] /\
  committedFiles (snd run) = ["src/a.ts"; "README.md"; ""; "src/a.ts"; ""] /\
  ~ NoDup (committedFiles (snd run)).
Proof.
  cbv zeta. split; [reflexivity|]. split; [reflexivity|].
  split; [reflexivity|].
  intros H. apply NoDup_cons_iff in H as [H _]. apply H. simpl. auto.
Qed.

(** C1, amended.  A selected branch that normalizes to the base (it is the
    base once "remotes/" is removed, or once the refs prefix is stripped,
    or it passes the same-branch test of the resolver) is never resolved by
    a diff against itself.  The first command is the history scan, the log
    of the names of the files of every commit reachable from the branch,
    within the selected folder if there is one, piped through [sort] and
    [uniq]; beside it the resolver runs nothing but the log of the last 20
    commits and the status.  When the scan succeeds, the committed files
    are the non-blank lines of its output and nothing else is run; as what
    [sort | uniq] prints of the names of the log, they are these names
    without the blank ones, each of them once.  When the scan fails and the
    log of the last 20 commits succeeds, the committed files are the lines
    of that log as they are. *)
Theorem same_branch_history_scan
    (host : Host) (repoPath baseRef selected folderPath pathForGitCommands : string)
    (st : Frame) :
  let branchName := cleanRemoteBranchName selected in
  let scope :=
    if JS.truthy pathForGitCommands
    then " -- " ++ JS.dquote ++ pathForGitCommands ++ JS.dquote else "" in
  let scan :=
    "git log --name-only --format=" ++ JS.dquote ++ JS.dquote ++ " "
    ++ branchName ++ scope ++ " | sort | uniq" in
  let recent := "git log --name-only --pretty=format: -n 20" ++ scope in
  let n := List.length (calls st) in
  let run := resolveCommitted host repoPath baseRef branchName folderPath
               pathForGitCommands st in
  (branchName = baseRef \/ normalizeBranch branchName = baseRef \/
   isSameBranch branchName baseRef = true) ->
  nth_error (calls (snd run)) n = Some (mkCall repoPath scan) /\
  (forall c, In c (calls (snd run)) ->
     In c (calls st) \/
     c = mkCall repoPath scan \/
     c = mkCall repoPath recent \/
     c = mkCall repoPath "git status --porcelain") /\
  (forall out,
     execOracle host n repoPath scan = Stdout out ->
     run = (Normal tt,
            mkFrame (calls st ++ [mkCall repoPath scan])%list
                    (filter notBlank (JS.splitLines out))
                    (modifiedFiles st))) /\
  (forall (compareLines : string -> string -> Z) (names : list string),
     consistentComparator compareLines -> separatesLines compareLines ->
     Forall (fun name => singleLine name = true) names ->
     execOracle host n repoPath scan
       = Stdout (lines (Shell.uniq (Shell.sort compareLines names))) ->
     NoDup (committedFiles (snd run)) /\
     forall file,
       In file (committedFiles (snd run)) <->
       In file names /\ notBlank file = true) /\
  (forall e out,
     execOracle host n repoPath scan = Throws e ->
     execOracle host (S n) repoPath recent = Stdout out ->
     run = (Normal tt,
            mkFrame (calls st ++ [mkCall repoPath scan;
                                  mkCall repoPath recent])%list
                    (JS.splitLines out) (modifiedFiles st))).
Proof.
  intros branchName scope scan recent n run Hsame.
  assert (Hb : isSameBranch branchName baseRef = true).
  { destruct Hsame as [H|[H|H]]; [| |exact H];
      apply normalized_base_isSameBranch; auto. }
  clear Hsame.
  assert (Escan : allFilesCommand branchName pathForGitCommands = scan)
    by reflexivity.
  assert (Erecent : recentFilesCommand pathForGitCommands = recent)
    by reflexivity.
  assert (Estatus : statusCommand = "git status --porcelain") by reflexivity.
  clearbody scan recent. subst run.
  rewrite (resolveCommitted_same_branch host repoPath baseRef branchName
             folderPath pathForGitCommands st Hb).
  cbv zeta. fold n. rewrite Escan, Erecent, Estatus. cbn [snd].
  split.
  { destruct (execOracle host n repoPath scan);
      [|destruct (execOracle host (S n) repoPath recent)];
      cbn [calls]; rewrite nth_error_app2 by (unfold n; lia);
      unfold n; rewrite Nat.sub_diag; reflexivity. }
  split.
  { intros c.
    destruct (execOracle host n repoPath scan);
      [|destruct (execOracle host (S n) repoPath recent)];
      cbn [calls]; rewrite in_app_iff; simpl; intuition (subst; auto 6). }
  split.
  { intros out Hout. now rewrite Hout. }
  split.
  - intros compareLines names Hcons Hsep Hnames Hout. rewrite Hout.
    cbn [committedFiles].
    assert (Hlines : Forall (fun line => singleLine line = true)
                       (Shell.uniq (Shell.sort compareLines names))).
    { rewrite Forall_forall in *. intros line Hin. apply Hnames.
      now apply sort_uniq_In in Hin. }
    rewrite (filter_notBlank_splitLines_lines _ Hlines). split.
    + apply NoDup_filter. now apply sort_uniq_NoDup.
    + intros file. rewrite filter_In, sort_uniq_In. reflexivity.
  - intros e out He Hout. now rewrite He, Hout.
Qed.

(** The base branch itself is selected; two commits touched [src/a.ts], one
    touched [README.md]; the log ends each commit with a blank line, and
    [sort] is run in the C locale. *)
Lemma same_branch_history_scan_witness :
  let names := ["src/a.ts"; "README.md"; ""; "src/a.ts"; ""] in
  let host := tableHost
    [(allFilesCommand "main" "",
      lines (Shell.uniq (Shell.sort byteOrder names)))] "main" in
  let run := resolveCommitted host "/repo" "main"
               (cleanRemoteBranchName "main") "" "" emptyFrame in
  run = (Normal tt,
         mkFrame [mkCall "/repo" (allFilesCommand "main" "")]
                 ["README.md"; "src/a.ts"] []) /\
  NoDup (committedFiles (snd run)).
Proof.
  intros names host run. split; [reflexivity|].
  destruct (same_branch_history_scan host "/repo" "main" "main" "" ""
              emptyFrame (or_introl eq_refl))
    as [_ [_ [_ [Hunique _]]]].
  apply (Hunique byteOrder names byteOrder_consistent byteOrder_separatesLines).
  - repeat constructor.
  - reflexivity.
Defined.

(* ================================================================== *)
(** ** The choice of the folder *)
(* ================================================================== *)

Lemma listDirectories_run (host : Host) (workspacePath : string) (st : Frame) :
  listDirectories host workspacePath st =
  (Normal ("." ::
           match execOracle host (List.length (calls st)) workspacePath
                   getDirectoriesCommand with
           | Stdout out => filter notBlank (JS.splitLines out)
           | Throws _ => []
           end),
   mkFrame (calls st ++ [mkCall workspacePath getDirectoriesCommand])
           (committedFiles st) (modifiedFiles st)).
Proof.
  unfold listDirectories, tryCatch, bind, ret. rewrite execSync_run.
  destruct (execOracle host _ _ _); reflexivity.
Qed.

Lemma filter_root_listed (listed : list string) :
  filter (fun item => String.eqb (pick_path item) ".")
    (map (fun dir => mkDirectoryPick dir "" dir false)
         (filter (fun dir => negb (String.eqb dir ".")) listed)) = [].
Proof.
  induction listed as [|dir rest IH]; [reflexivity|].
  cbn [filter]. destruct (String.eqb dir ".") eqn:E; cbn [negb]; [exact IH|].
  cbn [map filter pick_path]. now rewrite E.
Qed.

Lemma filter_browse_listed (listed : list string) :
  filter pick_isBrowseOption
    (map (fun dir => mkDirectoryPick dir "" dir false) listed) = [].
Proof. induction listed as [|dir rest IH]; [reflexivity | exact IH]. Qed.

(** X17.  The folders on offer.  Whatever folders the repository lists, and
    even when it lists the root itself, the quick pick starts with the
    browse entry, which is its only one, offers the root exactly once, and
    offers beside them exactly the listed folders other than the root. *)
Theorem directory_items_offer_root_once (listed : list string) :
  let items := directoryItemsOf ("." :: listed) in
  hd_error items = Some browseItem /\
  filter pick_isBrowseOption items = [browseItem] /\
  filter (fun item => String.eqb (pick_path item) ".") items
    = [currentDirectoryItem] /\
  skipn 2 items
    = map (fun dir => mkDirectoryPick dir "" dir false)
          (filter (fun dir => negb (String.eqb dir ".")) listed) /\
  (forall dir, dir <> "." ->
     (In (mkDirectoryPick dir "" dir false) items <-> In dir listed)).
Proof.
  cbv zeta. unfold directoryItemsOf.
  cbn [filter String.eqb Ascii.eqb Bool.eqb negb andb].
  split; [reflexivity|]. split.
  { cbn [filter pick_isBrowseOption browseItem currentDirectoryItem].
    now rewrite filter_browse_listed. }
  split.
  { cbn [filter pick_path browseItem currentDirectoryItem String.eqb
           Ascii.eqb Bool.eqb].
    now rewrite filter_root_listed. }
  split; [reflexivity|].
  intros dir Hdir. cbn [In]. rewrite in_map_iff. split.
  - intros [H|[H|[other [Heq Hin]]]];
      [discriminate H | discriminate H |].
    injection Heq as -> _. now apply filter_In in Hin as [Hin _].
  - intros Hin. right; right. exists dir. split; [reflexivity|].
    apply filter_In. split; [exact Hin|].
    apply negb_true_iff. now apply String.eqb_neq.
Qed.

(** The run from the check on never throws. *)
Lemma selectBranchFiles_normal
    (host : Host) (workspacePath : string) (sel : DirectoryItem) (st : Frame) :
  exists outcome,
    fst (selectBranchFiles host workspacePath sel st) = Normal outcome.
Proof.
  unfold selectBranchFiles, tryCatch.
  match goal with |- context [bind ?m ?k st] => destruct (bind m k st) as [[o|e] s] end;
    eexists; reflexivity.
Qed.

(** The run from the check on: the check is its first command, at most
    nine others follow, and all run in the repository path. *)
Lemma selectBranchFiles_calls
    (host : Host) (workspacePath : string) (sel : DirectoryItem) (st : Frame) :
  let repoPath := repoPathOf workspacePath sel in
  exists made,
    calls (snd (selectBranchFiles host workspacePath sel st))
    = (calls st ++ mkCall repoPath gitCheckCommand :: made)%list /\
    List.length made <= 9 /\
    Forall (fun c => call_cwd c = repoPath) made.
Proof.
  intros repoPath.
  destruct (spends_selectBranchFiles host workspacePath sel st)
    as [all [Hall [Hlen Hcwd]]]. fold repoPath in Hcwd.
  assert (Hfirst : exists rest : M Outcome,
            grows rest /\
            selectBranchFiles host workspacePath sel st
            = rest (mkFrame (calls st ++ [mkCall repoPath gitCheckCommand])
                            (committedFiles st) (modifiedFiles st))).
  { unfold selectBranchFiles. fold repoPath.
    eexists (tryCatch
      (match (match execOracle host (List.length (calls st)) repoPath
                      gitCheckCommand with
              | Stdout _ => None
              | Throws _ => if isExternal sel
                            then Some (ShowError notGitMessage) else None
              end) with
       | Some outcome => ret outcome
       | None => _
       end) _).
    split; cycle 1.
    - unfold tryCatch at 1, bind at 1. rewrite checkGitRepo_run.
      reflexivity.
    - apply grows_tryCatch; [|intros e; apply grows_ret].
      destruct (match execOracle host _ repoPath gitCheckCommand with
                | Stdout _ => None | Throws _ => _ end);
        [apply grows_ret|].
      unfold listBranches, resolveBase.
      repeat (grows_step || apply grows_showBranchFiles). }
  destruct Hfirst as [rest [Hgrows Hrun]].
  destruct (Hgrows (mkFrame (calls st ++ [mkCall repoPath gitCheckCommand])
                            (committedFiles st) (modifiedFiles st)))
    as [made Hmade].
  rewrite <- Hrun in Hmade. cbn [calls] in Hmade.
  rewrite <- app_assoc in Hmade. cbn [app] in Hmade.
  rewrite Hall in Hmade. apply app_inv_head in Hmade. subst all.
  exists made. split; [exact Hall|]. cbn [List.length] in Hlen.
  split; [lia | now apply Forall_inv_tail in Hcwd].
Qed.

(** X18.  No folder, no process.  The command runs no process exactly when
    the editor has no first workspace folder, and then it ends with an
    error message: "No workspace folder is open." when there is no
    workspace, and the message of the outer handler, with what the engine
    says of the missing folder, when the workspace has no folder.  With a
    first folder the first process is the listing of the directories in
    that folder, the other folders of the workspace change nothing, and no
    exception leaves the command. *)
Theorem no_folder_no_process
    (host : Host) (wb : Workbench) (workspaceFolders : option (list string))
    (st : Frame) :
  let run := selectBranchFilesCommand host wb workspaceFolders st in
  (calls (snd run) = calls st <->
   workspaceFolders = None \/ workspaceFolders = Some []) /\
  (workspaceFolders = None ->
   run = (Normal (ShowError "No workspace folder is open."), st)) /\
  (workspaceFolders = Some [] ->
   run = (Normal (ShowError ("An error occurred: "
                             ++ readOfUndefinedMessage wb)), st)) /\
  (forall workspacePath others,
     workspaceFolders = Some (workspacePath :: others) ->
     nth_error (calls (snd run)) (List.length (calls st))
       = Some (mkCall workspacePath getDirectoriesCommand) /\
     run = selectBranchFilesCommand host wb (Some [workspacePath]) st /\
     exists outcome, fst run = Normal outcome).
Proof.
  intros run.
  assert (Hfolder : forall workspacePath others,
            workspaceFolders = Some (workspacePath :: others) ->
            exists made,
              calls (snd run)
              = (calls st ++ mkCall workspacePath getDirectoriesCommand
                   :: made)%list).
  { intros workspacePath others ->. subst run.
    unfold selectBranchFilesCommand, bind. rewrite listDirectories_run.
    destruct (pickDirectory wb _) as [directorySelection|].
    - match goal with
      | |- context [selectBranchFiles host workspacePath ?sel ?fr] =>
          destruct (selectBranchFiles_calls host workspacePath sel fr)
            as [made [Hmade _]]
      end.
      rewrite Hmade. cbn [calls]. rewrite <- app_assoc. cbn [app].
      eexists. reflexivity.
    - exists []. reflexivity. }
  split; [|split; [|split]].
  - split.
    + intros Hsame. destruct workspaceFolders as [[|workspacePath others]|];
        auto.
      destruct (Hfolder workspacePath others eq_refl) as [made Hmade].
      rewrite Hmade in Hsame. apply (f_equal (@List.length Call)) in Hsame.
      rewrite length_app in Hsame. cbn [List.length] in Hsame. lia.
    + intros [->| ->]; reflexivity.
  - intros ->. reflexivity.
  - intros ->. reflexivity.
  - intros workspacePath others Hw.
    destruct (Hfolder workspacePath others Hw) as [made Hmade].
    split; [|split].
    + rewrite Hmade, nth_error_app2 by lia. now rewrite Nat.sub_diag.
    + subst run. rewrite Hw. reflexivity.
    + subst run. rewrite Hw.
      unfold selectBranchFilesCommand, bind. rewrite listDirectories_run.
      destruct (pickDirectory wb _) as [directorySelection|].
      * apply selectBranchFiles_normal.
      * eexists. reflexivity.
Qed.

(** X19.  Where the whole command runs git.  The first process lists the
    directories, in the first workspace folder, and at most ten more
    follow; none does when the folder quick pick is dismissed.  When the
    pick is the browse entry and the first folder chosen in the dialog has
    a path that does not start with the path of the workspace folder, the
    check of the repository and every later process run in the chosen
    folder.  In every other case (a listed folder, the root, a dismissed
    dialog, a chosen folder under the workspace path) they run in the
    workspace folder. *)
Theorem command_runs_in_workspace_or_picked_folder
    (host : Host) (wb : Workbench) (workspacePath : string)
    (others : list string) (st : Frame) :
  let n := List.length (calls st) in
  let listed :=
    match execOracle host n workspacePath getDirectoriesCommand with
    | Stdout out => filter notBlank (JS.splitLines out)
    | Throws _ => []
    end in
  let picked := pickDirectory wb (directoryItemsOf ("." :: listed)) in
  let run := selectBranchFilesCommand host wb
               (Some (workspacePath :: others)) st in
  exists made,
    calls (snd run)
    = (calls st ++ mkCall workspacePath getDirectoriesCommand :: made)%list /\
    List.length made <= 10 /\
    (picked = None -> made = []) /\
    (forall directorySelection chosen rest,
       picked = Some directorySelection ->
       pick_isBrowseOption directorySelection = true ->
       showOpenDialog wb workspacePath = Some (chosen :: rest) ->
       JS.startsWith chosen workspacePath = false ->
       hd_error made = Some (mkCall chosen gitCheckCommand) /\
       Forall (fun c => call_cwd c = chosen) made) /\
    (forall directorySelection,
       picked = Some directorySelection ->
       (pick_isBrowseOption directorySelection = false \/
        showOpenDialog wb workspacePath = None \/
        showOpenDialog wb workspacePath = Some [] \/
        exists chosen rest,
          showOpenDialog wb workspacePath = Some (chosen :: rest) /\
          JS.startsWith chosen workspacePath = true) ->
       hd_error made = Some (mkCall workspacePath gitCheckCommand) /\
       Forall (fun c => call_cwd c = workspacePath) made).
Proof.
  intros n listed picked run. subst run.
  unfold selectBranchFilesCommand, bind. rewrite listDirectories_run.
  fold n listed picked. set (after := mkFrame _ _ _).
  destruct picked as [directorySelection|] eqn:Epicked; cycle 1.
  { exists []. cbn [snd calls after ret]. split; [reflexivity|].
    split; [simpl; lia|]. split; [reflexivity|].
    split; intros; discriminate. }
  set (sel := selectedDirectoryOf wb workspacePath directorySelection).
  destruct (selectBranchFiles_calls host workspacePath sel after)
    as [made [Hcalls [Hlen Hcwd]]].
  exists (mkCall (repoPathOf workspacePath sel) gitCheckCommand :: made).
  split.
  { rewrite Hcalls. unfold after. cbn [calls]. rewrite <- app_assoc.
    reflexivity. }
  split; [cbn [List.length]; lia|]. split; [discriminate|].
  assert (Hall : Forall (fun c => call_cwd c = repoPathOf workspacePath sel)
                   (mkCall (repoPathOf workspacePath sel) gitCheckCommand
                    :: made)).
  { constructor; [reflexivity | exact Hcwd]. }
  split.
  - intros d chosen rest [= <-] Hbrowse Hdialog Hprefix.
    assert (Hrepo : repoPathOf workspacePath sel = chosen).
    { unfold sel, selectedDirectoryOf, repoPathOf.
      rewrite Hbrowse, Hdialog. cbn [isExternal absolutePath].
      now rewrite Hprefix. }
    rewrite Hrepo in *. split; [reflexivity | exact Hall].
  - intros d [= <-] Hcases.
    assert (Hrepo : repoPathOf workspacePath sel = workspacePath).
    { unfold sel, selectedDirectoryOf, repoPathOf.
      destruct Hcases as [Hplain|[Hnone|[Hempty|[chosen [rest [Hd Hp]]]]]].
      - now rewrite Hplain.
      - destruct (pick_isBrowseOption directorySelection);
          [now rewrite Hnone | reflexivity].
      - destruct (pick_isBrowseOption directorySelection);
          [now rewrite Hempty | reflexivity].
      - destruct (pick_isBrowseOption directorySelection);
          [rewrite Hd; cbn [isExternal]; now rewrite Hp | reflexivity]. }
    rewrite Hrepo in *. split; [reflexivity | exact Hall].
Qed.

(** The folder is chosen in the dialog, outside the workspace: the listing
    runs in the workspace folder, the check and the branch list in the
    chosen one. *)
Example external_pick_runs_in_chosen_folder :
  let wb := mkWorkbench (fun _ => Some browseItem) (fun _ => Some ["/other"])
              (fun _ selected => selected)
              (fun workspacePath dir => workspacePath ++ "/" ++ dir)
              "Cannot read properties of undefined (reading 'uri')" in
  let host := tableHost
    [(gitCheckCommand, lines ["true"]);
     (branchListCommand, lines ["* main"])] "none" in
  selectBranchFilesCommand host wb (Some ["/ws"]) emptyFrame
  = (Normal NoSelection,
     mkFrame [mkCall "/ws" getDirectoriesCommand;
              mkCall "/other" gitCheckCommand;
              mkCall "/other" branchListCommand] [] []).
Proof. reflexivity. Qed.

(** A workspace without a folder. *)
Example empty_workspace_is_an_error :
  selectBranchFilesCommand (tableHost [] "none") rootWorkbench (Some [])
    emptyFrame
  = (Normal (ShowError
       "An error occurred: Cannot read properties of undefined (reading 'uri')"),
     emptyFrame).
Proof. reflexivity. Qed.

(* ================================================================== *)
(** ** The files of a commit *)
(* ================================================================== *)

Lemma notBlank_append_l (a b : string) :
  notBlank a = true -> notBlank (a ++ b) = true.
Proof.
  rewrite !notBlank_allWhiteSpace, allWhiteSpace_append.
  intros H. apply negb_true_iff in H. now rewrite H.
Qed.

(** The item of a line of the log. *)
Lemma commitItemOf_line (c : LoggedCommit) :
  freeOf " " (logged_hash c) = true -> freeOf " " (logged_date c) = true ->
  commitItemOf (commitLine c)
  = Some (mkCommitItem (logged_hash c ++ " (" ++ logged_date c ++ ")")
            (logged_subject c) (logged_hash c)).
Proof.
  intros Hh Hd. unfold commitItemOf, commitLine.
  rewrite separator_append, split_append, (split_free _ _ Hh).
  rewrite separator_append, split_append, (split_free _ _ Hd).
  cbn [app List.length]. 
  destruct (JSArray.split " " (logged_subject c)) as [|piece pieces] eqn:E;
    [now apply split_not_nil in E|].
  cbn [List.length Nat.leb nth skipn]. rewrite <- E, join_split. reflexivity.
Qed.

(** X20.  Reading the log.  The log of line 20, a line per commit with the
    short hash, the date and the subject, is read back as its commits: the
    label is the hash with the date in brackets, the description the whole
    subject with its spaces, and the hash is kept for the next command.
    Hash and date hold no space, and each part is a single line. *)
Theorem commit_log_round_trip (commits : list LoggedCommit) :
  Forall (fun c =>
            freeOf " " (logged_hash c) = true /\
            freeOf " " (logged_date c) = true /\
            notBlank (logged_hash c) = true /\
            singleLine (logged_hash c) = true /\
            singleLine (logged_date c) = true /\
            singleLine (logged_subject c) = true) commits ->
  commitItemsOf (JS.splitLines (lines (map commitLine commits)))
  = map (fun c =>
           mkCommitItem (logged_hash c ++ " (" ++ logged_date c ++ ")")
             (logged_subject c) (logged_hash c))
        commits.
Proof.
  intros H. unfold commitItemsOf. rewrite splitLines_lines.
  - rewrite filter_notBlank_lines.
    + induction H as [|c rest [Hh [Hd _]] Hrest IH]; [reflexivity|].
      cbn [map JSArray.dropNull]. rewrite (commitItemOf_line c Hh Hd).
      cbn [JSArray.dropNull]. now rewrite IH.
    + rewrite Forall_map. eapply Forall_impl; [|exact H].
      intros c [_ [_ [Hb _]]]. unfold commitLine. now apply notBlank_append_l.
  - rewrite Forall_map. eapply Forall_impl; [|exact H].
    intros c [_ [_ [_ [H1 [H2 H3]]]]]. unfold singleLine, commitLine in *.
    now rewrite !freeOf_append, H1, H2, H3.
Qed.

Lemma commit_log_round_trip_witness :
  commitItemsOf
    (JS.splitLines
       (lines ["1a2b3c4 2024-05-01 Fix the  sort order";
               "9f8e7d6 2024-04-30 "]))
  = [mkCommitItem "1a2b3c4 (2024-05-01)" "Fix the  sort order" "1a2b3c4";
     mkCommitItem "9f8e7d6 (2024-04-30)" "" "9f8e7d6"].
Proof.
  apply (commit_log_round_trip
           [mkLoggedCommit "1a2b3c4" "2024-05-01" "Fix the  sort order";
            mkLoggedCommit "9f8e7d6" "2024-04-30" ""]).
  repeat constructor.
Defined.

Lemma showCommitFiles_run
    (wb : CommitWorkbench) (workspacePath : string)
    (selectedCommit : CommitItem) (files : list string) (st : Frame) :
  showCommitFiles wb workspacePath selectedCommit files st =
  (Normal
     (match existingFileUrisOf wb workspacePath files with
      | [] => CommitInformation
                "None of the files in this commit exist in the workspace."
      | _ :: _ =>
          CommitDocument
            (fileListContentOf selectedCommit files
               (existingFileUrisOf wb workspacePath files))
      end),
   st).
Proof.
  unfold showCommitFiles, tryCatch, ret.
  destruct (existingFileUrisOf wb workspacePath files); reflexivity.
Qed.

(** The command, step by step. *)
Lemma selectCommitFiles_run
    (host : Host) (wb : CommitWorkbench) (workspacePath : string) (st : Frame) :
  selectCommitFiles host wb workspacePath st =
  let n := List.length (calls st) in
  let logged := mkCall workspacePath commitLogCommand in
  let after1 :=
    mkFrame (calls st ++ [logged]) (committedFiles st) (modifiedFiles st) in
  match execOracle host n workspacePath commitLogCommand with
  | Throws e => (Normal (CommitError ("An error occurred: " ++ e)), after1)
  | Stdout out =>
      match pickCommit wb (commitItemsOf (JS.splitLines out)) with
      | None => (Normal CommitNoSelection, after1)
      | Some selectedCommit =>
          let command := commitFilesCommand (commit_hash selectedCommit) in
          let after2 :=
            mkFrame (calls st ++ [logged; mkCall workspacePath command])
                    (committedFiles st) (modifiedFiles st) in
          match execOracle host (S n) workspacePath command with
          | Throws e =>
              (Normal (CommitError ("An error occurred: " ++ e)), after2)
          | Stdout shown =>
              let files := filter JS.truthy (JS.splitLines shown) in
              match files with
              | [] =>
                  (Normal (CommitInformation
                             "No files found in the selected commit."),
                   after2)
              | _ :: _ =>
                  match existingFileUrisOf wb workspacePath files with
                  | [] =>
                      (Normal (CommitInformation
                         "None of the files in this commit exist in the workspace."),
                       after2)
                  | _ :: _ =>
                      (Normal (CommitDocument
                                 (fileListContentOf selectedCommit files
                                    (existingFileUrisOf wb workspacePath files))),
                       after2)
                  end
              end
          end
      end
  end.
Proof.
  cbv zeta. unfold selectCommitFiles.
  unfold tryCatch at 1, bind at 1. rewrite execSync_run.
  destruct (execOracle host _ workspacePath commitLogCommand) as [out|e0];
    [|reflexivity].
  destruct (pickCommit wb (commitItemsOf (JS.splitLines out)))
    as [selectedCommit|]; [|reflexivity].
  unfold bind. rewrite execSync_run.
  cbn [calls committedFiles modifiedFiles].
  rewrite length_app, Nat.add_comm. cbn [List.length Nat.add].
  rewrite <- app_assoc. cbn [app].
  destruct (execOracle host _ workspacePath
              (commitFilesCommand (commit_hash selectedCommit)))
    as [shown|e1]; [|reflexivity].
  destruct (filter JS.truthy (JS.splitLines shown)) as [|file files] eqn:E;
    [reflexivity|].
  cbn [List.length Nat.eqb]. rewrite showCommitFiles_run.
  destruct (existingFileUrisOf wb workspacePath (file :: files)); reflexivity.
Qed.

(** X21.  The failures of the commit command.  Here a git command that fails
    ends the command: the failure of the log, or of the listing of the
    files of the picked commit, is shown as "An error occurred: " and its
    message, and nothing runs after it.  The command runs the log, and the
    listing if a commit is picked: at most two processes, both in the
    workspace folder, and it never throws. *)
Theorem commit_command_reports_failures
    (host : Host) (wb : CommitWorkbench) (workspacePath : string) (st : Frame) :
  let n := List.length (calls st) in
  let logged := mkCall workspacePath commitLogCommand in
  let run := selectCommitFiles host wb workspacePath st in
  (exists outcome, fst run = Normal outcome) /\
  (exists made,
     calls (snd run) = (calls st ++ logged :: made)%list /\
     List.length made <= 1 /\
     Forall (fun c => call_cwd c = workspacePath) made) /\
  (forall e,
     execOracle host n workspacePath commitLogCommand = Throws e ->
     run = (Normal (CommitError ("An error occurred: " ++ e)),
            mkFrame (calls st ++ [logged])%list (committedFiles st)
                    (modifiedFiles st))) /\
  (forall out selectedCommit e,
     execOracle host n workspacePath commitLogCommand = Stdout out ->
     pickCommit wb (commitItemsOf (JS.splitLines out)) = Some selectedCommit ->
     execOracle host (S n) workspacePath
       (commitFilesCommand (commit_hash selectedCommit)) = Throws e ->
     run = (Normal (CommitError ("An error occurred: " ++ e)),
            mkFrame (calls st ++
                     [logged;
                      mkCall workspacePath
                        (commitFilesCommand (commit_hash selectedCommit))])%list
                    (committedFiles st) (modifiedFiles st))).
Proof.
  intros n logged run. subst run. rewrite selectCommitFiles_run. cbv zeta.
  fold n logged.
  assert (Hnone :
    exists made, (calls st ++ [logged])%list = (calls st ++ logged :: made)%list
                 /\ List.length made <= 1 /\
                 Forall (fun c => call_cwd c = workspacePath) made).
  { exists []. split; [reflexivity|]. split; [simpl; lia | constructor]. }
  assert (Hone : forall command,
    exists made, (calls st ++ [logged; mkCall workspacePath command])%list
                 = (calls st ++ logged :: made)%list
                 /\ List.length made <= 1 /\
                 Forall (fun c => call_cwd c = workspacePath) made).
  { intros command. exists [mkCall workspacePath command].
    split; [reflexivity|]. split; [simpl; lia | repeat constructor]. }
  destruct (execOracle host n workspacePath commitLogCommand) as [out|e0].
  - destruct (pickCommit wb (commitItemsOf (JS.splitLines out)))
      as [selectedCommit|] eqn:Epick.
    + destruct (execOracle host (S n) workspacePath
                  (commitFilesCommand (commit_hash selectedCommit)))
        as [shown|e1] eqn:Eshow.
      * destruct (filter JS.truthy (JS.splitLines shown)) as [|file files];
          [|destruct (existingFileUrisOf wb workspacePath (file :: files))];
          (split; [eexists; reflexivity|]);
          (split; [apply Hone|]);
          (split; [discriminate|]);
          intros out' c' e' [= <-] Hp Hs; rewrite Epick in Hp;
          injection Hp as <-; rewrite Eshow in Hs; discriminate Hs.
      * split; [eexists; reflexivity|]. split; [apply Hone|].
        split; [discriminate|].
        intros out' c' e' [= <-] Hp Hs. rewrite Epick in Hp.
        injection Hp as <-. rewrite Eshow in Hs. injection Hs as <-.
        reflexivity.
    + split; [eexists; reflexivity|]. split; [apply Hnone|].
      split; [discriminate|].
      intros out' c' e' [= <-] Hp. rewrite Epick in Hp. discriminate Hp.
  - split; [eexists; reflexivity|]. split; [apply Hnone|].
    split; [intros e [= <-]; reflexivity|].
    intros out' c' e' H; discriminate H.
Qed.

Lemma mapIndexed_Forall {A B} (P : B -> Prop) (f : A -> nat -> B)
    (index : nat) (arr : list A) :
  (forall x i, In x arr -> P (f x i)) ->
  Forall P (JSArray.mapIndexed f index arr).
Proof.
  revert index. induction arr as [|x rest IH]; intros index H;
    cbn [JSArray.mapIndexed]; constructor.
  - apply H. now left.
  - apply IH. intros y i Hy. apply H. now right.
Qed.

Lemma fileLine_singleLine (existingFsPaths : list string) (file : string)
    (index : nat) :
  singleLine file = true ->
  singleLine (fileLine existingFsPaths file index) = true.
Proof.
  intros H. unfold fileLine, singleLine in *.
  pose proof (numberToString_singleLine (index + 1)) as Hn.
  unfold singleLine in Hn. rewrite !freeOf_append, Hn, H.
  now destruct (listedAsExisting existingFsPaths file).
Qed.

(** X22.  The document of a commit.  When the log is read, a commit is picked
    and its files are listed: without a file the command says that no
    files were found; when [stat] finds none of them it says that none
    exists in the workspace; otherwise it opens a document with a heading,
    an empty line and a numbered line for every file of the commit, found
    or not, in the order of the listing. *)
Theorem commit_document_lists_every_file
    (host : Host) (wb : CommitWorkbench) (workspacePath : string) (st : Frame)
    (out shown : string) (selectedCommit : CommitItem) :
  let n := List.length (calls st) in
  let files := filter JS.truthy (JS.splitLines shown) in
  let existing := existingFileUrisOf wb workspacePath files in
  let run := selectCommitFiles host wb workspacePath st in
  execOracle host n workspacePath commitLogCommand = Stdout out ->
  pickCommit wb (commitItemsOf (JS.splitLines out)) = Some selectedCommit ->
  execOracle host (S n) workspacePath
    (commitFilesCommand (commit_hash selectedCommit)) = Stdout shown ->
  singleLine (commit_label selectedCommit) = true ->
  (files = [] ->
   fst run = Normal (CommitInformation "No files found in the selected commit."))
  /\
  (files <> [] -> existing = [] ->
   fst run = Normal (CommitInformation
                       "None of the files in this commit exist in the workspace."))
  /\
  (files <> [] -> existing <> [] ->
   exists content,
     fst run = Normal (CommitDocument content) /\
     JS.splitLines content
     = ("# Files in commit " ++ commit_label selectedCommit)
       :: "" :: JSArray.mapIndexed (fileLine existing) 0 files).
Proof.
  intros n files existing run Hlog Hpick Hshow Hlabel. subst run.
  rewrite selectCommitFiles_run. cbv zeta. fold n.
  rewrite Hlog, Hpick, Hshow. fold files. fold existing.
  assert (Hfiles : Forall (fun file => singleLine file = true) files).
  { unfold files. apply Forall_filter, splitLines_singleLine. }
  destruct files as [|file rest] eqn:Efiles.
  - split; [reflexivity|]. split; intros H; congruence.
  - split; [discriminate|].
    destruct existing as [|found others] eqn:Eexisting.
    + split; [reflexivity|]. intros _ H. congruence.
    + split; [discriminate|]. intros _ _. eexists. split; [reflexivity|].
      unfold fileListContentOf.
      rewrite <- append_assoc.
      change (String JS.LF (String JS.LF "") ++ ?x)
        with (String JS.LF (String JS.LF x)).
      rewrite splitLines_split, split_append.
      rewrite split_free.
      * cbn [app JSArray.split]. rewrite Ascii.eqb_refl.
        f_equal. f_equal. apply split_join.
        -- cbn [JSArray.mapIndexed]. discriminate.
        -- apply mapIndexed_Forall. intros x i Hx.
           apply fileLine_singleLine. rewrite Forall_forall in Hfiles. auto.
      * unfold singleLine in Hlabel. now rewrite freeOf_append, Hlabel.
Qed.

(** A commit with two files, one of which is still there. *)
Lemma commit_document_lists_every_file_witness :
  let host := tableHost
    [(commitLogCommand, lines ["1a2b3c4 2024-05-01 Fix the sort order"]);
     (commitFilesCommand "1a2b3c4", lines [""; "src/a.ts"; "old/b.ts"])]
    "none" in
  let wb := plainWorkspace "1a2b3c4" ["/ws/src/a.ts"] in
  exists content,
    fst (selectCommitFiles host wb "/ws" emptyFrame)
    = Normal (CommitDocument content) /\
    JS.splitLines content
    = ["# Files in commit 1a2b3c4 (2024-05-01)"; "";
       "1. src/a.ts (exists)"; "2. old/b.ts (not found)"].
Proof.
  intros host wb.
  apply (proj2 (proj2 (commit_document_lists_every_file host wb "/ws"
                         emptyFrame
                         (lines ["1a2b3c4 2024-05-01 Fix the sort order"])
                         (lines [""; "src/a.ts"; "old/b.ts"])
                         (mkCommitItem "1a2b3c4 (2024-05-01)"
                            "Fix the sort order" "1a2b3c4")
                         eq_refl eq_refl eq_refl eq_refl)));
    discriminate.
Defined.

(** X23.  A file that is gone may be listed as existing.  A file of the commit
    is marked "(exists)" as soon as the path of some file that [stat] finds
    ends with its name, backslashes read as slashes: its own path if it is
    found, but also the path of another file of the commit. *)
Theorem file_listed_as_existing_by_suffix
    (wb : CommitWorkbench) (workspacePath : string) (files : list string)
    (file other : string) (index : nat) :
  In other files ->
  statSucceeds wb (fileFsPath wb workspacePath other) = true ->
  JS.endsWith (JSArray.backslashesToSlashes (fileFsPath wb workspacePath other))
              (JSArray.backslashesToSlashes file) = true ->
  fileLine (existingFileUrisOf wb workspacePath files) file index
  = JSArray.numberToString (index + 1) ++ ". " ++ file ++ " (exists)".
Proof.
  intros Hin Hstat Hends. unfold fileLine.
  assert (H : listedAsExisting (existingFileUrisOf wb workspacePath files) file
              = true).
  { unfold listedAsExisting. apply existsb_exists.
    exists (fileFsPath wb workspacePath other). split; [|exact Hends].
    unfold existingFileUrisOf. apply filter_In. split; [|exact Hstat].
    now apply in_map. }
  now rewrite H.
Qed.

(** "a.ts" was deleted from the root; "src/a.ts" is there. *)
Lemma file_listed_as_existing_by_suffix_witness :
  let wb := plainWorkspace "1a2b3c4" ["/ws/src/a.ts"] in
  statSucceeds wb (fileFsPath wb "/ws" "a.ts") = false /\
  fileLine (existingFileUrisOf wb "/ws" ["a.ts"; "src/a.ts"]) "a.ts" 0
  = "1. a.ts (exists)".
Proof.
  intros wb. split; [reflexivity|].
  apply (file_listed_as_existing_by_suffix wb "/ws" ["a.ts"; "src/a.ts"]
           "a.ts" "src/a.ts" 0); [simpl; auto | reflexivity | reflexivity].
Defined.
